(* ===== verification/_CoqProject ===== *)
-Q . S2P
Prelude.v
Js.v
FilterCompiler.v
World.v
SavedQueries.v
QueryService.v
PromptService.v
Controllers.v
Router.v
Items.v
