(* ===== verification/Prelude.v ===== *)
(** * A verification development for the Webservices-cw middleware

    The repository is a small Express/TypeScript gateway
    ([src/middleware]).  It receives REST requests, turns some of them into
    analytical SQL text that it posts to an external "data manager", asks an
    LLM for SQL on another route and keeps the generated queries in a
    Postgres table.  A second, independent Express program
    ([src/middleware/index.js]) is an in-memory CRUD server for "items".

    ** Parts of the program and how they interact

    A request reaches the router of [index.ts], which calls a handler of
    [controller/queryController.ts] or [controller/response.controller.ts].
    The query handlers call [QueryService] ([services/query.service.ts]):
    [queryData] compiles the request's JSON filter with [buildQuery] and
    posts a [SELECT] to the data manager; nine fixed queries post SQL
    templates; [generatePrompt] asks the data manager to describe tables,
    asks the model ([services/openai.service.ts]) for SQL, extracts the
    fenced block and saves it with [util/databasePg.ts]; [saveQuery]
    saves a query directly.  The response handlers read the saved queries
    back ([services/response.service.ts]) and post one to the data
    manager's execute endpoint; their failures go to [globalErrorHandler]
    ([services/exception.service.ts]).  [index.js] is a separate server.

    ** Files, in dependency order

    - [Prelude.v] (this file): the [result] error monad with [let*] in
      [result_scope], [map_result] (a left-to-right map that stops at the
      first exception, as [Array.prototype.map] does when the callback
      throws), string helpers ([join] is [Array.prototype.join],
      [str_of_Z] is [Number.prototype.toString] on integers, [count_char]),
      the parenthesis scan used by the filter invariants, the hint
      databases [webcw] and [webcw_rw] and the shared tactics.
    - [Js.v], Module [Js]: JSON values as the body parser produces them
      ([json]) with a nested induction principle, and the JavaScript
      operations the code relies on ([in], property reads,
      [Object.keys] order, destructuring, [toString] and template
      conversion, truthiness), each returning [result js_exn _] so that a
      [TypeError] is a value.  [js_exn] holds the engine's errors, the
      repository's [CustomError], node-postgres's and axios's errors.
    - [FilterCompiler.v]: Module [FilterCompiler] is [buildQuery] line by
      line ([build_query_fuel]; the fuel is the call-stack budget and
      running out of it is the engine's [RangeError]); [build_query] runs
      it with [json_depth q] frames.  Module [FilterSpec] is the spec's
      contract (sections 3-4): a typed [filter] syntax, its rendering
      [compile], its wire encoding [encode] and a validating [decode].
    - [World.v], Module [World]: the state the services run against:
      [process.env] ([env]), the Postgres server and pool ([db_state]: the
      table, its rows, the [SERIAL] sequence and the checked-out clients),
      the trace of external requests ([ext_call]) and [randomUUID] (a
      counter).  [io] is a state-and-exception monad ([let!], [do!] in
      [io_scope]) with [catch] and [finally]; effects before a [throw]
      persist.  The external services are a type class [Backend]: what
      they answer is a parameter of every theorem.
    - [SavedQueries.v], Module [SavedQueries]: the four functions of
      [databasePg.ts], the server's behaviour on their statements, and
      node-postgres's conversion of parameters.
    - [QueryService.v], Module [QueryService]: [queryData] and the nine
      fixed queries; their SQL texts are the source's template literals,
      character for character.
    - [PromptService.v], Module [PromptService]: [generatePrompt] in three
      stages ([build_prompt], [completion], [answer_prompt]),
      [extractQuery] with its regular expression as a leftmost lazy search
      ([sql_fence_match]), and [saveQuery].
    - [Controllers.v], Module [Controllers]: every handler as an [io]
      computation ending in a [reply] (status and JSON body), the response
      service, the JSON serialisation of errors ([exn_json]) and
      [globalErrorHandler].
    - [Router.v], Module [Router]: Express 4's path matching ([match_path]),
      the route table of [index.ts], the [GET /] switch and the application
      [app] with the 404 of unmatched requests and the error middleware.
    - [Items.v], Module [Items]: the items server of [index.js] as a step
      function on its array ([parseInt], [findIndex], [push], index
      assignment and [splice] with stdpp's list [insert] and [delete]).

    ** What the theorems show

    - Filter compiler: refinement of the spec's rendering on every body that
      decodes to a typed filter, and [decode] inverts [encode]; termination
      (any budget of [json_depth q] frames gives the result); the error
      kinds and each early return; the parenthesis invariant; the findings
      below.
    - Saved queries: every function releases its pool client on every
      path; insert then lookup returns the saved text; the row an insert
      appends (columns in order, the next sequence value) and the wrapping
      of a refused row; the nested [catch]es of the lookup.
    - Query service: [queryData] posts exactly the compiled clause and never
      posts a rejected filter.
    - Prompt generation: the handler saves and returns the first fenced
      block (the regular expression's match is characterised); its guards,
      the model's failure and the whole-answer fallback.
    - Controllers and router: the query handlers reply 200 or one fixed 500
      body; [POST /save-query]'s guard and effect; the response service's
      request for unknown ids and its error wrapping; the route table of
      [index.ts] (which handler each path and method reaches, and whether
      its failures go to [globalErrorHandler]), and the routes
      [/execute/:id], [/getPrompts] and [/] end to end.
    - Items: post then get; put replaces and delete removes the first
      match; ids are read by [parseInt]'s prefix.
    - Findings: ["="] is rejected although the spec and [types.ts] name it;
      values are not escaped (filters and dates inject SQL); two queries
      post [${process.env.BUCKET_NAME}] literally; error texts never reach
      the client of the query routes; saved rows get random customer ids;
      unknown ids are executed as [null]; the response routes use the number
      200 as [status].

    ** Modelling choices and bounds

    - JSON numbers are integers ([Z]); [Number.prototype.toString] on them
      is the decimal form, which JavaScript prints for every integer of
      magnitude below 10^21; [parseInt] is exact (the engine rounds above
      2^53).  Fractional numbers are not modelled.
    - Strings are Stdlib [string] (bytes); their length is JavaScript's on
      ASCII text, and case folding and white space are ASCII's.
    - A JSON object is the list of its members as written; reads return
      the last binding of a key and [Object.keys] lists each key once, as
      [JSON.parse] and the engine do.
    - The fuel of [build_query] is [json_depth q]: each call of [buildQuery]
      descends one object and one array level, and the theorems show that
      this budget is enough and that every larger one gives the same
      result.  No other definition needs fuel: everything else is
      structural recursion.
    - [randomUUID] draws from a counter, formatted as a 36-character
      version-4 UUID (distinct below 16^12 draws).
    - The data manager and the model are the [Backend] interface; the
      Postgres server is modelled on what these statements need (table
      presence, rows, sequence, connection refusal, [NOT NULL] and
      [VARCHAR(255)] checks, in the order the server makes them); a
      refused connection carries the fixed text ["connect ECONNREFUSED"]
      (the real one also names the address).
    - Express's path matching ([Router.match_path]) is modelled from its
      documented behaviour (path-to-regexp with the [i] flag), not from
      repository code; its theorems are lemmas for the route theorems.

    ** Not modelled

    [logger.ts] and every log call (logging only; the conversions the log
    templates perform are modelled where they can throw),
    [util/types.ts] (types erased at run time), [config/cors.config] (not in
    the sources), the OpenAI request parameters, percent-decoding of route
    parameters, [app.listen], and the libraries the code only calls
    (express, axios, pg, winston) beyond the behaviour stated above.
*)

From Stdlib Require Import String Ascii ZArith List Lia DecimalString.
Import ListNotations.

(** ** The error monad *)

Inductive result (E A : Type) : Type :=
| Ok (a : A)
| Err (e : E).
Arguments Ok {E A} a.
Arguments Err {E A} e.

Definition bind {E A B} (c : result E A) (k : A -> result E B) : result E B :=
  match c with
  | Ok a => k a
  | Err e => Err e
  end.

Declare Scope result_scope.
Delimit Scope result_scope with result.
Notation "'let*' x ':=' c 'in' k" := (bind c (fun x => k))
  (at level 62, x name, c at next level, right associativity) : result_scope.
Notation "'let*' ' p ':=' c 'in' k" := (bind c (fun x => match x with p => k end))
  (at level 62, p pattern, c at next level, right associativity) : result_scope.

Local Open Scope result_scope.

(** [xs.map(f)] where [f] may throw: the callbacks run left to right and
    the first exception escapes. *)
Fixpoint map_result {E A B} (f : A -> result E B) (l : list A) : result E (list B) :=
  match l with
  | [] => Ok []
  | x :: xs =>
      let* y := f x in
      let* ys := map_result f xs in
      Ok (y :: ys)
  end.

(** ** Strings *)

Local Open Scope string_scope.

(** [arr.join(sep)] on an array of strings: [String.concat] has exactly the
    JavaScript behaviour on [], on one element and on more. *)
Definition join (sep : string) (l : list string) : string := String.concat sep l.

(** [String(n)] for an integer [n]. *)
Definition str_of_Z (z : Z) : string := NilZero.string_of_int (Z.to_int z).

(** Number of occurrences of a character. *)
Fixpoint count_char (c : ascii) (s : string) : nat :=
  match s with
  | EmptyString => 0
  | String d s' => (if Ascii.eqb c d then 1 else 0) + count_char c s'
  end.

(** The characters a decimal numeral is made of. *)
Definition numeral_chars : list ascii :=
  ["0"; "1"; "2"; "3"; "4"; "5"; "6"; "7"; "8"; "9"; "-"]%char.

(** Scanning a string for parentheses: the change of nesting level a
    character makes, the net change over a string, and the highest and
    lowest level reached from a starting level [d]. *)
Definition paren_step (c : ascii) : Z :=
  if Ascii.eqb "(" c then 1 else if Ascii.eqb ")" c then -1 else 0.

Fixpoint paren_net (s : string) : Z :=
  match s with
  | EmptyString => 0
  | String c s' => paren_step c + paren_net s'
  end%Z.

Fixpoint paren_max (s : string) (d : Z) : Z :=
  match s with
  | EmptyString => d
  | String c s' => Z.max d (paren_max s' (d + paren_step c))
  end%Z.

Fixpoint paren_min (s : string) (d : Z) : Z :=
  match s with
  | EmptyString => d
  | String c s' => Z.min d (paren_min s' (d + paren_step c))
  end%Z.

Definition paren_free (s : string) : bool :=
  Nat.eqb (count_char "(" s) 0 && Nat.eqb (count_char ")" s) 0.

(** [Option] traversal: every element must map to [Some]. *)
Fixpoint traverse_option {A B} (f : A -> option B) (l : list A) : option (list B) :=
  match l with
  | [] => Some []
  | x :: l' =>
      match f x with
      | Some y => option_map (cons y) (traverse_option f l')
      | None => None
      end
  end.


(** ** Lemmas on results *)

Lemma bind_ok {E A B} (c : result E A) (k : A -> result E B) b :
  bind c k = Ok b <-> exists a, c = Ok a /\ k a = Ok b.
Proof.
  destruct c as [a|e]; simpl; split.
  - intros H. now exists a.
  - now intros (a' & [= ->] & H).
  - discriminate.
  - now intros (a' & H & _).
Qed.

Lemma bind_err {E A B} (c : result E A) (k : A -> result E B) e :
  bind c k = Err e <-> c = Err e \/ exists a, c = Ok a /\ k a = Err e.
Proof.
  destruct c as [a|e']; simpl; split.
  - intros H. right. now exists a.
  - intros [H | (a' & [= <-] & H)]; [discriminate | exact H].
  - intros [= ->]. now left.
  - intros [H | (a' & H & _)]; [now inversion H | discriminate].
Qed.

Lemma map_result_ok {E A B} (f : A -> result E B) l ys :
  map_result f l = Ok ys <-> Forall2 (fun x y => f x = Ok y) l ys.
Proof.
  revert ys; induction l as [|x l IH]; intros ys; simpl.
  - split; [intros [= <-]; constructor | intros H; now inversion H].
  - rewrite bind_ok. split.
    + intros (y & Hy & Hk). apply bind_ok in Hk as (ys' & Hys & [= <-]).
      constructor; [exact Hy | now apply IH].
    + intros H; inversion H as [|? y ? ys' Hy Hys]; subst.
      exists y; split; [exact Hy|]. apply bind_ok. exists ys'.
      split; [now apply IH | reflexivity].
Qed.

(** The first exception of the list is the one that escapes. *)
Lemma map_result_first_err {E A B} (f : A -> result E B) pre x post ys e :
  map_result f pre = Ok ys -> f x = Err e ->
  map_result f (pre ++ x :: post) = Err e.
Proof.
  revert ys; induction pre as [|p pre IH]; intros ys Hpre Hx; simpl.
  - now rewrite Hx.
  - simpl in Hpre. destruct (f p) as [y|]; [simpl in *|discriminate].
    destruct (map_result f pre) as [ys'|] eqn:E'; [|discriminate].
    now rewrite (IH ys' eq_refl Hx).
Qed.

(** An exception out of [map_result] is one of the callback's. *)
Lemma map_result_err_in {E A B} (f : A -> result E B) l e :
  map_result f l = Err e -> exists x, In x l /\ f x = Err e.
Proof.
  induction l as [|x l IH]; simpl; [discriminate|].
  intros H. apply bind_err in H as [H | (y & _ & H)]; [now exists x; split; [left|]|].
  apply bind_err in H as [H | (ys & _ & [=])].
  destruct (IH H) as (x' & Hin & Hx'). exists x'. split; [now right | exact Hx'].
Qed.

Lemma map_result_ext_in {E A B} (f g : A -> result E B) l :
  (forall x, In x l -> f x = g x) -> map_result f l = map_result g l.
Proof.
  induction l as [|x l IH]; intros H; simpl; [reflexivity|].
  rewrite (H x (or_introl eq_refl)), IH; [reflexivity|].
  intros y Hy; apply H; now right.
Qed.

Lemma map_result_pure {E A B} (f : A -> result E B) (g : A -> B) l :
  (forall x, In x l -> f x = Ok (g x)) -> map_result f l = Ok (map g l).
Proof.
  intros H. apply map_result_ok. induction l as [|x l IH]; simpl; constructor.
  - apply H; now left.
  - apply IH; intros y Hy; apply H; now right.
Qed.

Lemma traverse_option_Forall2 {A B} (f : A -> option B) l l' :
  traverse_option f l = Some l' <-> Forall2 (fun x y => f x = Some y) l l'.
Proof.
  revert l'; induction l as [|x l IH]; intros l'; simpl.
  - split; [intros [= <-]; constructor | intros H; now inversion H].
  - destruct (f x) as [y|] eqn:Hx; split.
    + destruct (traverse_option f l) eqn:Ht; simpl; intros [= <-].
      constructor; [exact Hx | now apply IH].
    + intros H; inversion H as [|? y' ? l'' Hy Hl]; subst. rewrite Hx in Hy; inversion Hy; subst.
      apply IH in Hl. now rewrite Hl.
    + discriminate.
    + intros H; inversion H as [|? y' ? l'' Hy Hl]; subst. congruence.
Qed.

Lemma map_result_Forall2_map {E A B C} (f : A -> result E B) (g : C -> B) l l' :
  Forall2 (fun x y => f x = Ok (g y)) l l' -> map_result f l = Ok (map g l').
Proof. induction 1 as [|x y l l' Hxy _ IH]; simpl; [reflexivity|]. now rewrite Hxy, IH. Qed.

Lemma Forall2_impl_in_l {A B} (P Q : A -> B -> Prop) l l' :
  (forall x y, In x l -> P x y -> Q x y) -> Forall2 P l l' -> Forall2 Q l l'.
Proof.
  intros H HP. induction HP as [|x y l l' Hxy _ IH]; constructor.
  - apply H; [now left | exact Hxy].
  - apply IH. intros a b Ha. apply H. now right.
Qed.

(** ** Lemmas on strings *)

Lemma string_app_assoc (a b c : string) : (a ++ b) ++ c = a ++ (b ++ c).
Proof. induction a as [|ch a IH]; simpl; [reflexivity | now rewrite IH]. Qed.

Lemma string_app_nil_r (a : string) : a ++ "" = a.
Proof. induction a as [|ch a IH]; simpl; [reflexivity | now rewrite IH]. Qed.

Lemma string_length_app (a b : string) :
  String.length (a ++ b) = String.length a + String.length b.
Proof. induction a as [|ch a IH]; simpl; [reflexivity | now rewrite IH]. Qed.

Lemma count_char_app c a b : count_char c (a ++ b) = count_char c a + count_char c b.
Proof. induction a as [|d a IH]; simpl; [reflexivity | rewrite IH; lia]. Qed.

Lemma count_char_join c sep l :
  count_char c sep = 0 ->
  count_char c (join sep l) = list_sum (map (count_char c) l).
Proof.
  intros Hsep. induction l as [|a [|b l] IH]; simpl; [reflexivity | lia |].
  rewrite count_char_app, count_char_app, Hsep. simpl in IH. rewrite IH. lia.
Qed.

(** Splits a [forallb] over a concrete list into one hypothesis per
    element. *)
Ltac split_forallb H :=
  simpl in H;
  repeat match type of H with
    | andb _ _ = true => let H1 := fresh H in apply andb_prop in H as [H1 H];
                       apply Bool.negb_true_iff in H1
    end;
  try apply Bool.negb_true_iff in H.

Lemma count_char_string_of_uint c u :
  forallb (fun d => negb (Ascii.eqb c d)) numeral_chars = true ->
  count_char c (NilEmpty.string_of_uint u) = 0.
Proof.
  intros H. split_forallb H.
  induction u; simpl; repeat match goal with E : Ascii.eqb c _ = false |- _ => rewrite E; clear E end;
    simpl; assumption || reflexivity.
Qed.

Lemma count_char_str_of_Z c z :
  forallb (fun d => negb (Ascii.eqb c d)) numeral_chars = true ->
  count_char c (str_of_Z z) = 0.
Proof.
  intros H. pose proof (fun u => count_char_string_of_uint c u H) as Hu.
  unfold str_of_Z, NilZero.string_of_int, NilZero.string_of_uint.
  split_forallb H.
  destruct (Z.to_int z) as [u|u]; destruct u; simpl;
    repeat match goal with E : Ascii.eqb c _ = false |- _ => rewrite E; clear E end;
    simpl; try apply Hu; reflexivity.
Qed.

Lemma paren_max_shift s d : paren_max s d = (d + paren_max s 0)%Z.
Proof.
  revert d; induction s as [|c s IH]; intros d; simpl; [lia|].
  rewrite (IH (d + _)%Z), (IH (paren_step c)). lia.
Qed.

Lemma paren_min_shift s d : paren_min s d = (d + paren_min s 0)%Z.
Proof.
  revert d; induction s as [|c s IH]; intros d; simpl; [lia|].
  rewrite (IH (d + _)%Z), (IH (paren_step c)). lia.
Qed.

Lemma paren_net_app a b : paren_net (a ++ b) = (paren_net a + paren_net b)%Z.
Proof. induction a as [|c a IH]; simpl; [reflexivity | rewrite IH; lia]. Qed.

Lemma paren_max_app a b d :
  paren_max (a ++ b) d = Z.max (paren_max a d) (paren_max b (d + paren_net a)).
Proof.
  revert d; induction a as [|c a IH]; intros d; simpl.
  - rewrite Z.add_0_r, paren_max_shift. pose proof (paren_max_shift b d).
    assert (d <= paren_max b d)%Z by (destruct b; simpl; lia). lia.
  - rewrite IH, Z.add_assoc. lia.
Qed.

Lemma paren_min_app a b d :
  paren_min (a ++ b) d = Z.min (paren_min a d) (paren_min b (d + paren_net a)).
Proof.
  revert d; induction a as [|c a IH]; intros d; simpl.
  - rewrite Z.add_0_r. assert (paren_min b d <= d)%Z by (destruct b; simpl; lia). lia.
  - rewrite IH, Z.add_assoc. lia.
Qed.

(** A string with no parentheses leaves the level where it was. *)
Lemma paren_free_scan s d :
  paren_free s = true ->
  paren_net s = 0%Z /\ paren_min s d = d /\ paren_max s d = d.
Proof.
  unfold paren_free. revert d; induction s as [|c s IH]; intros d H; simpl; [lia|].
  change (count_char "(" (String c s)) with ((if Ascii.eqb "(" c then 1 else 0) + count_char "(" s) in H.
  change (count_char ")" (String c s)) with ((if Ascii.eqb ")" c then 1 else 0) + count_char ")" s) in H.
  unfold paren_step.
  destruct (Ascii.eqb "(" c), (Ascii.eqb ")" c); cbn [Nat.add Nat.eqb andb] in H;
    rewrite ?Bool.andb_false_r in H; try discriminate.
  destruct (IH d H) as (H1 & H2 & H3). rewrite Z.add_0_r, H2, H3. lia.
Qed.

(** ** Automation *)

Create HintDb webcw.
Create Rewrite HintDb webcw_rw.
#[export] Hint Rewrite string_app_assoc string_app_nil_r count_char_app : webcw_rw.

(** Normal form of a concatenation of literals and variables. *)
Ltac string_norm := repeat progress (simpl; autorewrite with webcw_rw).

Ltac inv H := inversion H; subst; clear H.

(** Splits every hypothesis [bind c k = Err e] into the step that threw. *)
Ltac split_bind_err :=
  repeat match goal with
    | H : bind _ _ = Err _ |- _ => apply bind_err in H as [H | (? & ? & H)]
    end.

Lemma in_le_list_max x l : In x l -> x <= list_max l.
Proof.
  intros H. pose proof (proj1 (list_max_le l (list_max l)) (le_n _)) as Hall.
  rewrite Forall_forall in Hall. now apply Hall.
Qed.
