(* ===== verification/Js.v ===== *)
(** JavaScript values and the engine operations that the middleware relies
    on: the values [bodyParser.json()] produces, property reads, the [in]
    operator, [Object.keys], destructuring, [typeof], [toString] and the
    conversion of template literals, with the exceptions each one throws.
    The exceptions include the repository's [CustomError]
    (services/exception.service.ts). *)

From Stdlib Require Import String Ascii ZArith NArith List Lia Bool.
From S2P Require Import Prelude.
Import ListNotations.
Local Open Scope string_scope.
Local Open Scope result_scope.

Module Js.

#[local] Set Warnings "-register-all".


(** ** Exceptions *)

(** What a [throw] can carry in this program.  [CustomError] is the class
    of exception.service.ts: an [Error] with an HTTP [code] and an
    optional [status].  [DatabaseError] is what node-postgres throws for
    an error reported by the server; its [name] is ["error"].
    [AxiosError] is what axios throws for a failed request. *)
Inductive js_exn : Type :=
| Error (message : string)
| TypeError (message : string)
| RangeError (message : string)
| CustomError (code : Z) (message : string) (status : option string)
| DatabaseError (message : string)
| AxiosError (message : string).

(** [err.message] *)
Definition exn_message (e : js_exn) : string :=
  match e with
  | Error m | TypeError m | RangeError m | DatabaseError m | AxiosError m => m
  | CustomError _ m _ => m
  end.

(** [err.name]: [CustomError] does not set it, so it inherits ["Error"]. *)
Definition exn_name (e : js_exn) : string :=
  match e with
  | Error _ | CustomError _ _ _ => "Error"
  | TypeError _ => "TypeError"
  | RangeError _ => "RangeError"
  | DatabaseError _ => "error"
  | AxiosError _ => "AxiosError"
  end.

(** [`${err}`], that is [Error.prototype.toString]. *)
Definition exn_to_string (e : js_exn) : string :=
  match exn_message e with
  | EmptyString => exn_name e
  | m => exn_name e ++ ": " ++ m
  end.

(** ** Values *)

(** A value produced by [JSON.parse].  Numbers are integers (see the
    header); an object is the list of its members in source order. *)
Inductive json : Type :=
| JNull
| JBool (b : bool)
| JNum (n : Z)
| JStr (s : string)
| JArr (xs : list json)
| JObj (members : list (string * json)).

(** Induction through the nested lists. *)
Section JsonInd.
Variable P : json -> Prop.
Hypothesis Pnull : P JNull.
Hypothesis Pbool : forall b, P (JBool b).
Hypothesis Pnum : forall n, P (JNum n).
Hypothesis Pstr : forall s, P (JStr s).
Hypothesis Parr : forall xs, Forall P xs -> P (JArr xs).
Hypothesis Pobj : forall ms, Forall (fun kv => P (snd kv)) ms -> P (JObj ms).

Fixpoint json_ind' (v : json) : P v :=
  match v with
  | JNull => Pnull
  | JBool b => Pbool b
  | JNum n => Pnum n
  | JStr s => Pstr s
  | JArr xs =>
      Parr xs ((fix go (l : list json) : Forall P l :=
                  match l with
                  | [] => Forall_nil _
                  | x :: l' => Forall_cons _ (json_ind' x) (go l')
                  end) xs)
  | JObj ms =>
      Pobj ms ((fix go (l : list (string * json)) : Forall (fun kv => P (snd kv)) l :=
                  match l with
                  | [] => Forall_nil _
                  | kv :: l' => Forall_cons _ (json_ind' (snd kv)) (go l')
                  end) ms)
  end.
End JsonInd.

(** Nesting depth: the number of stack frames a recursive walk needs. *)
Fixpoint json_depth (v : json) : nat :=
  match v with
  | JArr xs => S (list_max (map json_depth xs))
  | JObj ms => S (list_max (map (fun kv => json_depth (snd kv)) ms))
  | _ => 1
  end.

(** ** Property keys *)

(** The value of a string of decimal digits, if it is one. *)
Fixpoint digits_value (s : string) (acc : N) : option N :=
  match s with
  | EmptyString => Some acc
  | String c s' =>
      let d := N.of_nat (nat_of_ascii c) in
      if ((48 <=? d) && (d <=? 57))%N then digits_value s' (acc * 10 + (d - 48))%N
      else None
  end.

(** An array index is the canonical decimal form of an integer below
    2^32 - 1: no sign, no leading zero. *)
Definition array_index (k : string) : option N :=
  match k with
  | EmptyString => None
  | String "0" EmptyString => Some 0%N
  | String "0" _ => None
  | _ => match digits_value k 0 with
         | Some n => if (n <? 4294967295)%N then Some n else None
         | None => None
         end
  end.

Definition index_key (n : nat) : string := str_of_Z (Z.of_nat n).

(** [m[k]] on an object: the last member with that key, which is the one
    [JSON.parse] keeps. *)
Fixpoint lookup_member (k : string) (ms : list (string * json)) : option json :=
  match ms with
  | [] => None
  | (k', v) :: ms' =>
      match lookup_member k ms' with
      | Some w => Some w
      | None => if String.eqb k k' then Some v else None
      end
  end.

Definition has_member (k : string) (ms : list (string * json)) : bool :=
  existsb (fun kv => String.eqb k (fst kv)) ms.

(** Each key once, at its first position. *)
Fixpoint dedup_keys (seen : list string) (ms : list (string * json)) : list string :=
  match ms with
  | [] => []
  | (k, _) :: ms' =>
      if existsb (String.eqb k) seen then dedup_keys seen ms'
      else k :: dedup_keys (k :: seen) ms'
  end.

Fixpoint insert_index (k : string) (n : N) (l : list (string * N)) : list (string * N) :=
  match l with
  | [] => [(k, n)]
  | (k', n') :: l' => if (n <? n')%N then (k, n) :: l else (k', n') :: insert_index k n l'
  end.

(** The array-index keys in ascending numeric order, then the other keys
    in creation order ([OrdinaryOwnPropertyKeys]). *)
Definition order_keys (ks : list string) : list string :=
  let idx := fold_right (fun k acc => match array_index k with
                                      | Some n => insert_index k n acc
                                      | None => acc
                                      end) [] ks in
  map fst idx ++ filter (fun k => match array_index k with Some _ => false | None => true end) ks.

(** [Object.keys(v)]. *)
Definition object_keys (v : json) : result js_exn (list string) :=
  match v with
  | JNull => Err (TypeError "Cannot convert undefined or null to object")
  | JObj ms => Ok (order_keys (dedup_keys [] ms))
  | JArr xs => Ok (map index_key (seq 0 (length xs)))
  | JStr s => Ok (map index_key (seq 0 (String.length s)))
  | JBool _ | JNum _ => Ok []
  end.

(** ** Conversions *)

(** [ToString(v)], as a template literal or [+] applies it.  An object
    converts through its [toString]; a JSON object that has an own
    ["toString"] member shadows the inherited method with a value that is
    not callable, and [valueOf] returns the object itself, so the
    conversion throws. *)
Fixpoint js_to_string (v : json) : result js_exn string :=
  match v with
  | JNull => Ok "null"
  | JBool b => Ok (if b then "true" else "false")
  | JNum n => Ok (str_of_Z n)
  | JStr s => Ok s
  | JArr xs =>
      let* ss := map_result (fun x => match x with
                                      | JNull => Ok ""
                                      | _ => js_to_string x
                                      end) xs in
      Ok (join "," ss)
  | JObj ms =>
      if has_member "toString" ms
      then Err (TypeError "Cannot convert object to primitive value")
      else Ok "[object Object]"
  end.

(** [ToString] of a value that may be [undefined] ([None]). *)
Definition js_to_string_u (v : option json) : result js_exn string :=
  match v with
  | None => Ok "undefined"
  | Some w => js_to_string w
  end.

(** [JSON.stringify] on a string: [QuoteJSONString]. *)
Definition hex_digit (n : nat) : ascii :=
  ascii_of_nat (if n <? 10 then 48 + n else 87 + n)%nat.

(** The backslash, written by its code so that no literal holds it. *)
Definition backslash : ascii := ascii_of_nat 92.

Definition escaped (c : ascii) : string := String backslash (String c EmptyString).

Definition json_escape_char (c : ascii) : string :=
  let n := nat_of_ascii c in
  if (n =? 34)%nat then escaped c
  else if (n =? 92)%nat then escaped c
  else if (n =? 8)%nat then escaped "b"
  else if (n =? 12)%nat then escaped "f"
  else if (n =? 10)%nat then escaped "n"
  else if (n =? 13)%nat then escaped "r"
  else if (n =? 9)%nat then escaped "t"
  else if (n <? 32)%nat then
    String backslash (String "u" (String "0" (String "0"
      (String (hex_digit (n / 16)) (String (hex_digit (n mod 16)) EmptyString)))))
  else String c EmptyString.

Fixpoint json_escape (s : string) : string :=
  match s with
  | EmptyString => EmptyString
  | String c s' => json_escape_char c ++ json_escape s'
  end.

Definition dq : string := String (ascii_of_nat 34) EmptyString.

Definition json_quote (s : string) : string := dq ++ json_escape s ++ dq.

(** The last text bound to [k] among already-serialised members. *)
Fixpoint lookup_text (k : string) (ms : list (string * string)) : option string :=
  match ms with
  | [] => None
  | (k', t) :: ms' =>
      match lookup_text k ms' with
      | Some u => Some u
      | None => if String.eqb k k' then Some t else None
      end
  end.

(** [JSON.stringify(v)] (no indentation).  The members of an object are
    serialised first and then emitted in [Object.keys] order, each key with
    its last value. *)
Fixpoint json_stringify (v : json) : string :=
  match v with
  | JNull => "null"
  | JBool b => if b then "true" else "false"
  | JNum n => str_of_Z n
  | JStr s => json_quote s
  | JArr xs => "[" ++ join "," (map json_stringify xs) ++ "]"
  | JObj ms =>
      let texts := map (fun kv => (fst kv, json_stringify (snd kv))) ms in
      let keys := order_keys (dedup_keys [] ms) in
      "{" ++ join "," (map (fun k => json_quote k ++ ":" ++
                                    match lookup_text k texts with
                                    | Some t => t
                                    | None => "null"
                                    end) keys) ++ "}"
  end.

(** ** Property access *)

(** [v[k]] / [v.k]. *)
Definition js_get (v : json) (k : string) : result js_exn (option json) :=
  match v with
  | JNull => Err (TypeError ("Cannot read properties of null (reading '" ++ k ++ "')"))
  | JObj ms => Ok (lookup_member k ms)
  | JArr xs =>
      if String.eqb k "length" then Ok (Some (JNum (Z.of_nat (length xs))))
      else match array_index k with
           | Some n => Ok (nth_error xs (N.to_nat n))
           | None => Ok None
           end
  | JStr s =>
      if String.eqb k "length" then Ok (Some (JNum (Z.of_nat (String.length s))))
      else match array_index k with
           | Some n => Ok (option_map (fun c => JStr (String c EmptyString)) (String.get (N.to_nat n) s))
           | None => Ok None
           end
  | JBool _ | JNum _ => Ok None
  end.

(** The same read on a value that may be [undefined]. *)
Definition js_get_u (v : option json) (k : string) : result js_exn (option json) :=
  match v with
  | None => Err (TypeError ("Cannot read properties of undefined (reading '" ++ k ++ "')"))
  | Some w => js_get w k
  end.

(** [k in v]: only objects (arrays included) can be searched. *)
Definition js_in (k : string) (v : json) : result js_exn bool :=
  match v with
  | JObj ms => Ok (has_member k ms)
  | JArr xs =>
      Ok (String.eqb k "length" ||
          match array_index k with
          | Some n => (N.to_nat n <? length xs)%nat
          | None => false
          end)
  | _ => let* s := js_to_string v in
         Err (TypeError ("Cannot use 'in' operator to search for '" ++ k ++ "' in " ++ s))
  end.

(** [v === n] for a number [n]. *)
Definition js_eq_num (v : option json) (n : Z) : bool :=
  match v with
  | Some (JNum m) => Z.eqb m n
  | _ => false
  end.

(** [expr.toString()]: reading the method off [null] or [undefined]
    throws, and an own ["toString"] member is not callable. *)
Definition js_call_to_string (expr : string) (v : option json) : result js_exn string :=
  match v with
  | None => Err (TypeError "Cannot read properties of undefined (reading 'toString')")
  | Some JNull => Err (TypeError "Cannot read properties of null (reading 'toString')")
  | Some (JObj ms) =>
      if has_member "toString" ms
      then Err (TypeError (expr ++ ".toString is not a function"))
      else Ok "[object Object]"
  | Some w => js_to_string w
  end.

(** [expr.map]: the receiver must be an array for the call to happen. *)
Definition js_map_receiver (expr : string) (v : option json) : result js_exn (list json) :=
  match v with
  | Some (JArr xs) => Ok xs
  | Some JNull => Err (TypeError "Cannot read properties of null (reading 'map')")
  | None => Err (TypeError "Cannot read properties of undefined (reading 'map')")
  | Some _ => Err (TypeError (expr ++ ".map is not a function"))
  end.

(** [const [a, b, ...] = expr]: arrays and strings are iterable (a string
    yields its characters), nothing else in JSON is. *)
Definition js_iterate (expr : string) (v : json) : result js_exn (list json) :=
  match v with
  | JArr xs => Ok xs
  | JStr s => Ok (map (fun c => JStr (String c EmptyString)) (list_ascii_of_string s))
  | _ => Err (TypeError (expr ++ " is not iterable"))
  end.

(** The same on a value that may be [undefined]. *)
Definition js_iterate_u (expr : string) (v : option json) : result js_exn (list json) :=
  match v with
  | None => Err (TypeError (expr ++ " is not iterable"))
  | Some w => js_iterate expr w
  end.

(** [if (v)]: [undefined], [null], [false], [0] and [""] are falsy,
    every object and array is truthy. *)
Definition js_truthy (v : option json) : bool :=
  match v with
  | None | Some JNull => false
  | Some (JBool b) => b
  | Some (JNum n) => negb (Z.eqb n 0)
  | Some (JStr s) => negb (String.eqb s "")
  | Some (JArr _) | Some (JObj _) => true
  end.

(** ** Facts *)

(** The engine operations above throw only [TypeError]s. *)
Definition is_type_error (e : js_exn) : bool :=
  match e with
  | TypeError _ => true
  | _ => false
  end.

Lemma js_to_string_err v e : js_to_string v = Err e -> is_type_error e = true.
Proof.
  induction v as [| | | |xs IH|ms _] using json_ind'; simpl; try discriminate.
  - intros H. apply bind_err in H as [H | (? & _ & [=])].
    apply map_result_err_in in H as (x & Hin & Hx). rewrite Forall_forall in IH.
    destruct x; try discriminate; exact (IH _ Hin Hx).
  - destruct (has_member "toString" ms); intros [=]; now subst.
Qed.

Lemma js_to_string_u_err v e : js_to_string_u v = Err e -> is_type_error e = true.
Proof. destruct v; [apply js_to_string_err | discriminate]. Qed.

Lemma js_call_to_string_err x v e : js_call_to_string x v = Err e -> is_type_error e = true.
Proof.
  destruct v as [[| | | |xs|ms]|]; cbn [js_call_to_string];
    first [ apply js_to_string_err | intros [= <-]; reflexivity
          | destruct (has_member "toString" ms); intros [= <-]; reflexivity ].
Qed.

Lemma js_get_err v k e : js_get v k = Err e -> is_type_error e = true.
Proof.
  destruct v; simpl; try discriminate; try (intros [= <-]; reflexivity);
    destruct (String.eqb k "length"); try discriminate;
    destruct (array_index k); discriminate.
Qed.

Lemma js_get_u_err v k e : js_get_u v k = Err e -> is_type_error e = true.
Proof. destruct v; [apply js_get_err | intros [= <-]; reflexivity]. Qed.

Lemma js_in_err k v e : js_in k v = Err e -> is_type_error e = true.
Proof.
  destruct v; cbn [js_in]; try discriminate;
    intros H; apply bind_err in H as [H | (? & _ & [= <-])]; try reflexivity;
    now apply js_to_string_err in H.
Qed.

Lemma object_keys_err v e : object_keys v = Err e -> is_type_error e = true.
Proof. destruct v; simpl; try discriminate; intros [= <-]; reflexivity. Qed.

Lemma js_map_receiver_err x v e : js_map_receiver x v = Err e -> is_type_error e = true.
Proof. destruct v as [[]|]; simpl; try discriminate; intros [= <-]; reflexivity. Qed.

Lemma js_iterate_u_err x v e : js_iterate_u x v = Err e -> is_type_error e = true.
Proof. destruct v as [[]|]; simpl; try discriminate; intros [= <-]; reflexivity. Qed.

#[export] Hint Resolve js_to_string_err js_to_string_u_err js_call_to_string_err js_get_err
  js_get_u_err js_in_err object_keys_err js_map_receiver_err js_iterate_u_err : webcw.

Lemma lookup_member_in k ms v : lookup_member k ms = Some v -> In (k, v) ms.
Proof.
  induction ms as [|[k' w] ms IH]; simpl; [discriminate|].
  destruct (lookup_member k ms) eqn:E; [intros [= <-]; right; auto|].
  destruct (String.eqb_spec k k'); [intros [= <-]; subst; now left | discriminate].
Qed.

Lemma depth_pos v : 1 <= json_depth v.
Proof. destruct v; simpl; lia. Qed.

Lemma depth_member k v ms : In (k, v) ms -> json_depth v < json_depth (JObj ms).
Proof.
  intros H. simpl. apply Nat.lt_succ_r, in_le_list_max, in_map_iff. now exists (k, v).
Qed.

Lemma depth_elem x xs : In x xs -> json_depth x < json_depth (JArr xs).
Proof. intros H. simpl. apply Nat.lt_succ_r, in_le_list_max, in_map_iff. now exists x. Qed.

Lemma depth_nth xs n x : nth_error xs n = Some x -> json_depth x < json_depth (JArr xs).
Proof. intros H. apply depth_elem. eapply nth_error_In; eauto. Qed.

(** What [v[k].map] iterates over lies two levels below [v]. *)
Lemma map_receiver_depth v k x a ops y :
  js_get v k = Ok a -> js_map_receiver x a = Ok ops -> In y ops ->
  json_depth y + 2 <= json_depth v.
Proof.
  intros Hg Hr Hy. destruct a as [[| | | |xs|]|]; try discriminate. simpl in Hr. inv Hr.
  pose proof (depth_elem _ _ Hy).
  destruct v; simpl in Hg; try discriminate.
  - destruct (String.eqb k "length"); [discriminate|].
    destruct (array_index k); [|discriminate]. inv Hg.
    destruct (String.get _ s); discriminate.
  - destruct (String.eqb k "length"); [discriminate|].
    destruct (array_index k); [|discriminate]. inv Hg.
    pose proof (depth_nth _ _ _ H1). lia.
  - inv Hg. pose proof (depth_member _ _ _ (lookup_member_in _ _ _ H1)). lia.
Qed.

End Js.
