(* ===== verification/FilterCompiler.v ===== *)
(** The filter compiler: [QueryService.buildQuery]
    (src/middleware/services/query.service.ts, lines 13-62), the abstract
    filter language of the spec it implements, and the theorems relating
    them. *)

From Stdlib Require Import String Ascii ZArith NArith List Lia Bool.
From S2P Require Import Prelude Js.
Import ListNotations.
Local Open Scope string_scope.
Local Open Scope result_scope.

Module FilterCompiler.
Import Js.

(** The guard of lines 27-34. *)
Definition is_comparison_operator (k : string) : bool :=
  String.eqb k "!=" || String.eqb k "<" || String.eqb k "<=" ||
  String.eqb k ">" || String.eqb k ">=" || String.eqb k "==".

(** What the engine throws when the call stack is exhausted. *)
Definition stack_overflow : js_exn := RangeError "Maximum call stack size exceeded".

(** Lines 42-43: [typeof value === "string" ? `'${value}'` : value.toString()]. *)
Definition quoted_value (value : option json) : result js_exn string :=
  match value with
  | Some (JStr s) => Ok ("'" ++ s ++ "'")
  | _ => js_call_to_string "value" value
  end.

(** Lines 48-51: [typeof v === "string" ? v : v.toString()]. *)
Definition plain_value (expr : string) (value : option json) : result js_exn string :=
  match value with
  | Some (JStr s) => Ok s
  | _ => js_call_to_string expr value
  end.

(** Lines 35-57: the comparison leaf, from [operands = query[operator]]. *)
Definition build_comparison (operator : string) (operands : option json) : result js_exn string :=
  let* len := js_get_u operands "length" in
  if js_eq_num len 2 then                                        (* l.39 *)
    let* items := js_iterate_u "operands" operands in            (* l.40 *)
    let* varName := js_get_u (nth_error items 0) "var" in        (* l.41 *)
    let* comparisonValue := quoted_value (nth_error items 1) in  (* l.42-43 *)
    let* name := js_to_string_u varName in                       (* l.44 *)
    Ok (name ++ " " ++ operator ++ " " ++ comparisonValue)
  else if js_eq_num len 3 then                                   (* l.45 *)
    let* items := js_iterate_u "operands" operands in            (* l.46 *)
    let* varName := js_get_u (nth_error items 1) "var" in        (* l.47 *)
    let* comparisonValue1 := plain_value "value1" (nth_error items 0) in
    let* comparisonValue2 := plain_value "value2" (nth_error items 2) in
    let* name := js_to_string_u varName in                       (* l.52 *)
    Ok (name ++ " " ++ operator ++ " " ++ comparisonValue1 ++ " AND " ++
        name ++ " " ++ operator ++ " " ++ comparisonValue2)
  else
    Err (Error ("Invalid number of operands for operator " ++ operator)).  (* l.54-56 *)

(** [buildQuery(query)] with a budget of [fuel] stack frames.  Each step
    is the line of the source it is written next to. *)
Fixpoint build_query_fuel (fuel : nat) (query : json) : result js_exn string :=
  match fuel with
  | O => Err stack_overflow
  | S fuel' =>
      let* has_and := js_in "and" query in                       (* l.14 *)
      if has_and then
        let* a := js_get query "and" in                          (* l.16 *)
        let* ops := js_map_receiver "query.and" a in
        let* conditions := map_result (build_query_fuel fuel') ops in
        Ok ("(" ++ join " AND " conditions ++ ")")               (* l.17-18 *)
      else
      let* has_or := js_in "or" query in                         (* l.19 *)
      if has_or then
        let* o := js_get query "or" in                           (* l.21 *)
        let* ops := js_map_receiver "query.or" o in
        let* conditions := map_result (build_query_fuel fuel') ops in
        Ok ("(" ++ join " OR " conditions ++ ")")                (* l.22-23 *)
      else
      let* keys := object_keys query in                          (* l.25 *)
      match hd_error keys with
      | None => Err (Error "Unsupported operator undefined")     (* l.59 *)
      | Some operator =>
          if is_comparison_operator operator then                (* l.27-34 *)
            let* operands := js_get query operator in            (* l.35 *)
            build_comparison operator operands
          else Err (Error ("Unsupported operator " ++ operator))
      end
  end.

(** [buildQuery] with as many frames as the body is deep. *)
Definition build_query (query : json) : result js_exn string :=
  build_query_fuel (json_depth query) query.

(** The [and]/[or] nesting [and_chain k] is [k + 1] levels deep. *)
Fixpoint and_chain (k : nat) : json :=
  match k with
  | O => JObj [("and", JArr [])]
  | S k' => JObj [("and", JArr [and_chain k'])]
  end.

End FilterCompiler.

(** ** The contract of the spec *)

(** The filter language of spec sections 3, 4 and 6 as a typed syntax, its
    reference rendering and its wire encoding.  The operator set is the
    one the code accepts (lines 28-33). *)
Module FilterSpec.
Import Js.

#[local] Set Warnings "-register-all".

Inductive cmp_op : Type := OpNe | OpLt | OpLe | OpGt | OpGe | OpEq.

Definition op_symbol (op : cmp_op) : string :=
  match op with
  | OpNe => "!=" | OpLt => "<" | OpLe => "<=" | OpGt => ">" | OpGe => ">=" | OpEq => "=="
  end.

Inductive scalar : Type := SStr (s : string) | SNum (n : Z).

(** [FCmp op x v] is [{"op": [{"var": x}, v]}]; [FRange op lo x hi] is
    [{"op": [lo, {"var": x}, hi]}]. *)
Inductive filter : Type :=
| FAnd (fs : list filter)
| FOr (fs : list filter)
| FCmp (op : cmp_op) (x : string) (v : scalar)
| FRange (op : cmp_op) (lo : scalar) (x : string) (hi : scalar).

Section FilterInd.
Variable P : filter -> Prop.
Hypothesis Pand : forall fs, Forall P fs -> P (FAnd fs).
Hypothesis Por : forall fs, Forall P fs -> P (FOr fs).
Hypothesis Pcmp : forall op x v, P (FCmp op x v).
Hypothesis Prange : forall op lo x hi, P (FRange op lo x hi).

Fixpoint filter_ind' (f : filter) : P f :=
  let fix go (l : list filter) : Forall P l :=
    match l with
    | [] => Forall_nil _
    | g :: l' => Forall_cons _ (filter_ind' g) (go l')
    end in
  match f with
  | FAnd fs => Pand fs (go fs)
  | FOr fs => Por fs (go fs)
  | FCmp op x v => Pcmp op x v
  | FRange op lo x hi => Prange op lo x hi
  end.
End FilterInd.

(** Spec 4.1: a string is single-quoted and a number printed in decimal in
    the two-operand form; the three-operand form quotes nothing. *)
Definition render_quoted (v : scalar) : string :=
  match v with SStr s => "'" ++ s ++ "'" | SNum n => str_of_Z n end.

Definition render_plain (v : scalar) : string :=
  match v with SStr s => s | SNum n => str_of_Z n end.

Fixpoint compile (f : filter) : string :=
  match f with
  | FAnd fs => "(" ++ join " AND " (map compile fs) ++ ")"
  | FOr fs => "(" ++ join " OR " (map compile fs) ++ ")"
  | FCmp op x v => x ++ " " ++ op_symbol op ++ " " ++ render_quoted v
  | FRange op lo x hi =>
      x ++ " " ++ op_symbol op ++ " " ++ render_plain lo ++ " AND " ++
      x ++ " " ++ op_symbol op ++ " " ++ render_plain hi
  end.

Definition scalar_json (v : scalar) : json :=
  match v with SStr s => JStr s | SNum n => JNum n end.

Definition var_json (x : string) : json := JObj [("var", JStr x)].

(** The wire format of spec section 6. *)
Fixpoint encode (f : filter) : json :=
  match f with
  | FAnd fs => JObj [("and", JArr (map encode fs))]
  | FOr fs => JObj [("or", JArr (map encode fs))]
  | FCmp op x v => JObj [(op_symbol op, JArr [var_json x; scalar_json v])]
  | FRange op lo x hi => JObj [(op_symbol op, JArr [scalar_json lo; var_json x; scalar_json hi])]
  end.

Definition decode_op (k : string) : option cmp_op :=
  if String.eqb k "!=" then Some OpNe else if String.eqb k "<" then Some OpLt
  else if String.eqb k "<=" then Some OpLe else if String.eqb k ">" then Some OpGt
  else if String.eqb k ">=" then Some OpGe else if String.eqb k "==" then Some OpEq
  else None.

Definition decode_scalar (v : json) : option scalar :=
  match v with JStr s => Some (SStr s) | JNum n => Some (SNum n) | _ => None end.

Definition decode_var (v : json) : option string :=
  match v with
  | JObj [(k, JStr x)] => if String.eqb k "var" then Some x else None
  | _ => None
  end.

(** The validating parse step of spec section 9: a single-member object
    per node, nothing else. *)
Fixpoint decode (v : json) : option filter :=
  match v with
  | JObj [(k, JArr xs)] =>
      if String.eqb k "and" then option_map FAnd (traverse_option decode xs)
      else if String.eqb k "or" then option_map FOr (traverse_option decode xs)
      else match decode_op k, xs with
           | Some op, [x; v1] =>
               match decode_var x, decode_scalar v1 with
               | Some name, Some s => Some (FCmp op name s)
               | _, _ => None
               end
           | Some op, [v1; x; v2] =>
               match decode_scalar v1, decode_var x, decode_scalar v2 with
               | Some lo, Some name, Some hi => Some (FRange op lo name hi)
               | _, _, _ => None
               end
           | _, _ => None
           end
  | _ => None
  end.

(** Number of nested AND/OR levels. *)
Fixpoint logic_depth (f : filter) : nat :=
  match f with
  | FAnd fs | FOr fs => S (list_max (map logic_depth fs))
  | _ => 0
  end.

Definition scalar_paren_free (v : scalar) : bool :=
  match v with SStr s => paren_free s | SNum _ => true end.

(** No variable name and no string value contains a parenthesis. *)
Fixpoint filter_paren_free (f : filter) : bool :=
  match f with
  | FAnd fs | FOr fs => forallb filter_paren_free fs
  | FCmp _ x v => paren_free x && scalar_paren_free v
  | FRange _ lo x hi => scalar_paren_free lo && paren_free x && scalar_paren_free hi
  end.

End FilterSpec.

(** ** Theorems *)

Import Js FilterCompiler FilterSpec.

Example ex_spec_and :
  build_query (JObj [("and", JArr [JObj [("==", JArr [JObj [("var", JStr "status")]; JStr "active"])];
                                   JObj [(">", JArr [JObj [("var", JStr "age")]; JNum 18])]])])
  = Ok "(status == 'active' AND age > 18)".
Proof. reflexivity. Qed.

Example ex_spec_or :
  build_query (JObj [("or", JArr [JObj [("<", JArr [JObj [("var", JStr "x")]; JNum 5])];
                                  JObj [(">=", JArr [JObj [("var", JStr "x")]; JNum 10])]])])
  = Ok "(x < 5 OR x >= 10)".
Proof. reflexivity. Qed.

(** ** Termination: the stack budget *)

Lemma quoted_value_err v e : quoted_value v = Err e -> is_type_error e = true.
Proof. destruct v as [[]|]; try discriminate; apply js_call_to_string_err. Qed.

Lemma plain_value_err x v e : plain_value x v = Err e -> is_type_error e = true.
Proof. destruct v as [[]|]; try discriminate; apply js_call_to_string_err. Qed.

#[local] Hint Resolve quoted_value_err plain_value_err : webcw.

(** The two recursive branches (lines 14-23) agree under two budgets when
    the children do. *)
Ltac stable_branch IH :=
  match goal with
  | |- bind (js_get ?q ?k) _ = bind (js_get ?q ?k) _ =>
      let a := fresh "a" in let Ha := fresh "Ha" in
      let ops := fresh "ops" in let Hr := fresh "Hr" in
      destruct (js_get q k) as [a|] eqn:Ha; cbn [bind]; [|reflexivity];
      destruct (js_map_receiver _ a) as [ops|] eqn:Hr; cbn [bind]; [|reflexivity];
      erewrite map_result_ext_in; [reflexivity|];
      let y := fresh "y" in let Hy := fresh "Hy" in
      intros y Hy; pose proof (map_receiver_depth _ _ _ _ _ _ Ha Hr Hy); apply IH; lia
  end.

Lemma build_query_fuel_stable n m q :
  json_depth q <= n -> json_depth q <= m -> build_query_fuel n q = build_query_fuel m q.
Proof.
  revert m q; induction n as [|n IH]; intros m q Hn Hm; pose proof (depth_pos q); [lia|].
  destruct m as [|m]; [lia|]. cbn [build_query_fuel].
  destruct (js_in "and" q) as [[]|]; cbn [bind]; [stable_branch IH| |reflexivity].
  destruct (js_in "or" q) as [[]|]; cbn [bind]; [stable_branch IH|reflexivity|reflexivity].
Qed.

(** Case analysis on a hypothesis [build_query_fuel ... = Err e] unfolded
    one step: one goal per statement that can throw. *)
Ltac err_cases :=
  repeat match goal with
    | H : bind _ _ = Err _ |- _ => apply bind_err in H as [H | (? & ? & H)]
    | H : (if ?b then _ else _) = Err _ |- _ => destruct b
    | H : match ?x with None => _ | Some _ => _ end = Err _ |- _ => destruct x
    | H : Err _ = Err _ |- _ => inv H
    | H : Ok _ = Err _ |- _ => discriminate H
    end.

Lemma build_comparison_err op v e :
  build_comparison op v = Err e -> is_type_error e = true \/ exists m, e = Error m.
Proof.
  unfold build_comparison. intros H. err_cases;
    solve [left; eauto with webcw | right; eexists; reflexivity].
Qed.

Lemma build_query_fuel_err n q e :
  build_query_fuel n q = Err e ->
  (e = stack_overflow /\ n < json_depth q) \/ is_type_error e = true \/ exists m, e = Error m.
Proof.
  revert q e; induction n as [|n IH]; intros q e H; cbn [build_query_fuel] in H.
  - inv H. left. split; [reflexivity | apply depth_pos].
  - err_cases; try (right; left; eauto with webcw; fail); try (right; right; eexists; reflexivity);
    try (right; now apply build_comparison_err in H);
    match goal with
    | Hm : map_result _ _ = Err _, Ha : js_get _ _ = Ok _, Hr : js_map_receiver _ _ = Ok _ |- _ =>
        apply map_result_err_in in Hm as (y & Hy & Hye);
        pose proof (map_receiver_depth _ _ _ _ _ _ Ha Hr Hy);
        destruct (IH _ _ Hye) as [[-> Hlt] | Hk]; [left; split; [reflexivity | lia] | now right]
    end.
Qed.


(** C2 (termination). Any stack budget of at least [json_depth q] frames
    gives [buildQuery]'s result: the recursion of lines 16 and 21 goes two
    levels down the JSON value per call, so it stops. *)
Theorem build_query_fuel_enough n q :
  json_depth q <= n -> build_query_fuel n q = build_query q.
Proof. intros H. apply build_query_fuel_stable; [exact H | apply le_n]. Qed.

(** [buildQuery] throws only [Error] (its own two [throw]s)
    and [TypeError] (the duck-typed accesses); it never runs out of stack
    under the budget of [build_query]. *)
Lemma build_query_error_kinds q e :
  build_query q = Err e -> is_type_error e = true \/ exists m, e = Error m.
Proof.
  intros H. apply build_query_fuel_err in H as [[_ Hlt] | Hk]; [lia | exact Hk].
Qed.

(** C37 (bounds). There is no depth guard (spec section 9): whatever the
    stack budget, a chain of nested [and]s as long as the budget exhausts
    it. *)
Theorem build_query_unbounded_recursion n :
  build_query_fuel n (and_chain n) = Err stack_overflow.
Proof. induction n as [|n IH]; [reflexivity|]. cbn. now rewrite IH. Qed.

(** An [and]/[or] member that is an array: the recursive calls are those of
    [build_query] on the elements. *)
Lemma logic_branch_budget ms k x (K : list string -> result js_exn string) :
  (let* ops := js_map_receiver x (lookup_member k ms) in
   let* cs := map_result (build_query_fuel (list_max (map (fun kv => json_depth (snd kv)) ms))) ops in
   K cs)
  = (let* ops := js_map_receiver x (lookup_member k ms) in
     let* cs := map_result build_query ops in K cs).
Proof.
  destruct (js_map_receiver x (lookup_member k ms)) as [ops|] eqn:Hr; cbn [bind]; [|reflexivity].
  f_equal. apply map_result_ext_in. intros y Hy. unfold build_query.
  pose proof (map_receiver_depth (JObj ms) k _ _ _ _ eq_refl Hr Hy) as Hd. simpl in Hd.
  apply build_query_fuel_stable; lia.
Qed.

(** Lines 14-23: an [and] node, or an [or] node without [and]. *)
Lemma build_query_logic ms k sep expr :
  (k = "and" /\ sep = " AND " /\ expr = "query.and" /\ has_member "and" ms = true) \/
  (k = "or" /\ sep = " OR " /\ expr = "query.or" /\ has_member "and" ms = false /\
   has_member "or" ms = true) ->
  build_query (JObj ms) =
    let* ops := js_map_receiver expr (lookup_member k ms) in
    let* conditions := map_result build_query ops in
    Ok ("(" ++ join sep conditions ++ ")").
Proof.
  intros [(-> & -> & -> & Hand) | (-> & -> & -> & Hand & Hor)];
    unfold build_query at 1; cbn [json_depth build_query_fuel js_in js_get bind];
    rewrite ?Hand, ?Hor; cbn [bind]; apply logic_branch_budget.
Qed.

(** C16 (functional). An object with an ["and"] key is rendered as the
    parenthesised [" AND "]-join of its operands, whatever other keys
    (["or"] included) it has; its value must be an array. *)
Theorem build_query_and ms :
  has_member "and" ms = true ->
  build_query (JObj ms) =
    let* ops := js_map_receiver "query.and" (lookup_member "and" ms) in
    let* conditions := map_result build_query ops in
    Ok ("(" ++ join " AND " conditions ++ ")").
Proof. intros H. apply build_query_logic. left. auto. Qed.

(** C17 (functional). Without an ["and"] key, an ["or"] key is rendered the
    same way with [" OR "]. *)
Theorem build_query_or ms :
  has_member "and" ms = false -> has_member "or" ms = true ->
  build_query (JObj ms) =
    let* ops := js_map_receiver "query.or" (lookup_member "or" ms) in
    let* conditions := map_result build_query ops in
    Ok ("(" ++ join " OR " conditions ++ ")").
Proof. intros H1 H2. apply build_query_logic. right. auto. Qed.

(** ** Refinement of the spec's contract *)

Lemma decode_op_spec k op : decode_op k = Some op -> k = op_symbol op.
Proof.
  unfold decode_op.
  repeat match goal with |- context [String.eqb k ?c] =>
    destruct (String.eqb_spec k c) as [->|_]; [intros [= <-]; reflexivity|] end.
  discriminate.
Qed.

Lemma decode_var_spec v x : decode_var v = Some x -> v = var_json x.
Proof.
  destruct v as [| | | | |[|[k [| | |s| |]] [|]]]; try discriminate; simpl.
  destruct (String.eqb_spec k "var") as [->|]; [now intros [= ->] | discriminate].
Qed.

Lemma decode_scalar_spec v s : decode_scalar v = Some s -> v = scalar_json s.
Proof. destruct v; try discriminate; now intros [= <-]. Qed.

(** A single-member comparison object reaches [build_comparison]. *)
Lemma build_query_fuel_leaf n op w :
  build_query_fuel (S n) (JObj [(op_symbol op, w)]) = build_comparison (op_symbol op) (Some w).
Proof. destruct op; reflexivity. Qed.

Lemma build_comparison_cmp op x v :
  build_comparison (op_symbol op) (Some (JArr [var_json x; scalar_json v])) = Ok (compile (FCmp op x v)).
Proof. destruct v; reflexivity. Qed.

Lemma build_comparison_range op lo x hi :
  build_comparison (op_symbol op) (Some (JArr [scalar_json lo; var_json x; scalar_json hi]))
  = Ok (compile (FRange op lo x hi)).
Proof. destruct lo, hi; reflexivity. Qed.

(** The children of a decoded [and]/[or] node compile one by one. *)
Lemma decode_children n xs fs :
  (forall v f, decode v = Some f -> json_depth v <= n -> build_query_fuel n v = Ok (compile f)) ->
  list_max (map json_depth xs) <= n ->
  traverse_option decode xs = Some fs ->
  map_result (build_query_fuel n) xs = Ok (map compile fs).
Proof.
  intros IH Hd Ht. apply map_result_Forall2_map.
  apply traverse_option_Forall2 in Ht. revert Ht. apply Forall2_impl_in_l.
  intros x f Hx Hdec. apply IH; [exact Hdec|].
  pose proof (in_le_list_max _ _ (in_map json_depth _ _ Hx)). lia.
Qed.

Lemma build_query_decode n v f :
  decode v = Some f -> json_depth v <= n -> build_query_fuel n v = Ok (compile f).
Proof.
  revert v f; induction n as [|n IH]; intros v f Hd Hn; [pose proof (depth_pos v); lia|].
  destruct v as [| | | | |[|[k w] [|]]]; try discriminate;
    destruct w as [| | | |xs|]; try discriminate. cbn [decode] in Hd. simpl in Hn.
  destruct (String.eqb_spec k "and") as [->|Hka]; [|destruct (String.eqb_spec k "or") as [->|Hko]].
  - destruct (traverse_option decode xs) as [fs|] eqn:Ht; inv Hd.
    change (build_query_fuel (S n) _) with
      (let* cs := map_result (build_query_fuel n) xs in Ok ("(" ++ join " AND " cs ++ ")")).
    erewrite decode_children; [reflexivity | exact IH | lia | exact Ht].
  - destruct (traverse_option decode xs) as [fs|] eqn:Ht; inv Hd.
    change (build_query_fuel (S n) _) with
      (let* cs := map_result (build_query_fuel n) xs in Ok ("(" ++ join " OR " cs ++ ")")).
    erewrite decode_children; [reflexivity | exact IH | lia | exact Ht].
  - destruct (decode_op k) as [op|] eqn:Hop; [|discriminate].
    apply decode_op_spec in Hop; subst k. rewrite build_query_fuel_leaf.
    destruct xs as [|x1 [|x2 [|x3 [|]]]]; try discriminate.
    + destruct (decode_var x1) eqn:E1, (decode_scalar x2) eqn:E2; inv Hd.
      apply decode_var_spec in E1; apply decode_scalar_spec in E2; subst.
      apply build_comparison_cmp.
    + destruct (decode_scalar x1) eqn:E1, (decode_var x2) eqn:E2, (decode_scalar x3) eqn:E3; inv Hd.
      apply decode_scalar_spec in E1; apply decode_var_spec in E2; apply decode_scalar_spec in E3.
      subst. apply build_comparison_range.
Qed.

(** C1 (refinement). On every body that passes the validating parse of
    the spec, [buildQuery] returns exactly the spec's rendering of the
    typed filter: parenthesised AND/OR joins, [x op 'v'] for the
    two-operand form, [x op lo AND x op hi] for the three-operand form. *)
Theorem build_query_refines v f :
  decode v = Some f -> build_query v = Ok (compile f).
Proof. intros H. apply build_query_decode; [exact H | apply le_n]. Qed.

(** The validating parse reads back every encoded filter. *)
Lemma decode_encode_eq f : decode (encode f) = Some f.
Proof.
  induction f as [fs IH|fs IH| op x v | op lo x hi] using filter_ind'.
  - cbn [encode decode String.eqb]. rewrite (proj2 (traverse_option_Forall2 _ _ fs)); [reflexivity|].
    induction IH; constructor; assumption.
  - cbn [encode decode String.eqb]. rewrite (proj2 (traverse_option_Forall2 _ _ fs)); [reflexivity|].
    induction IH; constructor; assumption.
  - destruct op, v; reflexivity.
  - destruct op, lo, hi; reflexivity.
Qed.

Lemma encode_decode_depth n v f : json_depth v <= n -> decode v = Some f -> encode f = v.
Proof.
  revert v f; induction n as [|n IH]; intros v f Hn Hd; [pose proof (depth_pos v); lia|].
  destruct v as [| | | | |[|[k w] [|]]]; try discriminate;
    destruct w as [| | | |xs|]; try discriminate. cbn [decode] in Hd. simpl in Hn.
  assert (Hxs : forall fs, traverse_option decode xs = Some fs -> map encode fs = xs).
  { intros fs Ht. apply traverse_option_Forall2 in Ht. clear Hd.
    induction Ht as [|x g xs' gs Hxg _ IHt]; [reflexivity|]. simpl in *. f_equal.
    - apply IH; [lia | exact Hxg].
    - apply IHt. lia. }
  destruct (String.eqb_spec k "and") as [->|Hka]; [|destruct (String.eqb_spec k "or") as [->|Hko]].
  - destruct (traverse_option decode xs) as [fs|] eqn:Ht; inv Hd. simpl. now rewrite (Hxs fs).
  - destruct (traverse_option decode xs) as [fs|] eqn:Ht; inv Hd. simpl. now rewrite (Hxs fs).
  - destruct (decode_op k) as [op|] eqn:Hop; [|discriminate]. apply decode_op_spec in Hop; subst k.
    destruct xs as [|x1 [|x2 [|x3 [|]]]]; try discriminate.
    + destruct (decode_var x1) eqn:E1, (decode_scalar x2) eqn:E2; inv Hd.
      apply decode_var_spec in E1; apply decode_scalar_spec in E2; now subst.
    + destruct (decode_scalar x1) eqn:E1, (decode_var x2) eqn:E2, (decode_scalar x3) eqn:E3; inv Hd.
      apply decode_scalar_spec in E1; apply decode_var_spec in E2; apply decode_scalar_spec in E3.
      now subst.
Qed.

(** The validating parse and the wire encoding are inverse:
    [decode] accepts exactly the encodings of typed filters and reads each
    one back, so the refinement theorem covers exactly the wire format of
    spec section 6. *)
Lemma decode_spec v f : decode v = Some f <-> v = encode f.
Proof.
  split; [intros H; symmetry; eapply encode_decode_depth; [apply le_n | exact H]|].
  intros ->. apply decode_encode_eq.
Qed.

Lemma build_query_encode f : build_query (encode f) = Ok (compile f).
Proof. apply build_query_decode; [apply decode_encode_eq | apply le_n]. Qed.

(** ** Early returns and throws of the leaf branch *)

Lemma has_member_false_keys k ms :
  has_member k ms = false -> forall v, ~ In (k, v) ms.
Proof.
  intros H v Hin. unfold has_member in H.
  assert (existsb (fun kv => String.eqb k (fst kv)) ms = true) as Ht
    by (apply existsb_exists; exists (k, v); split; [exact Hin | apply String.eqb_refl]).
  congruence.
Qed.

(** Neither ["and"] nor ["or"]: the first key of [Object.keys] decides. *)
Lemma build_query_leaf ms op ks :
  has_member "and" ms = false -> has_member "or" ms = false ->
  object_keys (JObj ms) = Ok (op :: ks) ->
  build_query (JObj ms) =
    if is_comparison_operator op then build_comparison op (lookup_member op ms)
    else Err (Error ("Unsupported operator " ++ op)).
Proof.
  intros Hand Hor Hk. unfold build_query. cbn [json_depth build_query_fuel js_in bind].
  rewrite Hand, Hor, Hk. reflexivity.
Qed.

(** C18 (error). Lines 58-59: when the first key is not one of the six
    operators the body is rejected with ["Unsupported operator <key>"]. *)
Theorem build_query_unsupported_operator ms op ks :
  has_member "and" ms = false -> has_member "or" ms = false ->
  object_keys (JObj ms) = Ok (op :: ks) -> is_comparison_operator op = false ->
  build_query (JObj ms) = Err (Error ("Unsupported operator " ++ op)).
Proof. intros Hand Hor Hk Hop. rewrite (build_query_leaf _ _ _ Hand Hor Hk), Hop. reflexivity. Qed.

(** C19 (error). Lines 53-56: an operator whose operand array has neither
    two nor three elements is rejected before any element is looked at. *)
Theorem build_query_operand_count ms op ks xs :
  has_member "and" ms = false -> has_member "or" ms = false ->
  object_keys (JObj ms) = Ok (op :: ks) -> is_comparison_operator op = true ->
  lookup_member op ms = Some (JArr xs) -> length xs <> 2 -> length xs <> 3 ->
  build_query (JObj ms) = Err (Error ("Invalid number of operands for operator " ++ op)).
Proof.
  intros Hand Hor Hk Hop Hl H2 H3. rewrite (build_query_leaf _ _ _ Hand Hor Hk), Hop, Hl.
  unfold build_comparison. simpl.
  rewrite (proj2 (Z.eqb_neq _ 2)), (proj2 (Z.eqb_neq _ 3)); [reflexivity | lia | lia].
Qed.

(** util/types.ts and spec sections 3 and 6 name the
    equality operator ["="]; [buildQuery] only knows ["=="], so an
    equality written as the types and the spec say is always rejected. *)
Lemma build_query_rejects_single_equals v :
  build_query (JObj [("=", v)]) = Err (Error "Unsupported operator =").
Proof. rewrite (build_query_leaf _ "=" []); reflexivity. Qed.

Lemma lookup_member_absent k ms :
  Forall (fun kv => fst kv <> k) ms -> lookup_member k ms = None.
Proof.
  induction 1 as [|[k' w] ms Hk _ IH]; simpl; [reflexivity|]. rewrite IH.
  destruct (String.eqb_spec k k'); [simpl in Hk; congruence | reflexivity].
Qed.

Lemma has_member_absent k ms :
  Forall (fun kv => fst kv <> k) ms -> has_member k ms = false.
Proof.
  induction 1 as [|[k' w] ms Hk _ IH]; [reflexivity|]. unfold has_member in *. simpl.
  rewrite IH. destruct (String.eqb_spec k k'); [simpl in Hk; congruence | reflexivity].
Qed.

Lemma dedup_keys_in seen ms k : In k (dedup_keys seen ms) -> In k (map fst ms).
Proof.
  revert seen; induction ms as [|[k' w] ms IH]; intros seen; simpl; [tauto|].
  destruct (existsb (String.eqb k') seen); simpl.
  - intros H. right. eapply IH; eauto.
  - intros [H|H]; [now left | right; eapply IH; eauto].
Qed.

Lemma order_keys_no_index l :
  Forall (fun k => array_index k = None) l -> order_keys l = l.
Proof.
  intros H. unfold order_keys.
  assert (Hidx : fold_right (fun k acc => match array_index k with
                                         | Some n => insert_index k n acc
                                         | None => acc end) [] l = []).
  { induction H as [|k l Hk _ IH]; simpl; [reflexivity|]. now rewrite Hk, IH. }
  rewrite Hidx. simpl. clear Hidx. induction H as [|k l Hk _ IH]; simpl; [reflexivity|].
  rewrite Hk. f_equal. exact IH.
Qed.

(** C33 (spec divergence). Spec section 3 says an unrecognised key in a
    comparison node is an error; the code reads only the first key, so any
    further non-index keys are silently ignored. *)
Theorem build_query_extra_keys_ignored op w rest :
  Forall (fun kv => fst kv <> "and" /\ fst kv <> "or" /\ fst kv <> op_symbol op /\
                    array_index (fst kv) = None) rest ->
  build_query (JObj ((op_symbol op, w) :: rest)) = build_query (JObj [(op_symbol op, w)]).
Proof.
  intros H.
  assert (Hand : has_member "and" ((op_symbol op, w) :: rest) = false).
  { change (String.eqb "and" (op_symbol op) || has_member "and" rest = false).
    rewrite has_member_absent; [destruct op; reflexivity|]. revert H; apply Forall_impl; tauto. }
  assert (Hor : has_member "or" ((op_symbol op, w) :: rest) = false).
  { change (String.eqb "or" (op_symbol op) || has_member "or" rest = false).
    rewrite has_member_absent; [destruct op; reflexivity|]. revert H; apply Forall_impl; tauto. }
  assert (Hkeys : object_keys (JObj ((op_symbol op, w) :: rest)) =
                  Ok (op_symbol op :: dedup_keys [op_symbol op] rest)).
  { simpl. rewrite order_keys_no_index; [reflexivity|]. constructor; [destruct op; reflexivity|].
    apply Forall_forall. intros k Hk. apply dedup_keys_in, in_map_iff in Hk as ([k' v] & <- & Hin).
    rewrite Forall_forall in H. apply (H _ Hin). }
  rewrite (build_query_leaf _ _ _ Hand Hor Hkeys), (build_query_leaf _ (op_symbol op) []);
    [| destruct op; reflexivity ..].
  simpl. rewrite lookup_member_absent, String.eqb_refl; [reflexivity|].
  revert H; apply Forall_impl; tauto.
Qed.

(** C30 (code bug). String values are spliced between quotes without
    escaping (line 43) and the three-operand form does not quote at all
    (lines 48-51): a two-operand value that contains a quote renders
    exactly like a different, three-operand filter, so the SQL text cannot
    tell an injected predicate from a real one. *)
Theorem build_query_value_injection op x a b :
  build_query (encode (FCmp op x (SStr (a ++ "' AND " ++ x ++ " " ++ op_symbol op ++ " '" ++ b))))
  = build_query (encode (FRange op (SStr ("'" ++ a ++ "'")) x (SStr ("'" ++ b ++ "'")))).
Proof.
  unfold build_query. cbn [encode json_depth].
  rewrite 2!build_query_fuel_leaf, build_comparison_cmp, build_comparison_range. f_equal.
  string_norm. reflexivity.
Qed.

(** An empty [and] list gives the clause ["()"], which is
    not a SQL expression; the spec leaves this case open (section 3). *)
Theorem build_query_empty_and : build_query (JObj [("and", JArr [])]) = Ok "()".
Proof. reflexivity. Qed.

(** A node that is not an object (a number, string, boolean or
    [null] inside an [and] list, say) makes the [in] test of line 14
    throw a [TypeError]. *)
Theorem build_query_primitive v :
  match v with JObj _ | JArr _ => False | _ => True end ->
  exists m, build_query v = Err (TypeError m).
Proof. destruct v; intros []; eexists; reflexivity. Qed.

(** In an [and] list the operands are compiled left to right
    and the first one that throws decides the exception. *)
Theorem build_query_and_first_error pre x post e :
  Forall (fun p => exists s, build_query p = Ok s) pre -> build_query x = Err e ->
  build_query (JObj [("and", JArr (pre ++ x :: post))]) = Err e.
Proof.
  intros Hpre Hx. rewrite (build_query_logic _ "and" " AND " "query.and"); [|left; auto].
  cbn [lookup_member String.eqb Ascii.eqb Bool.eqb js_map_receiver bind].
  assert (exists ys, map_result build_query pre = Ok ys) as [ys Hys].
  { induction Hpre as [|p pre [s Hs] _ [ys IH]]; [now exists []|].
    exists (s :: ys). simpl. now rewrite Hs, IH. }
  now rewrite (map_result_first_err _ _ _ _ _ _ Hys Hx).
Qed.

(** ** Parenthesisation (spec section 4.1, guarantees) *)

Lemma paren_free_app a b :
  paren_free a = true -> paren_free b = true -> paren_free (a ++ b) = true.
Proof.
  unfold paren_free. rewrite !count_char_app.
  intros Ha Hb. apply andb_prop in Ha as [Ha1 Ha2]. apply andb_prop in Hb as [Hb1 Hb2].
  apply Nat.eqb_eq in Ha1, Ha2, Hb1, Hb2. rewrite Ha1, Ha2, Hb1, Hb2. reflexivity.
Qed.

Lemma paren_free_str_of_Z n : paren_free (str_of_Z n) = true.
Proof.
  unfold paren_free. rewrite !count_char_str_of_Z; reflexivity.
Qed.

Lemma paren_free_render v :
  scalar_paren_free v = true ->
  paren_free (render_quoted v) = true /\ paren_free (render_plain v) = true.
Proof.
  destruct v as [s|n]; simpl; [|intros _; now rewrite paren_free_str_of_Z].
  intros H. split; [|exact H]. repeat apply paren_free_app; auto.
Qed.

Lemma paren_free_op op : paren_free (op_symbol op) = true.
Proof. destruct op; reflexivity. Qed.

Lemma paren_max_ge s d : (d <= paren_max s d)%Z.
Proof. destruct s; simpl; lia. Qed.

Lemma paren_min_le s d : (paren_min s d <= d)%Z.
Proof. destruct s; simpl; lia. Qed.

Lemma list_max_Z {A} (g : A -> nat) l :
  fold_right Z.max 0%Z (map (fun x => Z.of_nat (g x)) l) = Z.of_nat (list_max (map g l)).
Proof. induction l as [|x l IH]; simpl; [reflexivity|]. rewrite IH. lia. Qed.

(** Joining strings that each return to their starting level, with a
    separator free of parentheses. *)
Lemma join_scan sep l :
  paren_free sep = true ->
  Forall (fun s => paren_net s = 0%Z /\ paren_min s 0 = 0%Z) l ->
  paren_net (join sep l) = 0%Z /\ paren_min (join sep l) 0 = 0%Z /\
  paren_max (join sep l) 0 = fold_right Z.max 0%Z (map (fun s => paren_max s 0) l).
Proof.
  intros Hsep Hl. destruct (paren_free_scan sep 0 Hsep) as (Ns & Ms & Xs).
  induction Hl as [|x l [Nx Mx] _ IH]; [simpl; lia|].
  destruct l as [|y l].
  - simpl. pose proof (paren_max_ge x 0). rewrite Nx, Mx. lia.
  - change (join sep (x :: y :: l)) with (x ++ sep ++ join sep (y :: l)).
    destruct IH as (Nj & Mj & Xj).
    rewrite !paren_net_app, !paren_max_app, !paren_min_app, Nx, Ns, ?Z.add_0_r, ?Z.add_0_l.
    rewrite ?Xs, ?Ms, ?Mx, ?Mj, ?Nj. cbn [map fold_right] in *.
    pose proof (paren_max_ge x 0). pose proof (paren_max_ge y 0). lia.
Qed.

Lemma paren_scan_open d :
  paren_net "(" = 1%Z /\ paren_max "(" d = (d + 1)%Z /\ paren_min "(" d = d.
Proof. cbn [paren_net paren_max paren_min]. unfold paren_step. simpl. lia. Qed.

Lemma paren_scan_close d :
  paren_net ")" = (-1)%Z /\ paren_max ")" d = d /\ paren_min ")" d = (d - 1)%Z.
Proof. cbn [paren_net paren_max paren_min]. unfold paren_step. simpl. lia. Qed.

(** An AND/OR node is one pair of parentheses around its joined children. *)
Lemma node_scan sep fs :
  paren_free sep = true ->
  Forall (fun f => paren_net (compile f) = 0%Z /\ paren_min (compile f) 0 = 0%Z /\
                   paren_max (compile f) 0 = Z.of_nat (logic_depth f)) fs ->
  let s := "(" ++ join sep (map compile fs) ++ ")" in
  paren_net s = 0%Z /\ paren_min s 0 = 0%Z /\
  paren_max s 0 = Z.of_nat (S (list_max (map logic_depth fs))).
Proof.
  intros Hsep Hfs.
  destruct (join_scan sep (map compile fs) Hsep) as (Nj & Mj & Xj).
  { apply Forall_map. revert Hfs. apply Forall_impl. tauto. }
  assert (Hx : paren_max (join sep (map compile fs)) 0 = Z.of_nat (list_max (map logic_depth fs))).
  { rewrite Xj, map_map, <- list_max_Z. f_equal. apply map_ext_Forall. revert Hfs.
    apply Forall_impl. tauto. }
  cbv zeta. rewrite !paren_net_app, !paren_max_app, !paren_min_app.
  destruct (paren_scan_open 0) as (No & Xo & Mo).
  rewrite No, Xo, Mo, (paren_max_shift _ (0 + 1)), (paren_min_shift _ (0 + 1)), Nj, Mj, Hx.
  destruct (paren_scan_close (0 + 1 + 0)) as (Nc & Xc & Mc). rewrite Nc, Xc, Mc.
  rewrite Nat2Z.inj_succ. lia.
Qed.

Lemma compile_scan f :
  filter_paren_free f = true ->
  paren_net (compile f) = 0%Z /\ paren_min (compile f) 0 = 0%Z /\
  paren_max (compile f) 0 = Z.of_nat (logic_depth f).
Proof.
  induction f as [fs IH|fs IH|op x v|op lo x hi] using filter_ind'; simpl; intros H.
  - apply node_scan; [reflexivity|]. rewrite forallb_forall in H. rewrite Forall_forall in *.
    intros f Hf. apply IH; auto.
  - apply node_scan; [reflexivity|]. rewrite forallb_forall in H. rewrite Forall_forall in *.
    intros f Hf. apply IH; auto.
  - apply andb_prop in H as [Hx Hv]. destruct (paren_free_render v Hv) as [Hq _].
    apply paren_free_scan. repeat apply paren_free_app; auto using paren_free_op.
  - apply andb_prop in H as [H Hhi]. apply andb_prop in H as [Hlo Hx].
    destruct (paren_free_render lo Hlo) as [_ Hl]. destruct (paren_free_render hi Hhi) as [_ Hh].
    apply paren_free_scan. repeat apply paren_free_app; auto using paren_free_op.
Qed.

(** C32 (invariant). When no name or string value carries a parenthesis,
    the clause [buildQuery] produces is balanced (it never closes more
    than it opened and ends at level 0) and its deepest nesting is exactly
    the AND/OR depth of the filter. *)
Theorem build_query_parens f :
  filter_paren_free f = true ->
  exists s, build_query (encode f) = Ok s /\ paren_net s = 0%Z /\ paren_min s 0 = 0%Z /\
            paren_max s 0 = Z.of_nat (logic_depth f).
Proof. intros H. exists (compile f). split; [apply build_query_encode | now apply compile_scan]. Qed.

(** ** Witnesses: the theorems above at concrete bodies *)

Lemma build_query_refines_witness :
  decode (JObj [("and", JArr [JObj [("==", JArr [JObj [("var", JStr "status")]; JStr "active"])];
                              JObj [("<=", JArr [JNum 0; JObj [("var", JStr "score")]; JNum 100])]])])
  = Some (FAnd [FCmp OpEq "status" (SStr "active"); FRange OpLe (SNum 0) "score" (SNum 100)]) /\
  build_query (JObj [("and", JArr [JObj [("==", JArr [JObj [("var", JStr "status")]; JStr "active"])];
                                   JObj [("<=", JArr [JNum 0; JObj [("var", JStr "score")]; JNum 100])]])])
  = Ok "(status == 'active' AND score <= 0 AND score <= 100)".
Proof.
  split; [reflexivity|].
  exact (build_query_refines
           (JObj [("and", JArr [JObj [("==", JArr [JObj [("var", JStr "status")]; JStr "active"])];
                                JObj [("<=", JArr [JNum 0; JObj [("var", JStr "score")]; JNum 100])]])])
           (FAnd [FCmp OpEq "status" (SStr "active"); FRange OpLe (SNum 0) "score" (SNum 100)])
           eq_refl).
Defined.

Lemma build_query_fuel_enough_witness :
  json_depth (and_chain 2) <= 10 /\ build_query_fuel 10 (and_chain 2) = build_query (and_chain 2).
Proof. split; [vm_compute; lia | apply build_query_fuel_enough; vm_compute; lia]. Defined.

Lemma build_query_and_witness :
  has_member "and" [("and", JArr [JObj [("<", JArr [JObj [("var", JStr "x")]; JNum 5])]]); ("or", JNull)] = true /\
  build_query (JObj [("and", JArr [JObj [("<", JArr [JObj [("var", JStr "x")]; JNum 5])]]); ("or", JNull)])
  = Ok "(x < 5)".
Proof.
  split; [reflexivity|]. rewrite build_query_and; reflexivity.
Defined.

Lemma build_query_or_witness :
  has_member "and" [("or", JArr [JObj [("!=", JArr [JObj [("var", JStr "x")]; JStr "a"])]])] = false /\
  has_member "or" [("or", JArr [JObj [("!=", JArr [JObj [("var", JStr "x")]; JStr "a"])]])] = true /\
  build_query (JObj [("or", JArr [JObj [("!=", JArr [JObj [("var", JStr "x")]; JStr "a"])]])]) = Ok "(x != 'a')".
Proof. split; [reflexivity | split; [reflexivity | rewrite build_query_or; reflexivity]]. Defined.

Lemma build_query_unsupported_operator_witness :
  build_query (JObj [("between", JArr [JNum 0; JObj [("var", JStr "score")]; JNum 100])])
  = Err (Error "Unsupported operator between").
Proof. apply (build_query_unsupported_operator _ _ []); reflexivity. Defined.

Lemma build_query_operand_count_witness :
  build_query (JObj [(">", JArr [JObj [("var", JStr "x")]])])
  = Err (Error "Invalid number of operands for operator >").
Proof. apply (build_query_operand_count _ _ [] [JObj [("var", JStr "x")]]); try reflexivity; simpl; lia. Defined.

Lemma build_query_extra_keys_ignored_witness :
  build_query (JObj [("<", JArr [JObj [("var", JStr "x")]; JNum 5]); ("note", JStr "ignored")])
  = build_query (JObj [("<", JArr [JObj [("var", JStr "x")]; JNum 5])]).
Proof.
  apply (build_query_extra_keys_ignored OpLt). repeat constructor; simpl; try discriminate; reflexivity.
Defined.

Lemma build_query_parens_witness :
  filter_paren_free (FOr [FAnd [FCmp OpEq "a" (SNum 1)]; FCmp OpGt "b" (SStr "x")]) = true /\
  exists s, build_query (encode (FOr [FAnd [FCmp OpEq "a" (SNum 1)]; FCmp OpGt "b" (SStr "x")])) = Ok s /\
            paren_net s = 0%Z /\ paren_min s 0 = 0%Z /\ paren_max s 0 = 2%Z.
Proof. split; [reflexivity | apply (build_query_parens (FOr [FAnd [FCmp OpEq "a" (SNum 1)]; FCmp OpGt "b" (SStr "x")])); reflexivity]. Defined.
