(* ===== verification/World.v ===== *)
(** The world the services of the middleware run against: [process.env],
    the Postgres table and connection pool of util/databasePg.ts, the
    trace of calls to external services (the data manager and the OpenAI
    API), and the supply of [randomUUID] values.  The external services
    are an interface ([Class Backend]): what they answer is a parameter of
    every theorem.  [io] is the state-and-exception monad of [async]
    code: an exception does not undo the effects that preceded it. *)

From Stdlib Require Import String Ascii ZArith NArith List Lia.
From S2P Require Import Prelude Js.
Import ListNotations.
Local Open Scope string_scope.

Module World.
Import Js.

(** ** The environment *)

(** The variables of [process.env] the code reads; [None] is
    [undefined]. *)
Record env : Type := {
  BUCKET_NAME : option string;
  CUSTOMER_ID : option string;
  DATA_MANAGER_QUERY_ENDPOINT : option string;
  DATA_MANAGER_TABLE_ENDPOINT : option string;
  DATA_MANAGER_EXECUTE_ENDPOINT : option string
}.

(** [`${v}`] for an environment variable. *)
Definition env_text (v : option string) : string :=
  match v with
  | Some s => s
  | None => "undefined"
  end.

(** ** The database *)

(** A row of [saved_queries] (databasePg.ts, lines 106-112). *)
Record saved_row : Type := {
  row_id : Z;
  customer_id : string;
  prompt_id : string;
  query_text : string;
  prompt : string
}.

(** The Postgres server as the pool sees it: whether it accepts
    connections, whether the table exists, its rows in insertion order,
    the next value of the [SERIAL] sequence, and how many pool clients
    are checked out and not yet released. *)
Record db_state : Type := {
  db_reachable : bool;
  table_exists : bool;
  rows : list saved_row;
  next_id : Z;
  checked_out : nat
}.

(** ** External services *)

(** One request to an external service. *)
Inductive ext_call : Type :=
| PostQuery (url : option string) (sql : string)
    (** [axios.post(url, { query })] *)
| PostTable (url : option string) (table_name : option json)
    (** [axios.post(url, null, { params: { table_name } })] *)
| PostExecute (url : option string) (data : string)
    (** [axios.request({ method: "post", url, data })] *)
| Completion (prompt : string).
    (** [openai.chat.completions.create] with the prompt as system message *)

(** What the services answer: [resp.data] (for a completion, the message
    content, a string or [null]) or the exception the client library
    throws. *)
Class Backend : Type := {
  respond : ext_call -> result js_exn json
}.

(** ** The world and the io monad *)

Record world : Type := {
  w_db : db_state;
  w_calls : list ext_call;
  w_uuids : nat
}.

Definition io (A : Type) : Type := world -> result js_exn A * world.

Definition ret {A} (a : A) : io A := fun w => (Ok a, w).

Definition throw {A} (e : js_exn) : io A := fun w => (Err e, w).

Definition io_bind {A B} (c : io A) (k : A -> io B) : io B :=
  fun w => match c w with
           | (Ok a, w') => k a w'
           | (Err e, w') => (Err e, w')
           end.

(** [try { c } catch (e) { h(e) }] *)
Definition catch {A} (c : io A) (h : js_exn -> io A) : io A :=
  fun w => match c w with
           | (Ok a, w') => (Ok a, w')
           | (Err e, w') => h e w'
           end.

(** [try { c } finally { f }]: [f] runs on both paths; an exception of
    [f] replaces the result. *)
Definition finally {A} (c : io A) (f : io unit) : io A :=
  fun w => match c w with
           | (r, w') => match f w' with
                        | (Ok _, w'') => (r, w'')
                        | (Err e, w'') => (Err e, w'')
                        end
           end.

(** A pure computation that may throw. *)
Definition lift {A} (r : result js_exn A) : io A := fun w => (r, w).

Definition modify_db (f : db_state -> db_state) : io unit :=
  fun w => (Ok tt, {| w_db := f (w_db w); w_calls := w_calls w; w_uuids := w_uuids w |}).

Definition get_db : io db_state := fun w => (Ok (w_db w), w).

(** [k] lower-case hexadecimal digits of [n], most significant first. *)
Fixpoint hex_pad (k : nat) (n : N) : string :=
  match k with
  | O => EmptyString
  | S k' => hex_pad k' (N.div n 16) ++ String (hex_digit (N.to_nat (N.modulo n 16))) EmptyString
  end.

(** [randomUUID()]: a version-4 UUID of 36 characters; the values are
    drawn from a counter, so they are pairwise distinct (below [16^12]
    draws). *)
Definition uuid_of (n : nat) : string :=
  "00000000-0000-4000-8000-" ++ hex_pad 12 (N.of_nat n).

Definition random_uuid : io string :=
  fun w => (Ok (uuid_of (w_uuids w)),
            {| w_db := w_db w; w_calls := w_calls w; w_uuids := S (w_uuids w) |}).

(** A reachable server without the table yet, and a world that starts
    from a given server state: fixtures for concrete runs. *)
Definition fresh_db : db_state :=
  {| db_reachable := true; table_exists := false; rows := []; next_id := 1%Z; checked_out := 0 |}.

Definition start_world (d : db_state) : world := {| w_db := d; w_calls := []; w_uuids := 0 |}.

Section Calls.
Context `{Backend}.

(** A request to an external service, recorded in the trace. *)
Definition external (c : ext_call) : io json :=
  fun w => (respond c, {| w_db := w_db w; w_calls := w_calls w ++ [c]; w_uuids := w_uuids w |}).

End Calls.

End World.

Declare Scope io_scope.
Delimit Scope io_scope with io.
Notation "'let!' x ':=' c 'in' k" := (World.io_bind c (fun x => k))
  (at level 62, x name, c at next level, right associativity) : io_scope.
Notation "'do!' c ';' k" := (World.io_bind c (fun _ => k))
  (at level 62, c at next level, right associativity) : io_scope.

Import World.

Lemma hex_pad_length k n : String.length (hex_pad k n) = k.
Proof.
  revert n; induction k as [|k IH]; intros n; simpl; [reflexivity|].
  rewrite string_length_app, IH. simpl. lia.
Qed.

Lemma uuid_of_length n : String.length (uuid_of n) = 36%nat.
Proof. unfold uuid_of. rewrite string_length_app, hex_pad_length. reflexivity. Qed.
