(* ===== verification/SavedQueries.v ===== *)
(** The saved-query store: src/middleware/util/databasePg.ts.  Each of
    its four functions takes a client from the pool, runs one statement on
    the [saved_queries] table in a [try/finally] that releases the client,
    and wraps any exception in a [CustomError].  The server's behaviour on
    the four statements is modelled here on [World.db_state]; the
    parameter conversion of node-postgres ([prepareValue]) is modelled for
    the JSON values the handlers can pass. *)

From Stdlib Require Import String Ascii ZArith List Lia Bool.
From S2P Require Import Prelude Js World.
Import ListNotations.
Local Open Scope string_scope.
Local Open Scope io_scope.

Module SavedQueries.
Import Js World.

(** ** The server side *)

(** What [pool.connect()] throws when the server refuses connections. *)
Definition connection_refused : js_exn := Error "connect ECONNREFUSED".

(** What the server reports for a statement on the missing table. *)
Definition relation_missing : js_exn :=
  DatabaseError ("relation " ++ dq ++ "saved_queries" ++ dq ++ " does not exist").

Definition not_null_violation (column : string) : js_exn :=
  DatabaseError ("null value in column " ++ dq ++ column ++ dq ++ " of relation " ++ dq ++
                 "saved_queries" ++ dq ++ " violates not-null constraint").

Definition too_long : js_exn := DatabaseError "value too long for type character varying(255)".

Definition set_checked_out (n : nat) (d : db_state) : db_state :=
  {| db_reachable := db_reachable d; table_exists := table_exists d; rows := rows d;
     next_id := next_id d; checked_out := n |}.

(** [pool.connect()]: a client is checked out. *)
Definition pool_connect : io unit :=
  fun w => if db_reachable (w_db w)
           then modify_db (fun d => set_checked_out (S (checked_out d)) d) w
           else (Err connection_refused, w).

(** [client.release()] *)
Definition client_release : io unit :=
  modify_db (fun d => set_checked_out (pred (checked_out d)) d).

(** [const client = await pool.connect(); try { body } finally { client.release(); }] *)
Definition with_client {A} (body : io A) : io A :=
  io_bind pool_connect (fun _ => finally body client_release).

(** node-postgres's [escapeElement] and [arrayString]: the text of an
    array parameter. *)
Definition pg_escape_element (s : string) : string :=
  dq ++ String.concat "" (map (fun c => if (nat_of_ascii c =? 92)%nat || (nat_of_ascii c =? 34)%nat
                                         then String backslash (String c EmptyString)
                                         else String c EmptyString)
                            (list_ascii_of_string s)) ++ dq.

Fixpoint pg_array_element (x : json) : string :=
  match x with
  | JNull => "NULL"
  | JArr ys => "{" ++ join "," (map pg_array_element ys) ++ "}"
  | JObj _ => pg_escape_element (json_stringify x)
  | JStr s => pg_escape_element s
  | JNum n => pg_escape_element (str_of_Z n)
  | JBool b => pg_escape_element (if b then "true" else "false")
  end.

Definition pg_array_string (xs : list json) : string := pg_array_element (JArr xs).

(** node-postgres's [prepareValue]: the text sent for a parameter; [None]
    is SQL [NULL]. *)
Definition prepare_value (v : json) : option string :=
  match v with
  | JNull => None
  | JStr s => Some s
  | JNum n => Some (str_of_Z n)
  | JBool b => Some (if b then "true" else "false")
  | JArr xs => Some (pg_array_string xs)
  | JObj _ => Some (json_stringify v)
  end.

(** [INSERT INTO saved_queries(customer_id, prompt_id, query_text, prompt)
    VALUES($1, $2, $3, $4) RETURNING *]: the row is built column by column
    (the [SERIAL] default drawn first, then each value coerced to its
    column type, which is where [VARCHAR(255)] is checked), and the
    [NOT NULL] constraints are checked on the built row. *)
Definition sql_insert (c p q pr : option string) : io saved_row :=
  fun w =>
    let d := w_db w in
    if negb (table_exists d) then (Err relation_missing, w) else
    let d' := {| db_reachable := db_reachable d; table_exists := true; rows := rows d;
                 next_id := (next_id d + 1)%Z; checked_out := checked_out d |} in
    let w' := {| w_db := d'; w_calls := w_calls w; w_uuids := w_uuids w |} in
    let longer v := match v with Some t => (255 <? String.length t)%nat | None => false end in
    if longer c || longer p then (Err too_long, w') else
    match c, p, q, pr with
    | None, _, _, _ => (Err (not_null_violation "customer_id"), w')
    | _, None, _, _ => (Err (not_null_violation "prompt_id"), w')
    | _, _, None, _ => (Err (not_null_violation "query_text"), w')
    | _, _, _, None => (Err (not_null_violation "prompt"), w')
    | Some c, Some p, Some q, Some pr =>
        let r := {| row_id := next_id d; customer_id := c; prompt_id := p;
                    query_text := q; prompt := pr |} in
        (Ok r, {| w_db := {| db_reachable := db_reachable d; table_exists := true;
                              rows := rows d ++ [r]; next_id := (next_id d + 1)%Z;
                              checked_out := checked_out d |};
                  w_calls := w_calls w; w_uuids := w_uuids w |})
    end.

(** [SELECT query_text FROM saved_queries WHERE prompt_id = $1]: the rows
    come back in insertion order. *)
Definition sql_select_by_prompt (id : option string) : io (list string) :=
  fun w =>
    let d := w_db w in
    if negb (table_exists d) then (Err relation_missing, w)
    else (Ok (map query_text (filter (fun r => match id with
                                               | Some i => String.eqb (prompt_id r) i
                                               | None => false
                                               end) (rows d))), w).

(** [SELECT prompt_id, prompt FROM saved_queries] *)
Definition sql_select_all : io (list json) :=
  fun w =>
    let d := w_db w in
    if negb (table_exists d) then (Err relation_missing, w)
    else (Ok (map (fun r => JObj [("prompt_id", JStr (prompt_id r)); ("prompt", JStr (prompt r))])
                  (rows d)), w).

(** [CREATE TABLE IF NOT EXISTS saved_queries(...)] *)
Definition sql_create_table : io unit :=
  modify_db (fun d => {| db_reachable := db_reachable d; table_exists := true; rows := rows d;
                         next_id := next_id d; checked_out := checked_out d |}).

(** ** The four functions of databasePg.ts *)

(** Lines 15-44. *)
Definition insertSavedQuery (customerId promptId queryText prompt : json) : io saved_row :=
  catch (with_client (sql_insert (prepare_value customerId) (prepare_value promptId)
                                 (prepare_value queryText) (prepare_value prompt)))
        (fun err => throw (CustomError 500 ("Error inserting saved query: " ++ exn_to_string err) None)).

(** Lines 45-79: the inner [catch] wraps a failed statement, and the outer
    one wraps whatever escapes, the inner wrapper included. *)
Definition getSavedQueryById (id : string) : io (option string) :=
  catch (with_client
           (catch (let! texts := sql_select_by_prompt (Some id) in
                   ret (hd_error texts))
                  (fun queryErr => throw (CustomError 500 ("Error executing query " ++
                                                           exn_message queryErr) None))))
        (fun connectionErr => throw (CustomError 500 ("Error executing query " ++
                                                      exn_message connectionErr) None)).

(** Lines 81-101. *)
Definition getSavedQueries : io (list json) :=
  catch (with_client sql_select_all)
        (fun err => throw (CustomError 500 ("Error getting saved queries: " ++ exn_to_string err) None)).

(** Lines 103-128. *)
Definition createTable : io unit :=
  catch (with_client sql_create_table)
        (fun err => throw (CustomError 500 ("Error creating table: " ++ exn_to_string err) None)).

(** ** Properties stated over runs *)

(** A run leaves as many pool clients checked out as it found. *)
Definition releases_clients {A} (c : io A) : Prop :=
  forall w, checked_out (w_db (snd (c w))) = checked_out (w_db w).

End SavedQueries.

Import Js World SavedQueries.

(** ** The pool *)

Lemma with_client_releases {A} (body : io A) :
  releases_clients body -> releases_clients (with_client body).
Proof.
  intros Hb w. unfold with_client, io_bind, pool_connect, finally, client_release, modify_db.
  destruct (db_reachable (w_db w)) eqn:Hr; [|reflexivity]. simpl.
  specialize (Hb {| w_db := set_checked_out (S (checked_out (w_db w))) (w_db w);
                    w_calls := w_calls w; w_uuids := w_uuids w |}).
  destruct (body _) as [r w1]. simpl in *. rewrite Hb. reflexivity.
Qed.

Lemma catch_throw_releases {A} (c : io A) (h : js_exn -> js_exn) :
  releases_clients c -> releases_clients (catch c (fun e => throw (h e))).
Proof. intros Hc w. unfold catch, throw. specialize (Hc w). now destruct (c w) as [[]]. Qed.

Lemma statement_releases_db :
  (forall c p q pr, releases_clients (sql_insert c p q pr)) /\
  (forall id, releases_clients (sql_select_by_prompt id)) /\
  releases_clients sql_select_all /\ releases_clients sql_create_table.
Proof.
  repeat split; intros; intros w; unfold sql_insert, sql_select_by_prompt, sql_select_all;
    repeat match goal with
           | |- context [if ?b then _ else _] => destruct b
           | |- context [match ?o with Some _ => _ | None => _ end] => destruct o
           end;
    reflexivity.
Qed.

(** C4 (safety). Each function of databasePg.ts returns its pool client on
    every path, an exception included: the [finally] of each is reached
    whenever [pool.connect()] succeeded. *)
Theorem databasePg_releases_clients :
  (forall a b c d, releases_clients (insertSavedQuery a b c d)) /\
  (forall id, releases_clients (getSavedQueryById id)) /\
  releases_clients getSavedQueries /\ releases_clients createTable.
Proof.
  destruct statement_releases_db as (Hi & Hs & Ha & Hc).
  repeat split; intros; apply catch_throw_releases, with_client_releases; auto.
  intros w. unfold catch, io_bind, throw, ret. specialize (Hs (Some id) w).
  destruct (sql_select_by_prompt _ w) as [[]]; exact Hs.
Qed.


(** ** Insert and lookup *)

Definition row_of (d : db_state) (c p q pr : string) : saved_row :=
  {| row_id := next_id d; customer_id := c; prompt_id := p; query_text := q; prompt := pr |}.

Lemma insertSavedQuery_ok c p q pr w :
  db_reachable (w_db w) = true -> table_exists (w_db w) = true ->
  (String.length c <= 255)%nat -> (String.length p <= 255)%nat ->
  insertSavedQuery (JStr c) (JStr p) (JStr q) (JStr pr) w =
  (Ok (row_of (w_db w) c p q pr),
   {| w_db := {| db_reachable := true; table_exists := true;
                 rows := rows (w_db w) ++ [row_of (w_db w) c p q pr];
                 next_id := (next_id (w_db w) + 1)%Z; checked_out := checked_out (w_db w) |};
      w_calls := w_calls w; w_uuids := w_uuids w |}).
Proof.
  intros Hr Ht Hc Hp. destruct w as [[reach tbl rs nid co] calls u]; simpl in *; subst.
  unfold insertSavedQuery, catch, with_client, io_bind, pool_connect, finally, client_release,
    modify_db, sql_insert. simpl.
  rewrite (proj2 (Nat.ltb_ge _ _) Hc), (proj2 (Nat.ltb_ge _ _) Hp). reflexivity.
Qed.

Lemma getSavedQueryById_table id w :
  db_reachable (w_db w) = true -> table_exists (w_db w) = true ->
  getSavedQueryById id w =
  (Ok (hd_error (map query_text (filter (fun r => String.eqb (prompt_id r) id) (rows (w_db w))))), w).
Proof.
  intros Hr Ht. destruct w as [[reach tbl rs nid co] calls u]; simpl in *; subst.
  reflexivity.
Qed.

Lemma filter_fresh (p : string) (rs : list saved_row) :
  Forall (fun r => prompt_id r <> p) rs -> filter (fun r => String.eqb (prompt_id r) p) rs = [].
Proof.
  induction 1 as [|r rs Hr _ IH]; simpl; [reflexivity|].
  destruct (String.eqb_spec (prompt_id r) p); [contradiction | exact IH].
Qed.

(** C3 (roundtrip). On a reachable server whose table exists, a query
    saved under a fresh prompt id is what [getSavedQueryById] of that id
    returns afterwards. *)
Theorem insert_then_get c p q pr w :
  db_reachable (w_db w) = true -> table_exists (w_db w) = true ->
  (String.length c <= 255)%nat -> (String.length p <= 255)%nat ->
  Forall (fun r => prompt_id r <> p) (rows (w_db w)) ->
  fst (getSavedQueryById p (snd (insertSavedQuery (JStr c) (JStr p) (JStr q) (JStr pr) w)))
  = Ok (Some q).
Proof.
  intros Hr Ht Hc Hp Hfresh. rewrite insertSavedQuery_ok by assumption.
  rewrite getSavedQueryById_table by reflexivity. simpl.
  rewrite filter_app, filter_fresh by exact Hfresh. simpl. now rewrite String.eqb_refl.
Qed.

(** An id under which nothing was saved gives [null]
    (lines 59-61), and the store is left as it was. *)
Theorem get_unknown_id id w :
  db_reachable (w_db w) = true -> table_exists (w_db w) = true ->
  Forall (fun r => prompt_id r <> id) (rows (w_db w)) ->
  getSavedQueryById id w = (Ok None, w).
Proof.
  intros Hr Ht Hfresh. rewrite getSavedQueryById_table by assumption.
  now rewrite filter_fresh.
Qed.

(** C26 (error). When the statement fails (here: the table does not exist)
    the inner [catch] wraps the server's message and the outer [catch]
    wraps the wrapper again, so the message carries its prefix twice. *)
Theorem get_failure_wrapped_twice id w :
  db_reachable (w_db w) = true -> table_exists (w_db w) = false ->
  getSavedQueryById id w =
  (Err (CustomError 500 ("Error executing query Error executing query " ++
                         exn_message relation_missing) None), w).
Proof.
  intros Hr Ht. destruct w as [[reach tbl rs nid co] calls u]; simpl in *; subst. reflexivity.
Qed.

(** C12 (functional). On a reachable server with the table,
    [insertSavedQuery] of four strings (the two ids at most 255
    characters) appends one row, with the next [SERIAL] value and the four
    values in column order, and returns it; with a [null] prompt the
    server refuses the row after drawing the sequence value, and the
    [catch] rethrows its error as [CustomError] 500 with
    ["Error inserting saved query: ${err}"].  Both paths release the
    client. *)
Theorem insertSavedQuery_effect c p q pr w :
  db_reachable (w_db w) = true -> table_exists (w_db w) = true ->
  (String.length c <= 255)%nat -> (String.length p <= 255)%nat ->
  insertSavedQuery (JStr c) (JStr p) (JStr q) (JStr pr) w =
  (Ok (row_of (w_db w) c p q pr),
   {| w_db := {| db_reachable := true; table_exists := true;
                 rows := rows (w_db w) ++ [row_of (w_db w) c p q pr];
                 next_id := (next_id (w_db w) + 1)%Z; checked_out := checked_out (w_db w) |};
      w_calls := w_calls w; w_uuids := w_uuids w |}) /\
  insertSavedQuery (JStr c) (JStr p) (JStr q) JNull w =
  (Err (CustomError 500 ("Error inserting saved query: error: null value in column " ++ dq ++ "prompt" ++ dq ++
                         " of relation " ++ dq ++ "saved_queries" ++ dq ++ " violates not-null constraint")
                    None),
   {| w_db := {| db_reachable := true; table_exists := true; rows := rows (w_db w);
                 next_id := (next_id (w_db w) + 1)%Z; checked_out := checked_out (w_db w) |};
      w_calls := w_calls w; w_uuids := w_uuids w |}).
Proof.
  intros Hr Ht Hc Hp. split; [now apply insertSavedQuery_ok|].
  destruct w as [[reach tbl rs nid co] calls u]; simpl in *; subst.
  unfold insertSavedQuery, catch, with_client, io_bind, pool_connect, finally, client_release,
    modify_db, sql_insert, throw. simpl.
  rewrite (proj2 (Nat.ltb_ge _ _) Hc), (proj2 (Nat.ltb_ge _ _) Hp). reflexivity.
Qed.

(** When the server refuses connections, saving fails with a
    [CustomError] 500 that carries the connection error, and nothing
    changes. *)
Theorem insert_unreachable a b c d w :
  db_reachable (w_db w) = false ->
  insertSavedQuery a b c d w =
  (Err (CustomError 500 ("Error inserting saved query: " ++ exn_to_string connection_refused) None), w).
Proof. intros Hr. unfold insertSavedQuery, catch, with_client, io_bind, pool_connect. now rewrite Hr. Qed.


(** ** Witnesses *)

Lemma insert_then_get_witness :
  fst (getSavedQueryById "p1"
         (snd (insertSavedQuery (JStr "c1") (JStr "p1") (JStr "SELECT 1") (JStr "prompt")
                 (start_world (snd (createTable (start_world fresh_db)) ).(w_db)))))
  = Ok (Some "SELECT 1").
Proof. apply insert_then_get; try reflexivity; simpl; try lia; constructor. Defined.

Lemma get_failure_wrapped_twice_witness :
  fst (getSavedQueryById "p1" (start_world fresh_db)) =
  Err (CustomError 500 ("Error executing query Error executing query relation " ++ dq ++
                        "saved_queries" ++ dq ++ " does not exist") None).
Proof. rewrite get_failure_wrapped_twice by reflexivity. reflexivity. Defined.

Lemma insertSavedQuery_effect_witness :
  fst (insertSavedQuery (JStr "c1") (JStr "p1") (JStr "SELECT 1") JNull
         (snd (createTable (start_world fresh_db)))) =
  Err (CustomError 500 ("Error inserting saved query: error: null value in column " ++ dq ++ "prompt" ++ dq ++
                        " of relation " ++ dq ++ "saved_queries" ++ dq ++ " violates not-null constraint") None).
Proof.
  rewrite (proj2 (insertSavedQuery_effect "c1" "p1" "SELECT 1" "x" (snd (createTable (start_world fresh_db)))
                    eq_refl eq_refl ltac:(simpl; lia) ltac:(simpl; lia))).
  reflexivity.
Defined.
