(* ===== verification/QueryService.v ===== *)
(** The analytical query service: [QueryService.queryData] and the nine
    fixed queries of src/middleware/services/query.service.ts (lines
    64-230).  Each method builds a SQL text inside a [try], posts it to the
    data manager and returns [resp.data]; any exception becomes a
    [CustomError] with code 500 and the original message.  The SQL texts
    are the template literals of the source, character for character. *)

From Stdlib Require Import String Ascii ZArith List Lia Bool.
From S2P Require Import Prelude Js FilterCompiler World.
Import ListNotations.
Local Open Scope string_scope.
Local Open Scope result_scope.
Local Open Scope io_scope.

Module QueryService.
Import Js FilterCompiler World.

(** A line break inside a template literal. *)
Definition nl : string := String (ascii_of_nat 10) EmptyString.

(** ** The SQL texts *)

(** Line 67. *)
Definition queryData_sql (e : env) (tableName whereClause : string) : string :=
  "SELECT * FROM READ_PARQUET('" ++ env_text (BUCKET_NAME e) ++ "/main/cust_id=cust_68c2410d-8d6c-49a9-aa3f-a467f7c6da7e/table_name=" ++ tableName ++ "/**/*.parquet', union_by_name=True)  WHERE " ++ whereClause.

(** Lines 81-82. *)
Definition queryUniqueCounts_sql (e : env) : string :=
  "SELECT COUNT(DISTINCT _data->>'sid') AS unique_sessions " ++ nl ++
  "      FROM READ_PARQUET('" ++ env_text (BUCKET_NAME e) ++ "/main/cust_id=cust_68c2410d-8d6c-49a9-aa3f-a467f7c6da7e/table_name=visits_datamgr_format/**/*.parquet', union_by_name=True)".

(** Line 97. *)
Definition querySessionBrokenDownByMonth_sql : string :=
  "SELECT _data->>'sessionSource' AS session_source, _data->>'yearMonth' AS year_month, COUNT(DISTINCT _data->>'sid') AS unique_sessions FROM READ_PARQUET('${process.env.BUCKET_NAME}/main/cust_id=cust_68c2410d-8d6c-49a9-aa3f-a467f7c6da7e/table_name=visits_datamgr_format/**/*.parquet', union_by_name=True)  GROUP BY session_source, year_month  ORDER BY session_source, year_month".

(** Line 111. *)
Definition querySessionBrokenDownByDay_sql : string :=
  "SELECT _data->>'sessionSource' AS session_source, _data->>'date' AS date, COUNT(DISTINCT _data->>'sid') AS unique_sessions FROM READ_PARQUET('${process.env.BUCKET_NAME}/main/cust_id=cust_68c2410d-8d6c-49a9-aa3f-a467f7c6da7e/table_name=visits_datamgr_format/**/*.parquet', union_by_name=True) GROUP BY session_source, date ORDER BY session_source, date".

(** Line 124. *)
Definition queryGetAdStatsByTime_sql (e : env) (startDate endDate : string) : string :=
  "SELECT source->>'dataSource' AS ad_source,SUM(CAST(metrics->>'cost' AS DOUBLE)) AS total_spend FROM READ_PARQUET('" ++ env_text (BUCKET_NAME e) ++ "/main/cust_id=cust_68c2410d-8d6c-49a9-aa3f-a467f7c6da7e/table_name=adreport_datamgr_format/**/*.parquet', union_by_name=True) WHERE (source->>'dataSource' IN ('google', 'meta', 'linkedin'))  AND (date_time->>'date')::date BETWEEN '" ++ startDate ++ "' AND '" ++ endDate ++ "' GROUP BY ad_source ORDER BY ad_source ".

(** Lines 141-144. *)
Definition queryGetImpressionStatsByTime_sql (e : env) (startDate endDate : string) : string :=
  nl ++
  "  SELECT SUM(CAST(metrics->>'impressions' AS bigint)) AS total" ++ nl ++
  "  FROM READ_PARQUET('" ++ env_text (BUCKET_NAME e) ++ "/main/cust_id=cust_68c2410d-8d6c-49a9-aa3f-a467f7c6da7e/table_name=adreport_datamgr_format/**/*.parquet', union_by_name=True)" ++ nl ++
  "   WHERE (date_time->>'date')::date BETWEEN '" ++ startDate ++ "' AND '" ++ endDate ++ "'".

(** Lines 158-164. *)
Definition queryGetTotalRAO_sql (e : env) (startDate endDate : string) : string :=
  "WITH revenue_sum AS (SELECT SUM(CAST(_data->>'total' AS DOUBLE)) AS total_revenue " ++ nl ++
  "      FROM READ_PARQUET('" ++ env_text (BUCKET_NAME e) ++ "/main/cust_id=cust_68c2410d-8d6c-49a9-aa3f-a467f7c6da7e/table_name=transactions_datamgr_format/**/*.parquet'," ++ nl ++
  "       union_by_name=True)), " ++ nl ++
  "      adspend_sum AS" ++ nl ++
  "       (SELECT SUM(CAST(metrics->>'cost' AS DOUBLE)) AS total_adspend FROM" ++ nl ++
  "        READ_PARQUET('" ++ env_text (BUCKET_NAME e) ++ "/main/cust_id=cust_68c2410d-8d6c-49a9-aa3f-a467f7c6da7e/table_name=adreport_datamgr_format/**/*.parquet', union_by_name=True) " ++ nl ++
  "       WHERE (date_time->>'date')::date BETWEEN '" ++ startDate ++ "' AND '" ++ endDate ++ "') SELECT revenue_sum.total_revenue / adspend_sum.total_adspend AS total_roas FROM revenue_sum, adspend_sum ".

(** Lines 176-180. *)
Definition queryGetCPC_sql (e : env) (startDate endDate : string) : string :=
  "WITH clicks_sum AS (SELECT SUM(CAST(metrics->>'clicks' AS INTEGER)) AS total_clicks FROM " ++ nl ++
  "      READ_PARQUET('" ++ env_text (BUCKET_NAME e) ++ "/main/cust_id=cust_68c2410d-8d6c-49a9-aa3f-a467f7c6da7e/table_name=adreport_datamgr_format/**/*.parquet', union_by_name=True)" ++ nl ++
  "       WHERE (date_time->>'date')::date BETWEEN '" ++ startDate ++ "' AND '" ++ endDate ++ "'), impressions_sum AS (SELECT SUM(CAST(metrics->>'impressions' AS INTEGER)) AS total_impressions " ++ nl ++
  "       FROM READ_PARQUET('" ++ env_text (BUCKET_NAME e) ++ "/main/cust_id=cust_68c2410d-8d6c-49a9-aa3f-a467f7c6da7e/table_name=adreport_datamgr_format/**/*.parquet', union_by_name=True)" ++ nl ++
  "        WHERE (date_time->>'date')::date BETWEEN '" ++ startDate ++ "' AND '" ++ endDate ++ "') SELECT clicks_sum.total_clicks / impressions_sum.total_impressions AS cpc_rate FROM clicks_sum, impressions_sum".

(** Lines 193-198. *)
Definition queryDonutChart_sql (e : env) : string :=
  "WITH total_revenue_cte AS (SELECT SUM(CAST(_data ->> 'total' AS decimal)) AS total_revenue " ++ nl ++
  "      FROM READ_PARQUET('" ++ env_text (BUCKET_NAME e) ++ "/main/cust_id=cust_68c2410d-8d6c-49a9-aa3f-a467f7c6da7e/table_name=transactions_datamgr_format/**/*.parquet'," ++ nl ++
  "       union_by_name = True)), revenue_by_source AS(SELECT TRIM(BOTH '" ++ dq ++ "' FROM JSON_EXTRACT(_data, '$.campaign.source')) AS source, SUM(CAST(_data ->> 'total' AS decimal))" ++ nl ++
  "        AS revenue FROM READ_PARQUET('" ++ env_text (BUCKET_NAME e) ++ "/main/cust_id=cust_68c2410d-8d6c-49a9-aa3f-a467f7c6da7e/table_name=transactions_datamgr_format/**/*.parquet', " ++ nl ++
  "        union_by_name = True) WHERE JSON_EXTRACT(_data, '$.campaign.source') IS NOT NULL GROUP BY source) SELECT r.source, r.revenue, t.total_revenue" ++ nl ++
  "        FROM revenue_by_source r CROSS JOIN total_revenue_cte t".

(** Lines 212-220. *)
Definition queryGetPieChart_sql (e : env) (startDate endDate : string) : string :=
  " SELECT" ++ nl ++
  "     (source ->> 'dataSource') AS source," ++ nl ++
  "        SUM(CAST(metrics ->> 'cost' AS DECIMAL)) AS total_ad_spend" ++ nl ++
  "      FROM" ++ nl ++
  "      READ_PARQUET('" ++ env_text (BUCKET_NAME e) ++ "/main/cust_id=cust_68c2410d-8d6c-49a9-aa3f-a467f7c6da7e/table_name=adreport_datamgr_format/**/*.parquet', union_by_name = True)" ++ nl ++
  "      WHERE" ++ nl ++
  "        (date_time ->> 'date')::date BETWEEN '" ++ startDate ++ "' AND '" ++ endDate ++ "' " ++ nl ++
  "GROUP BY" ++ nl ++
  "      source".

(** ** The methods *)

Section Methods.
Context `{Backend}.
Variable e : env.

(** The shape every method shares (for [queryData], lines 65-76): the
    query is built inside the [try], posted with [axios.post], and any
    exception, of the building or of the request, is rethrown as
    [new CustomError(500, err.message)]. *)
Definition post_query (query : result js_exn string) : io json :=
  catch (let! q := lift query in
         external (PostQuery (DATA_MANAGER_QUERY_ENDPOINT e) q))
        (fun err => throw (CustomError 500 (exn_message err) None)).

(** Lines 64-77: the filter compiler's clause after [WHERE]. *)
Definition queryData (body : json) (tableName : option json) : io json :=
  post_query (let* whereClause := build_query body in
              let* table := js_to_string_u tableName in
              Ok (queryData_sql e table whereClause)).

(** Lines 79-92. *)
Definition queryUniqueCounts : io json := post_query (Ok (queryUniqueCounts_sql e)).

(** Lines 94-106. *)
Definition querySessionBrokenDownByMonth : io json :=
  post_query (Ok querySessionBrokenDownByMonth_sql).

(** Lines 108-121. *)
Definition querySessionBrokenDownByDay : io json :=
  post_query (Ok querySessionBrokenDownByDay_sql).

(** The two dates of a date-range query, converted as the template
    literal converts them. *)
Definition with_dates (startDate endDate : option json) (sql : string -> string -> string)
  : result js_exn string :=
  let* s := js_to_string_u startDate in
  let* d := js_to_string_u endDate in
  Ok (sql s d).

(** Lines 122-133. *)
Definition queryGetAdStatsByTime (startDate endDate : option json) : io json :=
  post_query (with_dates startDate endDate (queryGetAdStatsByTime_sql e)).

(** Lines 135-154: [table_name] is a parameter the body never reads. *)
Definition queryGetImpressionStatsByTime (table_name startDate endDate : option json) : io json :=
  post_query (with_dates startDate endDate (queryGetImpressionStatsByTime_sql e)).

(** Lines 156-173. *)
Definition queryGetTotalRAO (startDate endDate : option json) : io json :=
  post_query (with_dates startDate endDate (queryGetTotalRAO_sql e)).

(** Lines 174-189. *)
Definition queryGetCPC (startDate endDate : option json) : io json :=
  post_query (with_dates startDate endDate (queryGetCPC_sql e)).

(** Lines 191-208. *)
Definition queryDonutChart : io json := post_query (Ok (queryDonutChart_sql e)).

(** Lines 210-230. *)
Definition queryGetPieChart (startDate endDate : option json) : io json :=
  post_query (with_dates startDate endDate (queryGetPieChart_sql e)).

End Methods.

(** A data manager that answers [null] to every request, and one that
    fails every request as axios does on a 500 reply: fixtures for the
    witnesses. *)
Definition null_backend : Backend := {| respond := fun _ => Ok JNull |}.

Definition failing_backend : Backend :=
  {| respond := fun _ => Err (AxiosError "Request failed with status code 500") |}.

Definition test_env : env :=
  {| BUCKET_NAME := Some "s3://bucket"; CUSTOMER_ID := Some "cust";
     DATA_MANAGER_QUERY_ENDPOINT := Some "http://dm/query";
     DATA_MANAGER_TABLE_ENDPOINT := Some "http://dm/table";
     DATA_MANAGER_EXECUTE_ENDPOINT := Some "http://dm/execute" |}.

End QueryService.

Import Js FilterCompiler World QueryService.

(** What [post_query] does with a query text it could build. *)
Lemma post_query_run `{Backend} e q w :
  post_query e (Ok q) w =
  (match respond (PostQuery (DATA_MANAGER_QUERY_ENDPOINT e) q) with
   | Ok d => Ok d
   | Err x => Err (CustomError 500 (exn_message x) None)
   end,
   {| w_db := w_db w; w_calls := (w_calls w ++ [PostQuery (DATA_MANAGER_QUERY_ENDPOINT e) q])%list;
      w_uuids := w_uuids w |}).
Proof. unfold post_query, catch, io_bind, lift, external, throw. destruct (respond _); reflexivity. Qed.

(** C5 (functional). [queryData] posts exactly one request to the data
    manager: the [SELECT] over the table's Parquet files with the filter
    compiler's clause after [WHERE]; the data manager's answer is
    returned, and its failure becomes a [CustomError] 500 with its
    message. *)
Theorem queryData_posts_where_clause `{Backend} e body tableName table whereClause w :
  build_query body = Ok whereClause -> js_to_string_u tableName = Ok table ->
  let sql := "SELECT * FROM READ_PARQUET('" ++ env_text (BUCKET_NAME e) ++
             "/main/cust_id=cust_68c2410d-8d6c-49a9-aa3f-a467f7c6da7e/table_name=" ++ table ++
             "/**/*.parquet', union_by_name=True)  WHERE " ++ whereClause in
  w_calls (snd (queryData e body tableName w)) =
    (w_calls w ++ [PostQuery (DATA_MANAGER_QUERY_ENDPOINT e) sql])%list /\
  fst (queryData e body tableName w) =
    match respond (PostQuery (DATA_MANAGER_QUERY_ENDPOINT e) sql) with
    | Ok d => Ok d
    | Err x => Err (CustomError 500 (exn_message x) None)
    end.
Proof.
  intros Hb Ht sql. unfold queryData. rewrite Hb. cbn [bind]. rewrite Ht. cbn [bind].
  rewrite post_query_run. split; reflexivity.
Qed.

(** C20 (error). A filter the compiler rejects is never sent: [queryData]
    throws [CustomError] 500 with the compiler's message and leaves the
    world as it was. *)
Theorem queryData_rejects_before_posting `{Backend} e body tableName x w :
  build_query body = Err x ->
  queryData e body tableName w = (Err (CustomError 500 (exn_message x) None), w).
Proof. intros Hb. unfold queryData. rewrite Hb. reflexivity. Qed.

(** Whatever query a method posts, a failed request surfaces
    as [CustomError] 500 carrying the client library's message, after the
    request was made. *)
Theorem post_query_failure `{Backend} e q x w :
  respond (PostQuery (DATA_MANAGER_QUERY_ENDPOINT e) q) = Err x ->
  post_query e (Ok q) w =
  (Err (CustomError 500 (exn_message x) None),
   {| w_db := w_db w; w_calls := (w_calls w ++ [PostQuery (DATA_MANAGER_QUERY_ENDPOINT e) q])%list;
      w_uuids := w_uuids w |}).
Proof. intros Hx. rewrite post_query_run, Hx. reflexivity. Qed.

(** C31 (code bug). The two session breakdowns are plain string literals
    (lines 97 and 111), not template literals: the text posted contains
    the characters [${process.env.BUCKET_NAME}] instead of the bucket
    name, whatever the environment. *)
Theorem session_queries_keep_placeholder `{Backend} e w :
  (exists pre post,
     w_calls (snd (querySessionBrokenDownByMonth e w)) =
       (w_calls w ++ [PostQuery (DATA_MANAGER_QUERY_ENDPOINT e)
                        (pre ++ "READ_PARQUET('${process.env.BUCKET_NAME}/main/" ++ post)])%list) /\
  (exists pre post,
     w_calls (snd (querySessionBrokenDownByDay e w)) =
       (w_calls w ++ [PostQuery (DATA_MANAGER_QUERY_ENDPOINT e)
                        (pre ++ "READ_PARQUET('${process.env.BUCKET_NAME}/main/" ++ post)])%list).
Proof.
  unfold querySessionBrokenDownByMonth, querySessionBrokenDownByDay. rewrite !post_query_run.
  split; do 2 eexists; simpl; f_equal; f_equal; f_equal;
    [ apply (f_equal (fun s => "SELECT _data->>'sessionSource' AS session_source, _data->>'yearMonth' AS year_month, COUNT(DISTINCT _data->>'sid') AS unique_sessions FROM " ++ s))
    | apply (f_equal (fun s => "SELECT _data->>'sessionSource' AS session_source, _data->>'date' AS date, COUNT(DISTINCT _data->>'sid') AS unique_sessions FROM " ++ s)) ];
    reflexivity.
Qed.

(** [queryGetImpressionStatsByTime] takes the table name
    the controller passes ([req.query.tableName]) and never uses it: the
    query always reads the ad-report table. *)
Theorem impression_stats_ignore_table `{Backend} e t1 t2 startDate endDate w :
  queryGetImpressionStatsByTime e t1 startDate endDate w =
  queryGetImpressionStatsByTime e t2 startDate endDate w.
Proof. reflexivity. Qed.

(** C34 (code bug). The dates of the date-range queries are spliced between
    quotes verbatim (line 124 for the ad statistics): a date that contains
    a quote ends the SQL literal and injects SQL. *)
Theorem ad_stats_dates_spliced `{Backend} e s d w :
  w_calls (snd (queryGetAdStatsByTime e (Some (JStr s)) (Some (JStr d)) w)) =
  (w_calls w ++
   [PostQuery (DATA_MANAGER_QUERY_ENDPOINT e)
      (("SELECT source->>'dataSource' AS ad_source,SUM(CAST(metrics->>'cost' AS DOUBLE)) AS total_spend FROM READ_PARQUET('" ++
        env_text (BUCKET_NAME e) ++
        "/main/cust_id=cust_68c2410d-8d6c-49a9-aa3f-a467f7c6da7e/table_name=adreport_datamgr_format/**/*.parquet', union_by_name=True) WHERE (source->>'dataSource' IN ('google', 'meta', 'linkedin'))  AND (date_time->>'date')::date ") ++
       "BETWEEN '" ++ s ++ "' AND '" ++ d ++ "'" ++ " GROUP BY ad_source ORDER BY ad_source ")])%list.
Proof.
  unfold queryGetAdStatsByTime, with_dates. cbn [js_to_string_u js_to_string bind].
  rewrite post_query_run. simpl. f_equal. f_equal. f_equal. unfold queryGetAdStatsByTime_sql.
  string_norm. reflexivity.
Qed.

(** ** Witnesses *)

Lemma queryData_posts_where_clause_witness :
  let body := JObj [("<", JArr [JObj [("var", JStr "x")]; JNum 5])] in
  build_query body = Ok "x < 5" /\ js_to_string_u (Some (JStr "visits")) = Ok "visits" /\
  w_calls (snd (@queryData null_backend test_env body (Some (JStr "visits")) (start_world fresh_db))) =
    [PostQuery (Some "http://dm/query")
       ("SELECT * FROM READ_PARQUET('s3://bucket/main/cust_id=cust_68c2410d-8d6c-49a9-aa3f-a467f7c6da7e/table_name=visits/**/*.parquet', union_by_name=True)  WHERE x < 5")] /\
  fst (@queryData null_backend test_env body (Some (JStr "visits")) (start_world fresh_db)) = Ok JNull.
Proof.
  cbv zeta. split; [reflexivity|]. split; [reflexivity|].
  exact (@queryData_posts_where_clause null_backend test_env
           (JObj [("<", JArr [JObj [("var", JStr "x")]; JNum 5])]) (Some (JStr "visits"))
           "visits" "x < 5" (start_world fresh_db) eq_refl eq_refl).
Defined.

Lemma queryData_rejects_before_posting_witness :
  build_query (JObj [("=", JNull)]) = Err (Error "Unsupported operator =") /\
  @queryData null_backend test_env (JObj [("=", JNull)]) None (start_world fresh_db) =
  (Err (CustomError 500 "Unsupported operator =" None), start_world fresh_db).
Proof.
  split; [reflexivity|].
  exact (@queryData_rejects_before_posting null_backend test_env (JObj [("=", JNull)]) None
           (Error "Unsupported operator =") (start_world fresh_db) eq_refl).
Defined.
