(* ===== verification/PromptService.v ===== *)
(** Prompt generation: [QueryService.generatePrompt], [extractQuery] and
    [saveQuery] (src/middleware/services/query.service.ts, lines 231-323)
    and [completion] (src/middleware/services/openai.service.ts).  The
    handler makes sure the table exists, asks the data manager to describe
    one or two tables, builds the prompt, asks the model for a completion,
    extracts the first fenced SQL block of the answer and saves it (or the
    whole answer) under two fresh [randomUUID]s. *)

From Stdlib Require Import String Ascii ZArith List Lia Bool.
From S2P Require Import Prelude Js World SavedQueries QueryService.
Import ListNotations.
Local Open Scope string_scope.
Local Open Scope result_scope.
Local Open Scope io_scope.

Module PromptService.
Import Js World SavedQueries QueryService.

(** ** The regular expression of [extractQuery] *)

Definition backtick : ascii := "`".

(** The opening fence ["```sql\n"] and the closing fence ["\n```"]. *)
Definition fence_open : string :=
  String backtick (String backtick (String backtick ("sql" ++ nl))).

Definition fence_close : string :=
  nl ++ String backtick (String backtick (String backtick EmptyString)).

(** The lazy group [([\s\S]*?)\n```]: the shortest prefix of [s] that is
    followed by the closing fence. *)
Fixpoint lazy_group (s : string) : option string :=
  if String.prefix fence_close s then Some EmptyString
  else match s with
       | EmptyString => None
       | String c s' => option_map (String c) (lazy_group s')
       end.

(** [s.match(/```sql\n([\s\S]*?)\n```/)[1]]: the leftmost position where
    the whole pattern matches, and the group there; [None] is a failed
    match. *)
Fixpoint sql_fence_match (s : string) : option string :=
  match (if String.prefix fence_open s
         then lazy_group (substring (String.length fence_open) (String.length s) s)
         else None) with
  | Some g => Some g
  | None => match s with
            | EmptyString => None
            | String _ s' => sql_fence_match s'
            end
  end.

(** ** The prompt *)

(** Lines 234-241: the instructions the prompt starts with. *)
Definition preamble : string :=
  "You are an intelligent assistant designed to help users generate DuckDB queries for analyzing data stored in Parquet files on AWS S3. Users will provide" ++ nl ++
  "     specific details about the type of analysis they want to perform,the columns needed, the dataset, the S3 path, the date range, any calculations, groupings, and orderings.Use this information to construct the appropriate DuckDB query." ++ nl ++
  "    - Use added_date_full for date calculations and aggregation. not ts." ++ nl ++
  "    - dont cast startdate and end date dont cast startdate end date use add_date_full for date filtering" ++ nl ++
  "    - to go to inside the nested JSON fields, use JSON_EXTRACT(_data,$'.{key1}.{key2}') format." ++ nl ++
  "    - Use JSON_EXTRACT to parse JSON fields and CAST(JSON_EXTRACT(_data,$'.{key1}.{key2}')  as DOUBLE) format to convert values to decimals." ++ nl ++
  "    - Provide only the SQL text without any explanations ." ++ nl ++
  " '".

(** Lines 260 and 273: the S3 path of a table. *)
Definition s3_path (e : env) (table : string) : string :=
  "S3 path:'s3://" ++ env_text (BUCKET_NAME e) ++ "/main/cust_id=" ++ env_text (CUSTOMER_ID e) ++
  "/table_name=" ++ table ++ "/**/*.parquet' ".

(** Lines 260-261: what the first table adds to the prompt. *)
Definition table1_text (e : env) (table data : string) : string :=
  s3_path e table ++ "use this data set " ++ table ++ " :" ++ data.

(** Lines 273-274: what the second table adds. *)
Definition table2_text (e : env) (table data : string) : string :=
  s3_path e table ++ "use this data set for table " ++ table ++ ":" ++ data.

(** [const { query, tableName1, tableName2 } = req.body]: destructuring
    [null] throws, any other JSON value yields its three properties. *)
Definition body_fields (body : json) : result js_exn (option json * option json * option json) :=
  match body with
  | JNull => Err (TypeError "Cannot destructure property 'query' of 'req.body' as it is null.")
  | _ => let* q := js_get body "query" in
         let* t1 := js_get body "tableName1" in
         let* t2 := js_get body "tableName2" in
         Ok (q, t1, t2)
  end.

Section Handlers.
Context `{Backend}.
Variable e : env.

(** openai.service.ts, lines 11-33: the content of the first choice, or
    the fixed [Error] whatever went wrong. *)
Definition completion (query : string) : io json :=
  catch (external (Completion query))
        (fun _ => throw (Error "Failed to get completion from OpenAI API")).

(** Lines 299-313: [data.match] exists only on strings. *)
Definition extractQuery (data : json) : io (option string) :=
  catch (lift (match data with
               | JStr s => Ok (sql_fence_match s)
               | JNull => Err (TypeError "Cannot read properties of null (reading 'match')")
               | _ => Err (TypeError "data.match is not a function")
               end))
        (fun error => throw (CustomError 500 (exn_message error) None)).

(** Lines 249-261: the table name is converted for the log line before
    the request is made. *)
Definition describe_table1 (tableName1 : json) (filters : string) : io string :=
  let! t := lift (js_to_string tableName1) in
  let! data := external (PostTable (DATA_MANAGER_TABLE_ENDPOINT e) (Some tableName1)) in
  let! d := lift (js_to_string data) in
  ret (filters ++ table1_text e t d).

(** Lines 264-274: the second table name is logged without conversion. *)
Definition describe_table2 (tableName2 : json) (filters : string) : io string :=
  let! data := external (PostTable (DATA_MANAGER_TABLE_ENDPOINT e) (Some tableName2)) in
  let! d := lift (js_to_string data) in
  let! t := lift (js_to_string tableName2) in
  ret (filters ++ table2_text e t d).

(** [await insertSavedQuery(randomUUID(), randomUUID(), q, prompt); return q]:
    the arguments are evaluated left to right. *)
Definition save_with_uuids (q : json) (prompt : string) : io json :=
  let! customerId := random_uuid in
  let! promptId := random_uuid in
  do! insertSavedQuery (JStr customerId) (JStr promptId) q (JStr prompt);
  ret q.

(** Lines 243-277: an early answer ([inl]), or the prompt ([inr]). *)
Definition build_prompt (body : json) : io (json + string) :=
  let! fields := lift (body_fields body) in
  let '(query, tableName1, tableName2) := fields in
  if negb (js_truthy query) then ret (inl (JStr "Please provide a query")) else
  match tableName1 with
  | Some t1 =>
    if negb (js_truthy tableName1) then ret (inl (JStr "Please provide a table name")) else
    let! filters := describe_table1 t1 preamble in
    let! filters := match tableName2 with
                    | Some t2 => if js_truthy tableName2 then describe_table2 t2 filters
                                 else ret filters
                    | None => ret filters
                    end in
    let! filters := lift (let* q := js_to_string_u query in Ok (filters ++ q)) in
    ret (inr filters)
  | None => ret (inl (JStr "Please provide a table name"))
  end.

(** Lines 279-293: the completion, its logging, the extraction and the
    saved row.  An extracted block that is empty is falsy: the whole
    answer is saved and returned instead. *)
Definition answer_prompt (filters : string) : io json :=
  let! response := completion filters in
  do! lift (js_to_string response);
  if negb (js_truthy (Some response)) then ret (JStr "No response from OpenAI") else
  let! extracted := extractQuery response in
  match extracted with
  | Some x => if js_truthy (Some (JStr x)) then save_with_uuids (JStr x) filters
              else save_with_uuids response filters
  | None => save_with_uuids response filters
  end.

(** Lines 231-298.  [createTable] runs before the [try]: its exception is
    not rewrapped. *)
Definition generatePrompt (body : json) : io json :=
  do! createTable;
  catch (let! prompt := build_prompt body in
         match prompt with
         | inl early => ret early
         | inr filters => answer_prompt filters
         end)
        (fun error => throw (CustomError 500 (exn_message error) None)).

(** Lines 315-323: the saved query's [prompt] column is the query's
    name; nothing is returned. *)
Definition saveQuery (query query_name : json) : io unit :=
  catch (let! customerId := random_uuid in
         let! promptId := random_uuid in
         do! insertSavedQuery (JStr customerId) (JStr promptId) query query_name;
         ret tt)
        (fun error => throw (CustomError 500 (exn_message error) None)).

End Handlers.

(** Fixtures for concrete runs: a data manager that describes every table
    the same way and a model that answers with one fenced block; and the
    same data manager with a model that cannot be reached. *)
Definition demo_answer : string :=
  "Here you go:" ++ nl ++ fence_open ++ "SELECT COUNT(*) FROM visits" ++ fence_close ++ nl.

Definition demo_backend : Backend :=
  {| respond := fun c => match c with
                         | PostTable _ _ => Ok (JStr "sid, date")
                         | Completion _ => Ok (JStr demo_answer)
                         | _ => Ok JNull
                         end |}.

Definition offline_model_backend : Backend :=
  {| respond := fun c => match c with
                         | PostTable _ _ => Ok (JStr "sid, date")
                         | Completion _ => Err (Error "Connection error.")
                         | _ => Ok JNull
                         end |}.

Definition demo_body : json := JObj [("query", JStr "visits per day"); ("tableName1", JStr "visits")].

End PromptService.

Import Js World SavedQueries QueryService PromptService.

(** ** The fenced block *)

Lemma lazy_group_unfold s :
  lazy_group s = if String.prefix fence_close s then Some EmptyString
                 else match s with
                      | EmptyString => None
                      | String c s' => option_map (String c) (lazy_group s')
                      end.
Proof. now destruct s. Qed.

Lemma sql_fence_match_unfold s :
  sql_fence_match s =
  match (if String.prefix fence_open s
         then lazy_group (substring (String.length fence_open) (String.length s) s)
         else None) with
  | Some g => Some g
  | None => match s with
            | EmptyString => None
            | String _ s' => sql_fence_match s'
            end
  end.
Proof. now destruct s. Qed.

Lemma prefix_app_inv (p s : string) : String.prefix p s = true -> exists r, s = p ++ r.
Proof.
  revert s; induction p as [|c p IH]; intros s Hp; [now exists s|].
  destruct s as [|c' s]; [discriminate|]. simpl in Hp.
  destruct (ascii_dec c c'); [subst|discriminate].
  destruct (IH s Hp) as [r ->]. now exists r.
Qed.

Lemma prefix_app (p r : string) : String.prefix p (p ++ r) = true.
Proof. induction p as [|c p IH]; simpl; [now destruct r|]. now destruct (ascii_dec c c). Qed.

Lemma substring_all (s : string) m : (String.length s <= m)%nat -> substring 0 m s = s.
Proof.
  revert m; induction s as [|c s IH]; intros [|m] Hm; simpl in *; try reflexivity; [lia|].
  f_equal. apply IH. lia.
Qed.

Lemma substring_drop (a b : string) m :
  (String.length b <= m)%nat -> substring (String.length a) m (a ++ b) = b.
Proof. intros Hm. induction a as [|c a IH]; simpl; [now apply substring_all|exact IH]. Qed.

(** The closing fence starts with a line break and a backtick, the
    opening one with a backtick. *)
Lemma prefix_fence_close_cons c s :
  String.prefix fence_close (String c s) = true -> exists s', s = String backtick s'.
Proof.
  intros Hp. apply prefix_app_inv in Hp as [r Hr]. inversion Hr. now eexists.
Qed.

Lemma prefix_fence_open_cons c s :
  String.prefix fence_open (String c s) = true -> c = backtick.
Proof. intros Hp. apply prefix_app_inv in Hp as [r Hr]. now inversion Hr. Qed.

Lemma count_char_cons_neq c d s : count_char c (String d s) = 0 -> d <> c.
Proof.
  simpl. intros H ->. rewrite Ascii.eqb_refl in H. discriminate.
Qed.

Lemma count_char_cons c d s : count_char c (String d s) = 0 -> count_char c s = 0.
Proof. simpl. destruct (Ascii.eqb c d); [discriminate|auto]. Qed.

(** The lazy group stops at the first closing fence; without backticks in
    [g] the first one is the one after [g]. *)
Lemma lazy_group_app (g rest : string) :
  count_char backtick g = 0 -> lazy_group (g ++ fence_close ++ rest) = Some g.
Proof.
  induction g as [|c g IH]; intros Hg; rewrite lazy_group_unfold; cbn [append]; [now rewrite prefix_app|].
  rewrite IH by (eapply count_char_cons; eauto). simpl option_map.
  destruct (String.prefix fence_close _) eqn:Hp; [|reflexivity].
  apply prefix_fence_close_cons in Hp as [s' Hs].
  destruct g as [|d g]; simpl in Hs; [discriminate|].
  inversion Hs; subst. apply count_char_cons in Hg. now apply count_char_cons_neq in Hg.
Qed.

Lemma lazy_group_sound (s g : string) :
  lazy_group s = Some g -> exists rest, s = g ++ fence_close ++ rest.
Proof.
  revert g; induction s as [|c s IH]; intros g Hs; rewrite lazy_group_unfold in Hs;
    (destruct (String.prefix fence_close _) eqn:Hp;
     [inversion Hs; subst; apply prefix_app_inv in Hp as [r Hr]; exists r; exact Hr|]);
    [discriminate|].
  destruct (lazy_group s) as [g'|]; [|discriminate]. inversion Hs; subst.
  destruct (IH g' eq_refl) as [r ->]. now exists r.
Qed.

Lemma fence_here s g :
  (if String.prefix fence_open s
   then lazy_group (substring (String.length fence_open) (String.length s) s) else None) = Some g ->
  exists rest, s = fence_open ++ g ++ fence_close ++ rest.
Proof.
  destruct (String.prefix fence_open s) eqn:Hp; [|discriminate].
  apply prefix_app_inv in Hp as [r ->]. rewrite substring_drop by (rewrite string_length_app; lia).
  intros Hg. apply lazy_group_sound in Hg as [rest ->]. now exists rest.
Qed.

(** What the match returns is a group of the pattern in [s]. *)
Lemma sql_fence_match_sound s g :
  sql_fence_match s = Some g -> exists pre rest, s = pre ++ fence_open ++ g ++ fence_close ++ rest.
Proof.
  revert g; induction s as [|c s IH]; intros g Hs; rewrite sql_fence_match_unfold in Hs;
    destruct (if String.prefix fence_open _ then _ else None) as [g'|] eqn:Hh.
  1, 3: inversion Hs; subst; apply fence_here in Hh as [rest Hr]; exists EmptyString, rest; exact Hr.
  - discriminate.
  - destruct (IH g Hs) as (pre & rest & ->). now exists (String c pre), rest.
Qed.

(** C7 (roundtrip). [extractQuery]'s pattern finds the first fenced SQL
    block of an answer: when nothing before the fence and nothing inside
    the block is a backtick, the match is exactly the block's text. *)
Theorem sql_fence_match_first pre g rest :
  count_char backtick pre = 0 -> count_char backtick g = 0 ->
  sql_fence_match (pre ++ fence_open ++ g ++ fence_close ++ rest) = Some g.
Proof.
  intros Hpre Hg. induction pre as [|c pre IH]; rewrite sql_fence_match_unfold; cbn [append].
  - rewrite prefix_app, substring_drop by (rewrite !string_length_app; lia).
    now rewrite lazy_group_app.
  - destruct (String.prefix fence_open _) eqn:Hp.
    + apply prefix_fence_open_cons in Hp. now apply count_char_cons_neq in Hpre.
    + apply IH. eapply count_char_cons; eauto.
Qed.

(** ** Runs of the handler *)

Lemma createTable_ok reach_tbl rs nid co calls u :
  createTable {| w_db := {| db_reachable := true; table_exists := reach_tbl; rows := rs; next_id := nid;
                            checked_out := co |}; w_calls := calls; w_uuids := u |} =
  (Ok tt, {| w_db := {| db_reachable := true; table_exists := true; rows := rs; next_id := nid;
                        checked_out := co |}; w_calls := calls; w_uuids := u |}).
Proof. reflexivity. Qed.

Lemma describe_table1_ok `{Backend} e t1 tn d ds f w :
  js_to_string t1 = Ok tn -> respond (PostTable (DATA_MANAGER_TABLE_ENDPOINT e) (Some t1)) = Ok d ->
  js_to_string d = Ok ds ->
  describe_table1 e t1 f w =
  (Ok (f ++ table1_text e tn ds),
   {| w_db := w_db w; w_calls := (w_calls w ++ [PostTable (DATA_MANAGER_TABLE_ENDPOINT e) (Some t1)])%list;
      w_uuids := w_uuids w |}).
Proof.
  intros H1 H2 H3. unfold describe_table1, io_bind, lift, external, ret.
  rewrite H1, H2. cbn beta iota. now rewrite H3.
Qed.

Lemma completion_ok `{Backend} p r w :
  respond (Completion p) = Ok r ->
  completion p w = (Ok r, {| w_db := w_db w; w_calls := (w_calls w ++ [Completion p])%list;
                             w_uuids := w_uuids w |}).
Proof. intros Hr. unfold completion, catch, external. now rewrite Hr. Qed.

Lemma save_with_uuids_ok g pr rs nid co calls u :
  save_with_uuids (JStr g) pr
    {| w_db := {| db_reachable := true; table_exists := true; rows := rs; next_id := nid;
                  checked_out := co |}; w_calls := calls; w_uuids := u |} =
  (Ok (JStr g),
   {| w_db := {| db_reachable := true; table_exists := true;
                 rows := rs ++ [{| row_id := nid; customer_id := uuid_of u; prompt_id := uuid_of (S u);
                                   query_text := g; prompt := pr |}];
                 next_id := (nid + 1)%Z; checked_out := co |};
      w_calls := calls; w_uuids := S (S u) |}).
Proof.
  unfold save_with_uuids, io_bind at 1 2, random_uuid. cbn beta iota. unfold io_bind.
  rewrite insertSavedQuery_ok by (simpl; rewrite ?uuid_of_length; try reflexivity; lia).
  reflexivity.
Qed.

(** [generatePrompt] is its three stages in sequence, the [catch]
    rewrapping what the last two throw. *)
Lemma generatePrompt_run `{Backend} e body w :
  generatePrompt e body w =
  match createTable w with
  | (Err x, w1) => (Err x, w1)
  | (Ok _, w1) =>
      match build_prompt e body w1 with
      | (Ok (inl a), w2) => (Ok a, w2)
      | (Ok (inr f), w2) =>
          match answer_prompt f w2 with
          | (Ok a, w3) => (Ok a, w3)
          | (Err x, w3) => (Err (CustomError 500 (exn_message x) None), w3)
          end
      | (Err x, w2) => (Err (CustomError 500 (exn_message x) None), w2)
      end
  end.
Proof.
  unfold generatePrompt, io_bind at 1 2, catch, throw, ret.
  destruct (createTable w) as [[]]; [|reflexivity].
  destruct (build_prompt e body _) as [[[]|]]; [reflexivity| |reflexivity].
  destruct (answer_prompt _ _) as [[]]; reflexivity.
Qed.

Lemma build_prompt_one_table `{Backend} e body q t1 t2 tn d ds qs w :
  body_fields body = Ok (Some q, Some t1, t2) ->
  js_truthy (Some q) = true -> js_truthy (Some t1) = true -> js_truthy t2 = false ->
  js_to_string t1 = Ok tn ->
  respond (PostTable (DATA_MANAGER_TABLE_ENDPOINT e) (Some t1)) = Ok d ->
  js_to_string d = Ok ds -> js_to_string q = Ok qs ->
  build_prompt e body w =
  (Ok (inr (preamble ++ table1_text e tn ds ++ qs)),
   {| w_db := w_db w; w_calls := (w_calls w ++ [PostTable (DATA_MANAGER_TABLE_ENDPOINT e) (Some t1)])%list;
      w_uuids := w_uuids w |}).
Proof.
  intros Hb Hq Ht1 Ht2 Htn Hd Hds Hqs.
  unfold build_prompt, io_bind at 1, lift. rewrite Hb. cbn beta iota. rewrite Hq, Ht1. cbn [negb].
  unfold io_bind at 1. rewrite (describe_table1_ok _ _ _ _ _ _ _ Htn Hd Hds). cbn beta iota.
  unfold io_bind at 1.
  replace ((match t2 with
            | Some t0 => if js_truthy t2 then describe_table2 e t0 _ else ret _
            | None => ret _ end) _) with
    (@Ok js_exn string (preamble ++ table1_text e tn ds),
     {| w_db := w_db w; w_calls := (w_calls w ++ [PostTable (DATA_MANAGER_TABLE_ENDPOINT e) (Some t1)])%list;
        w_uuids := w_uuids w |}) by (destruct t2; [rewrite Ht2|]; reflexivity).
  cbn beta iota. unfold io_bind, lift, ret. cbn [js_to_string_u]. rewrite Hqs. cbn [bind].
  now rewrite string_app_assoc.
Qed.

Lemma answer_prompt_fenced `{Backend} f pre g rest rs nid co calls u :
  respond (Completion f) = Ok (JStr (pre ++ fence_open ++ g ++ fence_close ++ rest)) ->
  count_char backtick pre = 0 -> count_char backtick g = 0 -> g <> EmptyString ->
  answer_prompt f
    {| w_db := {| db_reachable := true; table_exists := true; rows := rs; next_id := nid;
                  checked_out := co |}; w_calls := calls; w_uuids := u |} =
  (Ok (JStr g),
   {| w_db := {| db_reachable := true; table_exists := true;
                 rows := rs ++ [{| row_id := nid; customer_id := uuid_of u; prompt_id := uuid_of (S u);
                                   query_text := g; prompt := f |}];
                 next_id := (nid + 1)%Z; checked_out := co |};
      w_calls := calls ++ [Completion f]; w_uuids := S (S u) |}).
Proof.
  intros Hc Hpre Hg Hne. unfold answer_prompt, io_bind at 1. rewrite (completion_ok _ _ _ Hc).
  cbn beta iota. unfold io_bind at 1. cbn [js_to_string js_truthy].
  replace (String.eqb (pre ++ fence_open ++ g ++ fence_close ++ rest) "") with false
    by (destruct pre; reflexivity).
  cbn [negb]. unfold io_bind at 1, extractQuery, catch, lift.
  rewrite sql_fence_match_first by assumption. cbn [js_truthy].
  replace (String.eqb g "") with false by (symmetry; apply String.eqb_neq; exact Hne).
  cbn [negb w_db w_calls w_uuids]. apply save_with_uuids_ok.
Qed.
(** C6 (functional). A request with a query and one table: the handler
    describes the table, sends the prompt (instructions, the table's S3
    path and description, then the user's query) to the model, and saves
    the first fenced SQL block of the answer, returned as the result, in a
    new row whose [customer_id] and [prompt_id] are two fresh
    [randomUUID]s and whose [prompt] is the whole prompt. *)
Theorem generatePrompt_saves_fenced_query `{Backend} e body q t1 t2 tn d ds qs pre g rest w :
  db_reachable (w_db w) = true ->
  body_fields body = Ok (Some q, Some t1, t2) ->
  js_truthy (Some q) = true -> js_truthy (Some t1) = true -> js_truthy t2 = false ->
  js_to_string t1 = Ok tn ->
  respond (PostTable (DATA_MANAGER_TABLE_ENDPOINT e) (Some t1)) = Ok d ->
  js_to_string d = Ok ds -> js_to_string q = Ok qs ->
  respond (Completion (preamble ++ table1_text e tn ds ++ qs)) =
    Ok (JStr (pre ++ fence_open ++ g ++ fence_close ++ rest)) ->
  count_char backtick pre = 0 -> count_char backtick g = 0 -> g <> EmptyString ->
  generatePrompt e body w =
  (Ok (JStr g),
   {| w_db := {| db_reachable := true; table_exists := true;
                 rows := rows (w_db w) ++
                         [{| row_id := next_id (w_db w); customer_id := uuid_of (w_uuids w);
                             prompt_id := uuid_of (S (w_uuids w)); query_text := g;
                             prompt := preamble ++ table1_text e tn ds ++ qs |}];
                 next_id := (next_id (w_db w) + 1)%Z; checked_out := checked_out (w_db w) |};
      w_calls := w_calls w ++ [PostTable (DATA_MANAGER_TABLE_ENDPOINT e) (Some t1);
                               Completion (preamble ++ table1_text e tn ds ++ qs)];
      w_uuids := S (S (w_uuids w)) |}).
Proof.
  intros Hr Hb Hq Ht1 Ht2 Htn Hd Hds Hqs Hc Hpre Hg Hne.
  destruct w as [[reach tbl rs nid co] calls u]; simpl in Hr; subst reach.
  rewrite generatePrompt_run, createTable_ok.
  rewrite (build_prompt_one_table _ _ _ _ _ _ _ _ _ _ Hb Hq Ht1 Ht2 Htn Hd Hds Hqs).
  cbn [w_db w_calls w_uuids]. rewrite (answer_prompt_fenced _ _ _ _ _ _ _ _ _ Hc Hpre Hg Hne).
  now rewrite <- app_assoc.
Qed.

(** C21 (error). Without a truthy [query], or without a truthy
    [tableName1], the handler answers with a message (lines 244-248) and
    calls no external service; the only effect is [createTable]'s. *)
Theorem generatePrompt_needs_query_and_table `{Backend} e body q t1 t2 w :
  db_reachable (w_db w) = true -> body_fields body = Ok (q, t1, t2) ->
  js_truthy q = false \/ js_truthy t1 = false ->
  generatePrompt e body w =
  (Ok (JStr (if js_truthy q then "Please provide a table name" else "Please provide a query")),
   {| w_db := {| db_reachable := true; table_exists := true; rows := rows (w_db w);
                 next_id := next_id (w_db w); checked_out := checked_out (w_db w) |};
      w_calls := w_calls w; w_uuids := w_uuids w |}).
Proof.
  intros Hr Hb Hf. destruct w as [[reach tbl rs nid co] calls u]; simpl in Hr; subst reach.
  rewrite generatePrompt_run, createTable_ok. unfold build_prompt, io_bind at 1, lift.
  rewrite Hb. cbn beta iota.
  destruct (js_truthy q) eqn:Hq; [|reflexivity].
  destruct Hf as [Hf|Hf]; [discriminate|]. destruct t1; [rewrite Hf|]; reflexivity.
Qed.

(** C22 (error). When the model cannot be reached, the handler fails with
    [CustomError] 500 and [completion]'s fixed message after asking the
    data manager; nothing is saved. *)
Theorem generatePrompt_completion_failure `{Backend} e body q t1 t2 tn d ds qs x w :
  db_reachable (w_db w) = true ->
  body_fields body = Ok (Some q, Some t1, t2) ->
  js_truthy (Some q) = true -> js_truthy (Some t1) = true -> js_truthy t2 = false ->
  js_to_string t1 = Ok tn ->
  respond (PostTable (DATA_MANAGER_TABLE_ENDPOINT e) (Some t1)) = Ok d ->
  js_to_string d = Ok ds -> js_to_string q = Ok qs ->
  respond (Completion (preamble ++ table1_text e tn ds ++ qs)) = Err x ->
  generatePrompt e body w =
  (Err (CustomError 500 "Failed to get completion from OpenAI API" None),
   {| w_db := {| db_reachable := true; table_exists := true; rows := rows (w_db w);
                 next_id := next_id (w_db w); checked_out := checked_out (w_db w) |};
      w_calls := w_calls w ++ [PostTable (DATA_MANAGER_TABLE_ENDPOINT e) (Some t1);
                               Completion (preamble ++ table1_text e tn ds ++ qs)];
      w_uuids := w_uuids w |}).
Proof.
  intros Hr Hb Hq Ht1 Ht2 Htn Hd Hds Hqs Hc.
  destruct w as [[reach tbl rs nid co] calls u]; simpl in Hr; subst reach.
  rewrite generatePrompt_run, createTable_ok.
  rewrite (build_prompt_one_table _ _ _ _ _ _ _ _ _ _ Hb Hq Ht1 Ht2 Htn Hd Hds Hqs).
  unfold answer_prompt, io_bind at 1, completion, catch, external, throw. rewrite Hc. simpl.
  now rewrite <- app_assoc.
Qed.

(** C29 (spec gap). When the answer has no fenced SQL block, or its first
    block is empty (an empty match is falsy, line 286), the whole answer
    is saved and returned as the query. *)
Theorem answer_prompt_saves_whole_answer `{Backend} f s rs nid co calls u :
  respond (Completion f) = Ok (JStr s) -> s <> EmptyString ->
  match sql_fence_match s with Some x => x = EmptyString | None => True end ->
  answer_prompt f
    {| w_db := {| db_reachable := true; table_exists := true; rows := rs; next_id := nid;
                  checked_out := co |}; w_calls := calls; w_uuids := u |} =
  (Ok (JStr s),
   {| w_db := {| db_reachable := true; table_exists := true;
                 rows := rs ++ [{| row_id := nid; customer_id := uuid_of u; prompt_id := uuid_of (S u);
                                   query_text := s; prompt := f |}];
                 next_id := (nid + 1)%Z; checked_out := co |};
      w_calls := calls ++ [Completion f]; w_uuids := S (S u) |}).
Proof.
  intros Hc Hne Hm. unfold answer_prompt, io_bind at 1. rewrite (completion_ok _ _ _ Hc).
  cbn beta iota. unfold io_bind at 1. cbn [js_to_string js_truthy].
  replace (String.eqb s "") with false by (symmetry; apply String.eqb_neq; exact Hne).
  cbn [negb]. unfold io_bind at 1, extractQuery, catch, lift.
  destruct (sql_fence_match s) as [x|]; [subst x|]; apply save_with_uuids_ok.
Qed.

(** [saveQuery] on an existing table appends one row: two fresh
    [randomUUID]s as [customer_id] and [prompt_id], the query as
    [query_text] and the query's name as [prompt]. *)
Lemma saveQuery_inserts q n rs nid co calls u :
  saveQuery (JStr q) (JStr n)
    {| w_db := {| db_reachable := true; table_exists := true; rows := rs; next_id := nid;
                  checked_out := co |}; w_calls := calls; w_uuids := u |} =
  (Ok tt,
   {| w_db := {| db_reachable := true; table_exists := true;
                 rows := rs ++ [{| row_id := nid; customer_id := uuid_of u; prompt_id := uuid_of (S u);
                                   query_text := q; prompt := n |}];
                 next_id := (nid + 1)%Z; checked_out := co |};
      w_calls := calls; w_uuids := S (S u) |}).
Proof.
  unfold saveQuery, catch, io_bind at 1 2, random_uuid. cbn beta iota. unfold io_bind.
  rewrite insertSavedQuery_ok by (simpl; rewrite ?uuid_of_length; try reflexivity; lia).
  reflexivity.
Qed.

(** ** Witnesses *)

Lemma sql_fence_match_first_witness :
  sql_fence_match demo_answer = Some "SELECT COUNT(*) FROM visits".
Proof. exact (sql_fence_match_first ("Here you go:" ++ nl) "SELECT COUNT(*) FROM visits" nl eq_refl eq_refl). Defined.

Lemma generatePrompt_saves_fenced_query_witness :
  fst (@generatePrompt demo_backend test_env demo_body (start_world fresh_db)) =
  Ok (JStr "SELECT COUNT(*) FROM visits").
Proof.
  rewrite (@generatePrompt_saves_fenced_query demo_backend test_env demo_body (JStr "visits per day")
             (JStr "visits") None "visits" (JStr "sid, date") "sid, date" "visits per day"
             ("Here you go:" ++ nl) "SELECT COUNT(*) FROM visits" nl (start_world fresh_db));
    first [reflexivity | discriminate].
Defined.

Lemma generatePrompt_needs_query_and_table_witness :
  fst (@generatePrompt demo_backend test_env (JObj [("query", JStr "x")]) (start_world fresh_db)) =
  Ok (JStr "Please provide a table name").
Proof.
  rewrite (@generatePrompt_needs_query_and_table demo_backend test_env (JObj [("query", JStr "x")])
             (Some (JStr "x")) None None (start_world fresh_db)); [reflexivity..|right; reflexivity].
Defined.

Lemma generatePrompt_completion_failure_witness :
  fst (@generatePrompt offline_model_backend test_env demo_body (start_world fresh_db)) =
  Err (CustomError 500 "Failed to get completion from OpenAI API" None).
Proof.
  rewrite (@generatePrompt_completion_failure offline_model_backend test_env demo_body
             (JStr "visits per day") (JStr "visits") None "visits" (JStr "sid, date") "sid, date"
             "visits per day" (Error "Connection error.") (start_world fresh_db)); reflexivity.
Defined.

Lemma answer_prompt_saves_whole_answer_witness :
  let w := {| w_db := {| db_reachable := true; table_exists := true; rows := []; next_id := 1%Z;
                          checked_out := 0 |}; w_calls := []; w_uuids := 0 |} in
  fst (@answer_prompt {| respond := fun _ => Ok (JStr "SELECT 1") |} "p" w) = Ok (JStr "SELECT 1").
Proof.
  cbv zeta.
  rewrite (@answer_prompt_saves_whole_answer {| respond := fun _ => Ok (JStr "SELECT 1") |} "p" "SELECT 1"
             [] 1%Z 0 [] 0); first [reflexivity | discriminate | exact I].
Defined.
