(* ===== verification/Controllers.v ===== *)
(** The HTTP handlers: src/middleware/controller/queryController.ts, the
    response controller and service (controller/response.controller.ts,
    services/response.service.ts) and [globalErrorHandler]
    (services/exception.service.ts).  A handler runs in the [io] monad and
    ends in a [reply]: the status and JSON body of [res.status(..).json(..)]
    or the text of [res.send(..)].  The query handlers catch everything and
    reply 500 themselves; the response handlers pass their exception to
    [next], which is the [Err] of the run, for the router to give to
    [globalErrorHandler]. *)

From Stdlib Require Import String Ascii ZArith List Lia Bool.
From S2P Require Import Prelude Js World SavedQueries QueryService PromptService.
Import ListNotations.
Local Open Scope string_scope.
Local Open Scope result_scope.
Local Open Scope io_scope.

Module Controllers.
Import Js World SavedQueries QueryService PromptService.

(** util/enum.ts *)
Inductive STATUS_MESSAGE : Type := SUCCESS | FAIL | ERROR.

Definition status_text (s : STATUS_MESSAGE) : string :=
  match s with
  | SUCCESS => "success"
  | FAIL => "fail"
  | ERROR => "error"
  end.

(** What a handler sends. *)
Inductive reply : Type :=
| Json (code : Z) (body : json)     (** [res.status(code).json(body)] *)
| Text (code : Z) (body : string).  (** [res.send(body)] *)

(** The request as the handlers read it: [req.query] (the parsed query
    string), [req.body] (what [bodyParser.json()] left, [{}] by default)
    and [req.params]. *)
Record request : Type := {
  req_query : list (string * json);
  req_body : json;
  req_params : list (string * string)
}.

Definition query_param (r : request) (k : string) : option json := lookup_member k (req_query r).

(** [JSON.stringify] of a thrown value: only own enumerable properties are
    written.  [message] is not one ([Error]'s constructor defines it non
    enumerable); [CustomError]'s parameter properties [code] and [status]
    are, and an [undefined] [status] is left out.  The fields node-postgres
    and axios attach to their errors are not modelled: every service wraps
    them in a [CustomError] before a handler sees them. *)
Definition exn_json (e : js_exn) : json :=
  match e with
  | CustomError code _ status =>
      JObj (("code", JNum code) :: match status with
                                   | Some s => [("status", JStr s)]
                                   | None => []
                                   end)
  | _ => JObj []
  end.

(** The failure reply of every query handler:
    [res.status(500).json({ status: STATUS_MESSAGE.FAIL, message: err })]. *)
Definition fail_reply (err : js_exn) : reply :=
  Json 500 (JObj [("status", JStr (status_text FAIL)); ("message", exn_json err)]).

(** The shapes of the success bodies after [status]. *)
Definition plain_data (data : json) : list (string * json) := [("data", data)].

Definition typed_data (type chart_key : string) (data : json) : list (string * json) :=
  [("data", JObj [("type", JStr type); ("data", data)]); (chart_key, JObj [])].

Definition chart_data (chartType : string) (data : json) : list (string * json) :=
  [("data", JObj []); ("chart", JObj [("chartType", JStr chartType); ("data", data)])].

Section Handlers.
Context `{Backend}.
Variable e : env.

(** [try { const data = await c; return res.status(200).json({ status:
    STATUS_MESSAGE.SUCCESS, ...shape(data) }) } catch (err) { return
    res.status(500).json(...) }] *)
Definition respond_with (c : io json) (shape : json -> list (string * json)) : io reply :=
  catch (let! data := c in
         ret (Json 200 (JObj (("status", JStr (status_text SUCCESS)) :: shape data))))
        (fun err => ret (fail_reply err)).

(** queryController.ts, lines 11-32 (exported, not routed). *)
Definition buildSQLQuery (r : request) : io reply :=
  respond_with (queryData e (req_body r) (query_param r "tableName")) plain_data.

(** Lines 34-52. *)
Definition getUniqueCounts (r : request) : io reply :=
  respond_with (queryUniqueCounts e) plain_data.

(** Lines 54-78. *)
Definition getSessionBrokeByMonth (r : request) : io reply :=
  respond_with (querySessionBrokenDownByMonth e) (typed_data "sessionBrokenDownByMonth" "chart").

(** Lines 79-104. *)
Definition getSessionBrokeByDay (r : request) : io reply :=
  respond_with (querySessionBrokenDownByDay e) (typed_data "sessionBrokenDownByDay" "chart").

(** Lines 106-133. *)
Definition getAdStatsByTime (r : request) : io reply :=
  respond_with (queryGetAdStatsByTime e (query_param r "startDate") (query_param r "endDate"))
               (typed_data "adStats" "chart").

(** Lines 135-160: the empty object is under [charts], not [chart]. *)
Definition getImpressionStatsByTime (r : request) : io reply :=
  respond_with (queryGetImpressionStatsByTime e (query_param r "tableName") (query_param r "startDate")
                                              (query_param r "endDate"))
               (typed_data "impression" "charts").

(** Lines 162-188. *)
Definition getTotalRAO (r : request) : io reply :=
  respond_with (queryGetTotalRAO e (query_param r "startDate") (query_param r "endDate"))
               (typed_data "RAO" "chart").

(** Lines 190-218. *)
Definition getCPC (r : request) : io reply :=
  respond_with (queryGetCPC e (query_param r "startDate") (query_param r "endDate"))
               (typed_data "CPC" "chart").

(** Lines 220-243. *)
Definition getDonutChart (r : request) : io reply :=
  respond_with (queryDonutChart e) (chart_data "donut").

(** Lines 245-270. *)
Definition getPieChart (r : request) : io reply :=
  respond_with (queryGetPieChart e (query_param r "startDate") (query_param r "endDate"))
               (chart_data "pie").

(** Lines 272-288 ([generatePrompt] of the controller): the table is
    created here and again by the service. *)
Definition generatePromptController (r : request) : io reply :=
  respond_with (do! createTable; generatePrompt e (req_body r)) plain_data.

(** Lines 290-316 ([saveQuery] of the controller): [query_name] is read
    only when [query] is truthy, and the service returns [undefined], so
    the success body has no [data]. *)
Definition saveQueryController (r : request) : io reply :=
  let no_query := ret (Json 400 (JObj [("status", JStr (status_text FAIL));
                                       ("message", JStr "No query provided")])) in
  catch (let! query := lift (js_get (req_body r) "query") in
         let! query_name := if js_truthy query then lift (js_get (req_body r) "query_name")
                            else ret None in
         match query, query_name with
         | Some q, Some n =>
             if js_truthy query && js_truthy query_name then
               do! createTable;
               do! saveQuery q n;
               ret (Json 200 (JObj [("status", JStr (status_text SUCCESS))]))
             else no_query
         | _, _ => no_query
         end)
        (fun err => ret (fail_reply err)).

(** response.service.ts, lines 9-19. *)
Definition getAll : io json :=
  catch (let! rows := getSavedQueries in ret (JArr rows))
        (fun err => throw (CustomError 500 ("Error getting all data " ++ exn_to_string err) None)).

(** response.service.ts, lines 20-58: the saved text, or [null] when
    there is none, is posted as [JSON.stringify({ query: resp })]. *)
Definition executeById (id : string) : io json :=
  catch (let! resp := getSavedQueryById id in
         let data := json_stringify (JObj [("query", match resp with
                                                     | Some s => JStr s
                                                     | None => JNull
                                                     end)]) in
         catch (external (PostExecute (DATA_MANAGER_EXECUTE_ENDPOINT e) data))
               (fun error => throw (CustomError 500 ("Axios error " ++ exn_to_string error) None)))
        (fun err => throw (CustomError 500 ("Error executing by id " ++ exn_to_string err ++ " ") None)).

(** response.controller.ts, lines 8-20 and 22-35: [HttpStatusCode.Ok] is
    the number 200; an exception is passed to [next].  The route
    [/execute/:id] always binds [id]. *)
Definition getAllData (r : request) : io reply :=
  let! data := getAll in
  ret (Json 200 (JObj [("status", JNum 200); ("data", data)])).

Definition executeByIdController (r : request) : io reply :=
  let! data := executeById (match lookup_text "id" (req_params r) with
                            | Some id => id
                            | None => "undefined"
                            end) in
  ret (Json 200 (JObj [("status", JNum 200); ("data", data)])).

End Handlers.

(** exception.service.ts, lines 12-26: [err.code || 500] and
    [err.status || STATUS_MESSAGE.ERROR].  Only [CustomError]s reach it
    (both services that reject to [next] wrap whatever they catch), so the
    string [code]s of node-postgres and axios errors are not modelled. *)
Definition globalErrorHandler (err : js_exn) : reply :=
  let code := match err with
              | CustomError c _ _ => if Z.eqb c 0 then 500%Z else c
              | _ => 500%Z
              end in
  let status := match err with
                | CustomError _ _ (Some s) => if String.eqb s "" then status_text ERROR else s
                | _ => status_text ERROR
                end in
  Json code (JObj [("status", JStr status); ("message", JStr (exn_message err))]).

(** A run that can only throw [CustomError]s with code 500 and no
    [status]: what every query service promises its controller. *)
Definition throws_custom500 {A} (c : io A) : Prop :=
  forall w, match fst (c w) with
            | Ok _ => True
            | Err x => exists m, x = CustomError 500 m None
            end.

(** The routed handlers of queryController.ts whose [try] holds only a
    service call ([saveQuery]'s also reads the body). *)
Definition query_handlers `{Backend} (e : env) : list (request -> io reply) :=
  [getUniqueCounts e; getSessionBrokeByMonth e; getSessionBrokeByDay e; getAdStatsByTime e;
   getImpressionStatsByTime e; getTotalRAO e; getCPC e; getDonutChart e; getPieChart e;
   generatePromptController e].

End Controllers.

Import Js World SavedQueries QueryService PromptService Controllers.

(** ** What the query handlers send *)

Lemma catch_custom500 {A} (c : io A) (f : js_exn -> string) :
  throws_custom500 (catch c (fun err => throw (CustomError 500 (f err) None))).
Proof. intros w. unfold catch, throw. destruct (c w) as [[]]; simpl; eauto. Qed.

Lemma bind_custom500 {A B} (c : io A) (k : A -> io B) :
  throws_custom500 c -> (forall a, throws_custom500 (k a)) -> throws_custom500 (io_bind c k).
Proof.
  intros Hc Hk w. specialize (Hc w). unfold io_bind.
  destruct (c w) as [[a|x] w']; [apply Hk | exact Hc].
Qed.

Lemma respond_with_custom500 `{Backend} c shape w :
  throws_custom500 c ->
  exists body, fst (respond_with c shape w) = Ok (Json 200 body) \/
               fst (respond_with c shape w) =
               Ok (Json 500 (JObj [("status", JStr "fail"); ("message", JObj [("code", JNum 500)])])).
Proof.
  intros Hc. specialize (Hc w). unfold respond_with, catch, io_bind, ret.
  destruct (c w) as [[a|x] w']; simpl in *; eauto.
  destruct Hc as [m ->]. exists JNull. now right.
Qed.

Lemma query_services_custom500 `{Backend} e :
  (forall q, throws_custom500 (post_query e q)) /\ throws_custom500 createTable /\
  (forall body, throws_custom500 (generatePrompt e body)).
Proof.
  split; [intros; apply catch_custom500|]. split; [apply catch_custom500|].
  intros body. apply bind_custom500; [apply catch_custom500|]. intros _. apply catch_custom500.
Qed.

(** C8 (code bug). Every routed handler of queryController.ts that calls
    a service inside its [try] (all but [saveQuery], which also answers
    400 and whose guard can throw a [TypeError], serialised as [{}])
    answers either 200 or one fixed 500 body,
    [{"status":"fail","message":{"code":500}}]: the services throw only
    [CustomError]s of code 500, and [JSON.stringify] drops their
    [message], so no failure's text reaches the client. *)
Theorem query_handlers_hide_errors `{Backend} e r w :
  Forall (fun h : request -> io reply =>
            exists body, fst (h r w) = Ok (Json 200 body) \/
                         fst (h r w) = Ok (Json 500 (JObj [("status", JStr "fail");
                                                           ("message", JObj [("code", JNum 500)])])))
         (query_handlers e).
Proof.
  destruct (query_services_custom500 e) as (Hp & Hc & Hg).
  repeat constructor; apply respond_with_custom500; try apply Hp.
  apply bind_custom500; auto.
Qed.

Lemma js_truthy_str s : s <> EmptyString -> js_truthy (Some (JStr s)) = true.
Proof. intros Hs. simpl. apply String.eqb_neq in Hs. now rewrite Hs. Qed.

(** C23 (error). [POST /save-query] without a truthy [query] or a truthy
    [query_name] in its JSON object body replies 400 ["No query
    provided"] and touches nothing. *)
Theorem saveQueryController_requires_fields r ms w :
  req_body r = JObj ms ->
  js_truthy (lookup_member "query" ms) && js_truthy (lookup_member "query_name" ms) = false ->
  saveQueryController r w =
  (Ok (Json 400 (JObj [("status", JStr "fail"); ("message", JStr "No query provided")])), w).
Proof.
  intros Hb Hf. unfold saveQueryController, catch, io_bind, lift. rewrite Hb. cbn [js_get].
  destruct (js_truthy (lookup_member "query" ms)) eqn:Hq; simpl in Hf.
  - rewrite Hf. destruct (lookup_member "query" ms), (lookup_member "query_name" ms); reflexivity.
  - destruct (lookup_member "query" ms); reflexivity.
Qed.

(** C13 (functional). [POST /save-query] with non-empty string [query] and
    [query_name] creates the table if needed and appends one row (two
    fresh [randomUUID]s, the query, its name as [prompt]), then replies
    200 with a body that has no [data]. *)
Theorem saveQueryController_saves r ms q n w :
  req_body r = JObj ms -> lookup_member "query" ms = Some (JStr q) ->
  lookup_member "query_name" ms = Some (JStr n) -> q <> EmptyString -> n <> EmptyString ->
  db_reachable (w_db w) = true ->
  saveQueryController r w =
  (Ok (Json 200 (JObj [("status", JStr "success")])),
   {| w_db := {| db_reachable := true; table_exists := true;
                 rows := rows (w_db w) ++
                         [{| row_id := next_id (w_db w); customer_id := uuid_of (w_uuids w);
                             prompt_id := uuid_of (S (w_uuids w)); query_text := q; prompt := n |}];
                 next_id := (next_id (w_db w) + 1)%Z; checked_out := checked_out (w_db w) |};
      w_calls := w_calls w; w_uuids := S (S (w_uuids w)) |}).
Proof.
  intros Hb Hq Hn Hq' Hn' Hr. destruct w as [[reach tbl rs nid co] calls u]; simpl in Hr; subst reach.
  unfold saveQueryController, catch, io_bind at 1 2, lift. rewrite Hb. cbn [js_get].
  rewrite Hq, (js_truthy_str q Hq'). cbn [js_get]. rewrite Hn, (js_truthy_str n Hn'). cbn [andb].
  unfold io_bind. rewrite createTable_ok. cbn beta iota. rewrite saveQuery_inserts. reflexivity.
Qed.

(** ** The response service *)

Lemma executeById_run `{Backend} e id w :
  db_reachable (w_db w) = true -> table_exists (w_db w) = true ->
  executeById e id w =
  let resp := hd_error (map query_text (filter (fun r => String.eqb (prompt_id r) id) (rows (w_db w)))) in
  let data := json_stringify (JObj [("query", match resp with Some s => JStr s | None => JNull end)]) in
  (match respond (PostExecute (DATA_MANAGER_EXECUTE_ENDPOINT e) data) with
   | Ok d => Ok d
   | Err x => Err (CustomError 500 ("Error executing by id " ++
                                    exn_to_string (CustomError 500 ("Axios error " ++ exn_to_string x) None) ++
                                    " ") None)
   end,
   {| w_db := w_db w; w_calls := (w_calls w ++ [PostExecute (DATA_MANAGER_EXECUTE_ENDPOINT e) data])%list;
      w_uuids := w_uuids w |}).
Proof.
  intros Hr Ht. unfold executeById, catch at 1, io_bind at 1.
  rewrite getSavedQueryById_table by assumption. cbv zeta.
  unfold catch, external, throw. now destruct (respond _).
Qed.

(** C28 (spec gap). [GET /execute/:id] for an id under which nothing was
    saved is not rejected: the service posts [{"query":null}] to the
    data manager's execute endpoint. *)
Theorem executeById_posts_null_for_unknown_id `{Backend} e id w :
  db_reachable (w_db w) = true -> table_exists (w_db w) = true ->
  Forall (fun r => prompt_id r <> id) (rows (w_db w)) ->
  w_calls (snd (executeById e id w)) =
  (w_calls w ++ [PostExecute (DATA_MANAGER_EXECUTE_ENDPOINT e) ("{" ++ dq ++ "query" ++ dq ++ ":null}")])%list.
Proof.
  intros Hr Ht Hf. rewrite executeById_run by assumption. cbv zeta. now rewrite filter_fresh.
Qed.

(** C27 (error). A failed execute request reaches [next] wrapped twice:
    the [.catch] of the request and the service's own [catch] each add
    their prefix and [Error.prototype.toString]'s ["Error: "]. *)
Theorem executeById_failure_wrapped_twice `{Backend} e id w m :
  db_reachable (w_db w) = true -> table_exists (w_db w) = true ->
  (forall data, respond (PostExecute (DATA_MANAGER_EXECUTE_ENDPOINT e) data) = Err (AxiosError m)) ->
  fst (executeById e id w) =
  Err (CustomError 500 ("Error executing by id Error: Axios error " ++ exn_to_string (AxiosError m) ++ " ")
                   None).
Proof. intros Hr Ht Hx. rewrite executeById_run by assumption. cbv zeta. now rewrite Hx. Qed.

(** ** Witnesses *)

Lemma saveQueryController_requires_fields_witness :
  saveQueryController {| req_query := []; req_body := JObj [("query", JStr "SELECT 1")]; req_params := [] |}
    (start_world fresh_db) =
  (Ok (Json 400 (JObj [("status", JStr "fail"); ("message", JStr "No query provided")])), start_world fresh_db).
Proof. apply saveQueryController_requires_fields with (ms := [("query", JStr "SELECT 1")]); reflexivity. Defined.

Lemma saveQueryController_saves_witness :
  fst (saveQueryController {| req_query := [];
                              req_body := JObj [("query", JStr "SELECT 1"); ("query_name", JStr "one")];
                              req_params := [] |} (start_world fresh_db)) =
  Ok (Json 200 (JObj [("status", JStr "success")])).
Proof.
  rewrite (saveQueryController_saves _ [("query", JStr "SELECT 1"); ("query_name", JStr "one")]
             "SELECT 1" "one"); first [reflexivity | discriminate].
Defined.

Lemma executeById_posts_null_for_unknown_id_witness :
  let w := snd (createTable (start_world fresh_db)) in
  w_calls (snd (@executeById null_backend test_env "nobody" w)) =
  [PostExecute (Some "http://dm/execute") ("{" ++ dq ++ "query" ++ dq ++ ":null}")].
Proof. cbv zeta. apply (@executeById_posts_null_for_unknown_id null_backend); try reflexivity. constructor. Defined.

Lemma executeById_failure_wrapped_twice_witness :
  let w := snd (createTable (start_world fresh_db)) in
  fst (@executeById failing_backend test_env "p1" w) =
  Err (CustomError 500 ("Error executing by id Error: Axios error AxiosError: Request failed with status code 500 ")
                   None).
Proof.
  cbv zeta.
  apply (@executeById_failure_wrapped_twice failing_backend test_env "p1" _ "Request failed with status code 500");
    reflexivity.
Defined.
