(* ===== verification/Router.v ===== *)
(** The Express application of src/middleware/index.ts: the route table,
    Express's path matching for it, the [GET /] switch on [?type=], and
    the error middleware.  Express 4 compiles a route path such as
    [/execute/:id] to the regular expression [^\/execute\/([^\/]+?)\/?$]
    with the [i] flag: literal segments match case-insensitively, a
    parameter is a non-empty segment, and one trailing slash is allowed.
    The first route whose method and path match handles the request. *)

From Stdlib Require Import String Ascii ZArith List Lia Bool.
From S2P Require Import Prelude Js World SavedQueries QueryService PromptService Controllers.
Import ListNotations.
Local Open Scope string_scope.
Local Open Scope io_scope.

Module Router.
Import Js World SavedQueries QueryService PromptService Controllers.

(** ** Path matching *)

Inductive http_method : Type := GET | POST | PUT | DELETE.

Definition method_eqb (m1 m2 : http_method) : bool :=
  match m1, m2 with
  | GET, GET | POST, POST | PUT, PUT | DELETE, DELETE => true
  | _, _ => false
  end.

Definition method_text (m : http_method) : string :=
  match m with GET => "GET" | POST => "POST" | PUT => "PUT" | DELETE => "DELETE" end.

(** A request as the router sees it: [req.method], [req.path] (without
    the query string), [req.query] and [req.body]. *)
Record http_request : Type := {
  method : http_method;
  path : string;
  query : list (string * json);
  body : json
}.

(** A segment of a route path: a literal or a [:name] parameter. *)
Inductive segment : Type := Lit (s : string) | Param (name : string).

Definition slash : ascii := "/".

(** ASCII case folding of the [i] flag. *)
Definition lower (c : ascii) : ascii :=
  let n := nat_of_ascii c in
  if ((65 <=? n) && (n <=? 90))%nat then ascii_of_nat (n + 32) else c.

Fixpoint lower_string (s : string) : string :=
  match s with
  | EmptyString => EmptyString
  | String c s' => String (lower c) (lower_string s')
  end.

(** [s.split("/")] *)
Fixpoint split_slash (s : string) : list string :=
  match s with
  | EmptyString => [EmptyString]
  | String c s' =>
      if Ascii.eqb c slash then EmptyString :: split_slash s'
      else match split_slash s' with
           | x :: xs => String c x :: xs
           | [] => [String c EmptyString]
           end
  end.

(** The segments after the leading slash, one trailing slash dropped. *)
Definition path_segments (p : string) : option (list string) :=
  match p with
  | EmptyString => Some []
  | String c r =>
      if Ascii.eqb c slash then
        let segs := split_slash r in
        Some (match last segs "x" with
              | EmptyString => removelast segs
              | _ => segs
              end)
      else None
  end.

Fixpoint match_segments (pat : list segment) (segs : list string) : option (list (string * string)) :=
  match pat, segs with
  | [], [] => Some []
  | Lit l :: pat', s :: segs' =>
      if String.eqb (lower_string l) (lower_string s) then match_segments pat' segs' else None
  | Param n :: pat', s :: segs' =>
      if String.eqb s EmptyString then None
      else option_map (cons (n, s)) (match_segments pat' segs')
  | _, _ => None
  end.

(** Whether the route path matches, and the parameters it binds. *)
Definition match_path (pat : list segment) (p : string) : option (list (string * string)) :=
  match path_segments p with
  | Some segs => match_segments pat segs
  | None => None
  end.

(** ** The application *)

(** What the client gets: a reply, Express's own 404 page ["Cannot
    METHOD path"], or nothing when an [async] handler rejects (Express 4
    does not catch a rejected promise). *)
Inductive outcome : Type :=
| Sent (r : reply)
| NotFound (m : http_method) (p : string)
| Unhandled (err : js_exn).

(** A route: its method, its path, whether its handler reports errors
    through [next] (to [globalErrorHandler]) and the handler. *)
Record route : Type := {
  route_method : http_method;
  route_path : list segment;
  uses_next : bool;
  handler : request -> io reply
}.

Section App.
Context `{Backend}.
Variable e : env.

(** Lines 29-56: [switch (query.type)] compares with [===]. *)
Definition root (r : request) : io reply :=
  let hello := ret (Text 200 "Hello, World!") in
  match query_param r "type" with
  | Some (JStr t) =>
      if String.eqb t "unique-counts" then getUniqueCounts e r
      else if String.eqb t "session-broken-down-by-month" then getSessionBrokeByMonth e r
      else if String.eqb t "session-broken-down-by-day" then getSessionBrokeByDay e r
      else if String.eqb t "ad-stats-by-time" then getAdStatsByTime e r
      else if String.eqb t "impression-stats-by-time" then getImpressionStatsByTime e r
      else if String.eqb t "total-RAO" then getTotalRAO e r
      else if String.eqb t "cpc-rate" then getCPC e r
      else if String.eqb t "donut-chart" then getDonutChart e r
      else if String.eqb t "pie-chart" then getPieChart e r
      else hello
  | _ => hello
  end.

(** Lines 29-60, in registration order. *)
Definition routes : list route :=
  [ {| route_method := GET; route_path := []; uses_next := false; handler := root |};
    {| route_method := GET; route_path := [Lit "getPrompts"]; uses_next := true; handler := getAllData |};
    {| route_method := GET; route_path := [Lit "execute"; Param "id"]; uses_next := true;
       handler := executeByIdController e |};
    {| route_method := POST; route_path := [Lit "save-query"]; uses_next := false;
       handler := saveQueryController |};
    {| route_method := POST; route_path := [Lit "completion"]; uses_next := false;
       handler := generatePromptController e |} ].

(** The first route that matches, with the parameters it binds. *)
Fixpoint find_route (rs : list route) (req : http_request) : option (route * list (string * string)) :=
  match rs with
  | [] => None
  | rt :: rs' =>
      if method_eqb (route_method rt) (method req) then
        match match_path (route_path rt) (path req) with
        | Some params => Some (rt, params)
        | None => find_route rs' req
        end
      else find_route rs' req
  end.

(** The application, [app.use(globalErrorHandler)] (line 64) included. *)
Definition app (req : http_request) : io outcome :=
  match find_route routes req with
  | None => ret (NotFound (method req) (path req))
  | Some (rt, params) =>
      let r := {| req_query := query req; req_body := body req; req_params := params |} in
      fun w => match handler rt r w with
               | (Ok rep, w') => (Ok (Sent rep), w')
               | (Err err, w') =>
                   if uses_next rt then (Ok (Sent (globalErrorHandler err)), w')
                   else (Ok (Unhandled err), w')
               end
  end.

End App.

(** The nine values of [?type=] the switch of [GET /] knows. *)
Definition known_types : list string :=
  ["unique-counts"; "session-broken-down-by-month"; "session-broken-down-by-day"; "ad-stats-by-time";
   "impression-stats-by-time"; "total-RAO"; "cpc-rate"; "donut-chart"; "pie-chart"].

End Router.

Import Js World SavedQueries QueryService PromptService Controllers Router.

(** ** Path matching *)

Lemma split_slash_plain x : count_char slash x = 0 -> split_slash x = [x].
Proof.
  induction x as [|c x IH]; intros Hx; [reflexivity|]. cbn [count_char] in Hx. cbn [split_slash append].
  destruct (Ascii.eqb slash c) eqn:Hc; [discriminate|].
  rewrite Ascii.eqb_sym, Hc, IH by exact Hx. reflexivity.
Qed.

Lemma split_slash_app x rest :
  count_char slash x = 0 -> split_slash (x ++ String slash rest) = x :: split_slash rest.
Proof.
  induction x as [|c x IH]; intros Hx; [reflexivity|]. cbn [count_char] in Hx. cbn [split_slash append].
  destruct (Ascii.eqb slash c) eqn:Hc; [discriminate|].
  rewrite Ascii.eqb_sym, Hc, IH by exact Hx. reflexivity.
Qed.

(** Splitting a path built from slash-free segments gives them back. *)
Lemma split_slash_join segs :
  segs <> [] -> Forall (fun s => count_char slash s = 0) segs ->
  split_slash (join "/" segs) = segs.
Proof.
  unfold join. induction segs as [|x [|y segs] IH]; intros Hne Hf; [congruence| |].
  - inversion Hf; subst. change (String.concat "/" [x]) with x. now apply split_slash_plain.
  - inversion Hf; subst. change (String.concat "/" (x :: y :: segs)) with
      (x ++ String slash (String.concat "/" (y :: segs))).
    rewrite split_slash_app by assumption. f_equal. apply IH; [discriminate|assumption].
Qed.

Lemma last_app_single {A} (l : list A) (x d : A) : last (l ++ [x]) d = x.
Proof. induction l as [|a [|b l] IH]; [reflexivity|reflexivity|exact IH]. Qed.

Lemma last_nonempty_string (segs : list string) :
  segs <> [] -> Forall (fun s => s <> EmptyString) segs ->
  match last segs "x" with EmptyString => removelast segs | _ => segs end = segs.
Proof.
  intros Hne Hf. destruct (exists_last Hne) as (l & x & ->).
  rewrite last_app_single. apply Forall_app in Hf as [_ Hx]. inversion Hx; subst.
  destruct x; [congruence|reflexivity].
Qed.

Lemma removelast_snoc {A} (l : list A) (x : A) : removelast (l ++ [x]) = l.
Proof. induction l as [|a [|b l] IH]; [reflexivity|reflexivity|]. simpl in *. now rewrite IH. Qed.

Lemma path_segments_join segs :
  segs <> [] -> Forall (fun s => s <> EmptyString /\ count_char slash s = 0) segs ->
  path_segments ("/" ++ join "/" segs) = Some segs /\
  path_segments ("/" ++ join "/" segs ++ "/") = Some segs.
Proof.
  intros Hne Hf.
  assert (Hs : Forall (fun s => count_char slash s = 0) segs) by (revert Hf; apply Forall_impl; tauto).
  assert (Hn : Forall (fun s => s <> EmptyString) segs) by (revert Hf; apply Forall_impl; tauto).
  unfold path_segments. cbn [append]. rewrite Ascii.eqb_refl. split.
  - now rewrite split_slash_join, last_nonempty_string.
  - replace (join "/" segs ++ "/") with (join "/" (segs ++ [EmptyString])).
    + rewrite split_slash_join.
      * now rewrite last_app_single, removelast_snoc.
      * now destruct segs.
      * apply Forall_app. split; [exact Hs|]. repeat constructor.
    + unfold join. destruct (exists_last Hne) as (l & x & ->).
      rewrite <- app_assoc. clear. induction l as [|a [|b l] IH]; simpl; [reflexivity| |].
      * now rewrite string_app_assoc.
      * simpl in IH. rewrite IH. now rewrite string_app_assoc.
Qed.

(** A request path made of non-empty, slash-free
    segments, with or without one trailing slash, is split back into
    those segments: a route path matches it exactly when its segments
    match them, binding the same parameters. *)
Lemma match_path_segments pat segs :
  segs <> [] -> Forall (fun s => s <> EmptyString /\ count_char slash s = 0) segs ->
  match_path pat ("/" ++ join "/" segs) = match_segments pat segs /\
  match_path pat ("/" ++ join "/" segs ++ "/") = match_segments pat segs.
Proof.
  intros Hne Hf. unfold match_path. destruct (path_segments_join segs Hne Hf) as [-> ->]. now split.
Qed.

(** ** Routing *)

(** C14 (functional). [GET /execute/<id>], for any non-empty slash-free
    id, runs the response service on that id and replies 200 with the
    data manager's answer under [data] (and the number 200 as [status]),
    or passes the failure to [globalErrorHandler]. *)
Theorem app_execute_route `{Backend} e id q b w :
  id <> EmptyString -> count_char slash id = 0 ->
  app e {| method := GET; path := "/execute/" ++ id; query := q; body := b |} w =
  match executeById e id w with
  | (Ok d, w') => (Ok (Sent (Json 200 (JObj [("status", JNum 200); ("data", d)]))), w')
  | (Err x, w') => (Ok (Sent (globalErrorHandler x)), w')
  end.
Proof.
  intros Hne Hs.
  assert (Hp : path_segments ("/execute/" ++ id) = Some ["execute"; id])
    by (refine (proj1 (path_segments_join ["execute"; id] _ _));
        [discriminate | repeat constructor; first [discriminate | reflexivity | assumption]]).
  unfold app. cbn [find_route routes route_method route_path method path method_eqb].
  unfold match_path. rewrite Hp. cbn [match_segments].
  destruct (String.eqb_spec id EmptyString); [contradiction|]. cbn [option_map].
  change (lower_string "getPrompts" =? lower_string "execute") with false.
  change (lower_string "execute" =? lower_string "execute") with true. cbn iota beta.
  cbn [handler uses_next]. unfold executeByIdController, io_bind. cbn [lookup_text req_params].
  change ("id" =? "id") with true. cbn iota beta.
  destruct (executeById e id w) as [[]]; reflexivity.
Qed.

Lemma find_route_getPrompts `{Backend} e q b :
  find_route (routes e) {| method := GET; path := "/getPrompts"; query := q; body := b |} =
  Some ({| route_method := GET; route_path := [Lit "getPrompts"]; uses_next := true; handler := getAllData |}, []).
Proof. reflexivity. Qed.

(** C24 (error). [GET /getPrompts] against a database that refuses
    connections: the exception travels through [databasePg], the response
    service and [next] to [globalErrorHandler], which replies 500 with
    [status] ["error"] and the message each layer prefixed. *)
Theorem getPrompts_db_unreachable `{Backend} e q b w :
  db_reachable (w_db w) = false ->
  app e {| method := GET; path := "/getPrompts"; query := q; body := b |} w =
  (Ok (Sent (Json 500 (JObj [("status", JStr "error");
                             ("message", JStr ("Error getting all data Error: Error getting saved queries: " ++
                                               "Error: connect ECONNREFUSED"))]))), w).
Proof.
  intros Hr. destruct w as [[reach tbl rs nid co] calls u]; simpl in Hr; subst reach.
  reflexivity.
Qed.

(** C25 (functional). [GET /getPrompts] lists every saved row's
    [prompt_id] and [prompt] in insertion order, under [data], with the
    number 200 as [status] where the query routes send ["success"]. *)
Theorem getPrompts_lists_rows `{Backend} e q b w :
  db_reachable (w_db w) = true -> table_exists (w_db w) = true ->
  app e {| method := GET; path := "/getPrompts"; query := q; body := b |} w =
  (Ok (Sent (Json 200 (JObj [("status", JNum 200);
                             ("data", JArr (map (fun r => JObj [("prompt_id", JStr (prompt_id r));
                                                                 ("prompt", JStr (prompt r))])
                                                (rows (w_db w))))]))), w).
Proof.
  intros Hr Ht. destruct w as [[reach tbl rs nid co] calls u]; simpl in Hr, Ht; subst reach tbl.
  reflexivity.
Qed.

(** C36 (functional). [GET /] with a [type] that is not one of the nine
    the switch knows (or with none, or with a repeated one, which the
    query parser makes an array) answers ["Hello, World!"] and does
    nothing else. *)
Theorem root_hello `{Backend} e q b w :
  ~ In (lookup_member "type" q) (map (fun t => Some (JStr t)) known_types) ->
  app e {| method := GET; path := "/"; query := q; body := b |} w = (Ok (Sent (Text 200 "Hello, World!")), w).
Proof.
  intros Hn. unfold app. cbn [find_route routes route_method method method_eqb route_path path].
  change (match_path [] "/") with (Some (@nil (string * string))). cbn iota beta.
  cbn [handler uses_next]. unfold root, query_param. cbn [req_query Router.query].
  destruct (lookup_member "type" q) as [[]|]; try reflexivity.
  repeat match goal with
         | |- context [String.eqb s ?t] =>
             destruct (String.eqb_spec s t); [subst; exfalso; apply Hn; simpl; tauto|]
         end.
  reflexivity.
Qed.

(** C9 (functional). The route table of index.ts (lines 57-60): a
    one-segment path that is [getPrompts], [save-query] or [completion]
    in any letter case, with or without a trailing slash, reaches
    [getAllData] on [GET] (whose failures go through [next] to
    [globalErrorHandler]), and [saveQueryController] or
    [generatePromptController] on [POST] (async handlers: a rejection is
    not handled), with no route parameters. *)
Theorem app_dispatch `{Backend} e p s q b w :
  path_segments p = Some [s] ->
  let r := {| req_query := q; req_body := b; req_params := [] |} in
  (lower_string s = "getprompts" ->
   app e {| method := GET; path := p; query := q; body := b |} w =
   match getAllData r w with
   | (Ok rep, w') => (Ok (Sent rep), w')
   | (Err x, w') => (Ok (Sent (globalErrorHandler x)), w')
   end) /\
  (lower_string s = "save-query" ->
   app e {| method := POST; path := p; query := q; body := b |} w =
   match saveQueryController r w with
   | (Ok rep, w') => (Ok (Sent rep), w')
   | (Err x, w') => (Ok (Unhandled x), w')
   end) /\
  (lower_string s = "completion" ->
   app e {| method := POST; path := p; query := q; body := b |} w =
   match generatePromptController e r w with
   | (Ok rep, w') => (Ok (Sent rep), w')
   | (Err x, w') => (Ok (Unhandled x), w')
   end).
Proof.
  intros Hp r. unfold app, routes. cbn [find_route route_method method method_eqb route_path path].
  unfold match_path. rewrite Hp. cbn [match_segments].
  change (lower_string "getPrompts") with "getprompts".
  change (lower_string "save-query") with "save-query".
  change (lower_string "completion") with "completion".
  repeat split; intros Hs; rewrite Hs; cbn -[getAllData saveQueryController generatePromptController]; reflexivity.
Qed.

(** ** Witnesses *)

Lemma app_execute_route_witness :
  fst (@app null_backend test_env {| method := GET; path := "/execute/p1"; query := []; body := JObj [] |}
         (snd (createTable (start_world fresh_db)))) =
  Ok (Sent (Json 200 (JObj [("status", JNum 200); ("data", JNull)]))).
Proof.
  rewrite (@app_execute_route null_backend test_env "p1" [] (JObj [])); [reflexivity | discriminate | reflexivity].
Defined.

Lemma getPrompts_db_unreachable_witness :
  fst (@app null_backend test_env {| method := GET; path := "/getPrompts"; query := []; body := JObj [] |}
         (start_world {| db_reachable := false; table_exists := true; rows := []; next_id := 1%Z;
                         checked_out := 0 |})) =
  Ok (Sent (Json 500 (JObj [("status", JStr "error");
                            ("message", JStr ("Error getting all data Error: Error getting saved queries: " ++
                                              "Error: connect ECONNREFUSED"))]))).
Proof. rewrite getPrompts_db_unreachable; reflexivity. Defined.

Lemma getPrompts_lists_rows_witness :
  fst (@app null_backend test_env {| method := GET; path := "/getPrompts"; query := []; body := JObj [] |}
         (snd (createTable (start_world fresh_db)))) =
  Ok (Sent (Json 200 (JObj [("status", JNum 200); ("data", JArr [])]))).
Proof. rewrite getPrompts_lists_rows; reflexivity. Defined.

Lemma root_hello_witness :
  @app null_backend test_env {| method := GET; path := "/"; query := [("type", JStr "visits")]; body := JObj [] |}
    (start_world fresh_db) = (Ok (Sent (Text 200 "Hello, World!")), start_world fresh_db).
Proof. apply root_hello. simpl. intuition discriminate. Defined.

Lemma app_dispatch_witness :
  @app null_backend test_env {| method := POST; path := "/Save-Query/"; query := []; body := JObj [] |}
    (start_world fresh_db) =
  (Ok (Sent (Json 400 (JObj [("status", JStr "fail"); ("message", JStr "No query provided")]))),
   start_world fresh_db).
Proof.
  rewrite (proj1 (proj2 (@app_dispatch null_backend test_env "/Save-Query/" "Save-Query" [] (JObj [])
                           (start_world fresh_db) eq_refl)) eq_refl).
  reflexivity.
Defined.
