(* ===== verification/Items.v ===== *)
(** The items server of src/middleware/index.js: a second Express
    application that keeps an in-memory array [items] and serves CRUD
    routes on it.  Its state is the array; each request is one step that
    reads [req.params.id] with [parseInt], searches the array with
    [find]/[findIndex] on [i.id === id], and updates it by [push],
    index assignment or [splice].  Routes are matched by Express's path
    matching ([Router.match_path]); [express.json()] leaves an object or
    an array in [req.body] ([{}] when the request has no JSON body). *)

From Stdlib Require Import String Ascii ZArith List Lia Bool.
From stdpp Require Import base list.
From S2P Require Import Prelude Js Controllers Router.
Import ListNotations.
Local Open Scope string_scope.
Local Open Scope result_scope.

Module Items.
Import Js Controllers Router.

(** ** [parseInt] with no radix *)

(** The white space [parseInt] skips (the ASCII part of it). *)
Definition is_space (c : ascii) : bool :=
  let n := nat_of_ascii c in ((9 <=? n) && (n <=? 13))%nat || (n =? 32)%nat.

Fixpoint trim_start (s : string) : string :=
  match s with
  | String c s' => if is_space c then trim_start s' else s
  | EmptyString => s
  end.

(** The value of a digit in the given radix: [0-9], then [a-z] or [A-Z]
    from 10. *)
Definition digit_value (radix : Z) (c : ascii) : option Z :=
  let n := Z.of_nat (nat_of_ascii c) in
  let v := if ((48 <=? n) && (n <=? 57))%Z then Some (n - 48)%Z
           else if ((97 <=? n) && (n <=? 122))%Z then Some (n - 87)%Z
           else if ((65 <=? n) && (n <=? 90))%Z then Some (n - 55)%Z
           else None in
  match v with
  | Some d => if (d <? radix)%Z then Some d else None
  | None => None
  end.

(** The value of the longest prefix of digits, if it is not empty. *)
Fixpoint digits_prefix (radix : Z) (s : string) (acc : option Z) : option Z :=
  match s with
  | EmptyString => acc
  | String c s' =>
      match digit_value radix c with
      | Some d => digits_prefix radix s' (Some (radix * default 0%Z acc + d)%Z)
      | None => acc
      end
  end.

(** [parseInt(s)]: [None] is [NaN].  After the white space, an optional
    sign, then a ["0x"] or ["0X"] prefix selects radix 16.  Values are
    exact integers (the engine rounds above 2^53). *)
Definition parseInt (s : string) : option Z :=
  let s := trim_start s in
  let '(sign, s) := match s with
                    | String c r => if Ascii.eqb c "-" then ((-1)%Z, r)
                                    else if Ascii.eqb c "+" then (1%Z, r) else (1%Z, s)
                    | EmptyString => (1%Z, s)
                    end in
  let '(radix, s) := match s with
                     | String c (String x r) =>
                         if Ascii.eqb c "0" && (Ascii.eqb x "x" || Ascii.eqb x "X") then (16%Z, r)
                         else (10%Z, s)
                     | _ => (10%Z, s)
                     end in
  option_map (Z.mul sign) (digits_prefix radix s None).

(** ** The store and the handlers *)

(** [let items = []] *)
Record state : Type := { items : list json }.

Definition initial : state := {| items := [] |}.

(** [(i) => i.id === parseInt(req.params.id)]: [NaN] equals nothing. *)
Definition id_matches (n : option Z) (i : json) : result js_exn bool :=
  let* v := js_get i "id" in
  Ok (match v, n with
      | Some (JNum m), Some k => Z.eqb m k
      | _, _ => false
      end).

(** [items.findIndex(pred)], [None] for [-1]. *)
Fixpoint find_index (n : option Z) (l : list json) : result js_exn (option nat) :=
  match l with
  | [] => Ok None
  | i :: l' =>
      let* b := id_matches n i in
      if b then Ok (Some 0%nat)
      else let* r := find_index n l' in Ok (option_map S r)
  end.

Definition not_found : reply := Text 404 "Item not found".

(** Lines 9-11. *)
Definition getItems (s : state) : result js_exn reply * state := (Ok (Json 200 (JArr (items s))), s).

(** Lines 13-17: the body itself is stored. *)
Definition postItem (item : json) (s : state) : result js_exn reply * state :=
  (Ok (Json 201 item), {| items := items s ++ [item] |}).

(** Lines 19-26: [find] is the element at [findIndex]; [if (item)]
    tests its truthiness. *)
Definition getItem (id : string) (s : state) : result js_exn reply * state :=
  match find_index (parseInt id) (items s) with
  | Err x => (Err x, s)
  | Ok (Some k) => match items s !! k with
                   | Some item => if js_truthy (Some item) then (Ok (Json 200 item), s)
                                  else (Ok not_found, s)
                   | None => (Ok not_found, s)
                   end
  | Ok None => (Ok not_found, s)
  end.

(** Lines 28-36: [items[itemIndex] = req.body], the index being in range. *)
Definition putItem (id : string) (item : json) (s : state) : result js_exn reply * state :=
  match find_index (parseInt id) (items s) with
  | Err x => (Err x, s)
  | Ok (Some k) => (Ok (Json 200 item), {| items := <[k := item]> (items s) |})
  | Ok None => (Ok not_found, s)
  end.

(** Lines 38-46: [items.splice(itemIndex, 1)] and an empty 204. *)
Definition deleteItem (id : string) (s : state) : result js_exn reply * state :=
  match find_index (parseInt id) (items s) with
  | Err x => (Err x, s)
  | Ok (Some k) => (Ok (Text 204 ""), {| items := delete k (items s) |})
  | Ok None => (Ok not_found, s)
  end.

(** The application: the five routes in registration order; any other
    request gets Express's 404 page ([None]).  An exception of a handler
    is Express's 500 page. *)
Definition app (req : http_request) (s : state) : option (result js_exn reply * state) :=
  let id_of params := match params with [(_, id)] => id | _ => "" end in
  match method req with
  | GET =>
      match match_path [Lit "items"] (path req) with
      | Some _ => Some (getItems s)
      | None => option_map (fun ps => getItem (id_of ps) s) (match_path [Lit "items"; Param "id"] (path req))
      end
  | POST => option_map (fun _ => postItem (body req) s) (match_path [Lit "items"] (path req))
  | PUT => option_map (fun ps => putItem (id_of ps) (body req) s) (match_path [Lit "items"; Param "id"] (path req))
  | DELETE => option_map (fun ps => deleteItem (id_of ps) s) (match_path [Lit "items"; Param "id"] (path req))
  end.

End Items.

Import Js Controllers Router Items.

(** ** Searching the store *)

(** [findIndex] returns the first index whose element matches. *)
Lemma find_index_first n l k i :
  l !! k = Some i -> id_matches n i = Ok true ->
  (forall j i', (j < k)%nat -> l !! j = Some i' -> id_matches n i' = Ok false) ->
  find_index n l = Ok (Some k).
Proof.
  revert k; induction l as [|x l IH]; intros k Hk Hi Hb; [discriminate|]. simpl.
  destruct k as [|k].
  - injection Hk as ->. now rewrite Hi.
  - rewrite (Hb 0%nat x ltac:(lia) eq_refl). simpl.
    rewrite (IH k Hk Hi); [reflexivity|]. intros j i' Hj Hji. apply (Hb (S j)); [lia|exact Hji].
Qed.

(** An element pushed after a store with no match is found at the end. *)
Lemma find_index_snoc n l x :
  find_index n l = Ok None -> id_matches n x = Ok true -> find_index n (l ++ [x]) = Ok (Some (length l)).
Proof.
  revert x; induction l as [|y l IH]; intros x Hl Hx; simpl in *; [now rewrite Hx|].
  destruct (id_matches n y) as [[]|e]; simpl in *; try discriminate.
  destruct (find_index n l) as [[]|e]; simpl in *; try discriminate.
  now rewrite (IH x eq_refl Hx).
Qed.

Lemma items_id_path idtext :
  idtext <> EmptyString -> count_char slash idtext = 0 ->
  match_path [Lit "items"] ("/items/" ++ idtext) = None /\
  match_path [Lit "items"; Param "id"] ("/items/" ++ idtext) = Some [("id", idtext)].
Proof.
  intros Hne Hs.
  assert (Hp : path_segments ("/items/" ++ idtext) = Some ["items"; idtext])
    by (refine (proj1 (path_segments_join ["items"; idtext] _ _));
        [discriminate | repeat constructor; first [discriminate | reflexivity | assumption]]).
  unfold match_path. rewrite Hp. cbn [match_segments].
  change (lower_string "items" =? lower_string "items") with true.
  destruct (String.eqb_spec idtext EmptyString); [contradiction|]. split; reflexivity.
Qed.

(** ** The store invariant *)

(** ** Create, read, delete *)

Lemma id_matches_obj ms n : lookup_member "id" ms = Some (JNum n) -> id_matches (Some n) (JObj ms) = Ok true.
Proof. intros Hid. unfold id_matches. simpl. rewrite Hid. simpl. now rewrite Z.eqb_refl. Qed.

(** C10 (roundtrip). After [POST /items] of an object whose [id] is [n],
    when no stored item had that id, [GET /items/<s>] for any id text [s]
    that [parseInt] reads as [n] returns that object. *)
Theorem post_then_get s ms n idtext q b :
  idtext <> EmptyString -> count_char slash idtext = 0 -> parseInt idtext = Some n ->
  lookup_member "id" ms = Some (JNum n) -> find_index (Some n) (items s) = Ok None ->
  app {| method := GET; path := "/items/" ++ idtext; query := q; body := b |} (snd (postItem (JObj ms) s)) =
  Some (Ok (Json 200 (JObj ms)), snd (postItem (JObj ms) s)).
Proof.
  intros Hne Hs Hp Hid Hnone. destruct (items_id_path idtext Hne Hs) as [H1 H2].
  unfold app. cbn [method path]. rewrite H1, H2. cbn [option_map].
  unfold getItem. rewrite Hp. cbn [snd postItem items].
  rewrite (find_index_snoc _ _ _ Hnone (id_matches_obj _ _ Hid)).
  now rewrite list_lookup_middle.
Qed.

(** C15 (functional). [DELETE /items/<s>] removes exactly the first item
    whose [id] is [parseInt(s)]: the store becomes the items before it
    followed by the items after it, and the reply is an empty 204. *)
Theorem delete_removes_first_match s idtext n k i q b :
  idtext <> EmptyString -> count_char slash idtext = 0 -> parseInt idtext = Some n ->
  items s !! k = Some i -> id_matches (Some n) i = Ok true ->
  (forall j i', (j < k)%nat -> items s !! j = Some i' -> id_matches (Some n) i' = Ok false) ->
  app {| method := DELETE; path := "/items/" ++ idtext; query := q; body := b |} s =
  Some (Ok (Text 204 ""), {| items := take k (items s) ++ drop (S k) (items s) |}).
Proof.
  intros Hne Hs Hp Hk Hi Hb. destruct (items_id_path idtext Hne Hs) as [_ H2].
  unfold app. cbn [method path]. rewrite H2. cbn [option_map].
  unfold deleteItem. rewrite Hp, (find_index_first _ _ _ _ Hk Hi Hb).
  now rewrite delete_take_drop.
Qed.

Lemma find_index_none n l :
  Forall (fun i => id_matches n i = Ok false) l -> find_index n l = Ok None.
Proof. induction 1 as [|i l Hi _ IH]; [reflexivity|]. simpl. now rewrite Hi, IH. Qed.

(** C11 (functional). [PUT /items/<s>] replaces exactly the first item
    whose [id] is [parseInt(s)] by the request body as it is (its [id] is
    not checked), keeping the other items in place, and replies 200 with
    the body; when no item matches it replies 404 and changes nothing. *)
Theorem put_replaces_first_match s idtext n item q :
  idtext <> EmptyString -> count_char slash idtext = 0 -> parseInt idtext = Some n ->
  (forall k i, items s !! k = Some i -> id_matches (Some n) i = Ok true ->
     (forall j i', (j < k)%nat -> items s !! j = Some i' -> id_matches (Some n) i' = Ok false) ->
     app {| method := PUT; path := "/items/" ++ idtext; query := q; body := item |} s =
     Some (Ok (Json 200 item), {| items := take k (items s) ++ item :: drop (S k) (items s) |})) /\
  (Forall (fun i => id_matches (Some n) i = Ok false) (items s) ->
   app {| method := PUT; path := "/items/" ++ idtext; query := q; body := item |} s =
   Some (Ok not_found, s)).
Proof.
  intros Hne Hs Hp. destruct (items_id_path idtext Hne Hs) as [_ H2].
  unfold app. cbn [method path body]. rewrite H2. cbn [option_map]. unfold putItem. rewrite Hp.
  split.
  - intros k i Hk Hi Hb. rewrite (find_index_first _ _ _ _ Hk Hi Hb).
    rewrite insert_take_drop; [reflexivity|]. apply lookup_lt_Some in Hk. exact Hk.
  - intros Hf. now rewrite find_index_none.
Qed.

(** [parseInt] stops at the first character that is not a digit. *)
Lemma digits_prefix_app radix s rest acc :
  forallb (fun c => match digit_value radix c with Some _ => true | None => false end) (list_ascii_of_string s) = true ->
  match rest with String c _ => digit_value radix c = None | EmptyString => True end ->
  digits_prefix radix (s ++ rest) acc = digits_prefix radix s acc.
Proof.
  revert acc; induction s as [|c s IH]; intros acc Hs Hr; simpl in *.
  - destruct rest as [|c rest]; [reflexivity|]. simpl. now rewrite Hr.
  - apply andb_prop in Hs as [Hc Hs]. destruct (digit_value radix c); [|discriminate]. now apply IH.
Qed.

Lemma digit_bounds c v : digit_value 10 c = Some v -> (48 <= nat_of_ascii c <= 57)%nat.
Proof.
  unfold digit_value. set (n := Z.of_nat (nat_of_ascii c)).
  destruct ((48 <=? n) && (n <=? 57))%Z eqn:H1.
  - intros _. apply andb_prop in H1 as [H1 H2]. apply Z.leb_le in H1, H2. unfold n in *. lia.
  - destruct ((97 <=? n) && (n <=? 122))%Z eqn:H2.
    + destruct (n - 87 <? 10)%Z eqn:H4; [|discriminate]. apply Z.ltb_lt in H4.
      apply andb_prop in H2 as [H5 H6]. apply Z.leb_le in H5. lia.
    + destruct ((65 <=? n) && (n <=? 90))%Z eqn:H3; [|discriminate].
      destruct (n - 55 <? 10)%Z eqn:H4; [|discriminate]. apply Z.ltb_lt in H4.
      apply andb_prop in H3 as [H5 H6]. apply Z.leb_le in H5. lia.
Qed.

(** A numeral that starts with a digit other than 0 is read in radix 10
    from its first character. *)
Lemma parseInt_digit_start c t v :
  digit_value 10 c = Some v -> c <> "0"%char -> parseInt (String c t) = digits_prefix 10 (String c t) None.
Proof.
  intros Hv H0. pose proof (digit_bounds c v Hv) as Hb.
  assert (Hsp : is_space c = false)
    by (unfold is_space; cbv zeta; apply Bool.orb_false_iff;
        split; [apply andb_false_iff; right; apply Nat.leb_gt | apply Nat.eqb_neq]; lia).
  assert (Hm : Ascii.eqb c "-" = false)
    by (apply Ascii.eqb_neq; intros ->; cbv in Hb; lia).
  assert (Hp : Ascii.eqb c "+" = false)
    by (apply Ascii.eqb_neq; intros ->; cbv in Hb; lia).
  apply Ascii.eqb_neq in H0.
  unfold parseInt. cbn [trim_start]. rewrite Hsp, Hm, Hp.
  destruct t as [|x t]; rewrite ?H0; simpl andb; cbv iota beta;
    destruct (digits_prefix 10 _ None); simpl; f_equal; lia.
Qed.

(** C35 (spec gap). An item is addressed by the integer prefix of the id
    segment: [/items/7abc] and [/items/7] (any decimal numeral not
    starting with 0, followed by any slash-free text that does not start
    with a digit) reach the same item, or the same 404. *)
Theorem get_by_id_prefix s d ds rest q b :
  forallb (fun c => match digit_value 10 c with Some _ => true | None => false end)
          (list_ascii_of_string (String d ds)) = true ->
  d <> "0"%char -> count_char slash (String d ds ++ rest) = 0 ->
  match rest with String c _ => digit_value 10 c = None | EmptyString => True end ->
  app {| method := GET; path := "/items/" ++ String d ds ++ rest; query := q; body := b |} s =
  app {| method := GET; path := "/items/" ++ String d ds; query := q; body := b |} s.
Proof.
  intros Hd H0 Hs Hr.
  assert (Hs' : count_char slash (String d ds) = 0)
    by (rewrite count_char_app in Hs; lia).
  destruct (items_id_path (String d ds ++ rest) ltac:(discriminate) Hs) as [H1 H2].
  destruct (items_id_path (String d ds) ltac:(discriminate) Hs') as [H1' H2'].
  unfold app. cbn [method path]. rewrite H1, H2, H1', H2'. cbn [option_map].
  assert (Hdv : exists v, digit_value 10 d = Some v)
    by (simpl in Hd; destruct (digit_value 10 d); [eauto|discriminate]).
  destruct Hdv as [v Hv]. unfold getItem.
  change (String d ds ++ rest) with (String d (ds ++ rest)).
  rewrite !(parseInt_digit_start d _ v Hv H0).
  change (String d (ds ++ rest)) with (String d ds ++ rest). now rewrite digits_prefix_app.
Qed.

(** ** Witnesses *)

Lemma post_then_get_witness :
  app {| method := GET; path := "/items/7"; query := []; body := JObj [] |}
      (snd (postItem (JObj [("id", JNum 7)]) initial)) =
  Some (Ok (Json 200 (JObj [("id", JNum 7)])), snd (postItem (JObj [("id", JNum 7)]) initial)).
Proof. apply (post_then_get initial [("id", JNum 7)] 7 "7"); first [discriminate | reflexivity]. Defined.

Lemma delete_removes_first_match_witness :
  let st := {| items := [JObj [("id", JNum 1)]; JObj [("id", JNum 7); ("v", JNum 0)];
                         JObj [("id", JNum 7); ("v", JNum 1)]] |} in
  app {| method := DELETE; path := "/items/7"; query := []; body := JObj [] |} st =
  Some (Ok (Text 204 ""), {| items := [JObj [("id", JNum 1)]; JObj [("id", JNum 7); ("v", JNum 1)]] |}).
Proof.
  cbv zeta.
  rewrite (delete_removes_first_match _ "7" 7 1 (JObj [("id", JNum 7); ("v", JNum 0)]));
    [reflexivity | discriminate | reflexivity.. |].
  intros [|j] i' Hj Hji; [injection Hji as <-; reflexivity | lia].
Defined.

Lemma get_by_id_prefix_witness :
  let st := {| items := [JObj [("id", JNum 7)]] |} in
  app {| method := GET; path := "/items/7abc"; query := []; body := JObj [] |} st =
  app {| method := GET; path := "/items/7"; query := []; body := JObj [] |} st.
Proof.
  cbv zeta. exact (get_by_id_prefix _ "7" "" "abc" [] (JObj []) eq_refl ltac:(discriminate) eq_refl eq_refl).
Defined.

Lemma put_replaces_first_match_witness :
  let st := {| items := [JObj [("id", JNum 7); ("v", JNum 0)]; JObj [("id", JNum 7); ("v", JNum 1)]] |} in
  app {| method := PUT; path := "/items/7"; query := []; body := JObj [("id", JNum 8)] |} st =
  Some (Ok (Json 200 (JObj [("id", JNum 8)])),
        {| items := [JObj [("id", JNum 8)]; JObj [("id", JNum 7); ("v", JNum 1)]] |}).
Proof.
  intros st.
  apply (proj1 (put_replaces_first_match st "7" 7 (JObj [("id", JNum 8)]) [] ltac:(discriminate) eq_refl eq_refl)
           0 (JObj [("id", JNum 7); ("v", JNum 0)]) eq_refl eq_refl).
  intros j i' Hj. lia.
Defined.
